(** * mcp-memory: the modification gate of the AI memory server

  A shallow embedding of the three classes that decide whether an
  assistant may modify a file, and of the tool handlers that compose
  them:

  - [MetadataParser] (src/metadata-parser.ts): extraction of the
    [@ai-metadata] block of a file and its textual update;
  - [RuleEngine] (src/rule-engine.ts): the hard-coded checks, the rule
    list and the decision;
  - [MemoryManager] (src/memory-manager.ts): the approval ledger kept
    in [.ai-memory/project-memory.json];
  - [Server] (src/index.ts): the tool handlers
    [check_before_modification], [get_modification_actions], ...

  Text is a [string] whose characters are the code units of the
  JavaScript string; the model covers code units below 256.  Stateful
  code runs in a state-and-exception monad over the file system, the
  rule list with the identity of its objects, the console, and the
  objects that every plain object inherits from: the ledger and the
  table of the metadata update are plain objects indexed by strings
  that come from outside, so a key such as [constructor] or
  [__proto__] reaches an inherited member. *)

From Stdlib Require Import Ascii String List ZArith Bool Lia.
From stdpp Require Import base option gmap strings.

Local Open Scope Z_scope.
Local Open Scope list_scope.

(** ** JavaScript strings and the regular expressions of the parser *)

Module Js.

Definition LF : ascii := "010"%char.
Definition CR : ascii := "013"%char.
Definition dquote : ascii := "034"%char.
Definition squote : ascii := "039"%char.
Definition backslash : ascii := "092"%char.

Definition chr (c : ascii) : string := String c EmptyString.

(** The class [\s] on code units below 256: TAB, LF, VT, FF, CR, SP and
    NBSP.  [String.prototype.trim] strips the same set. *)
Definition isWhiteSpace (c : ascii) : bool :=
  let n := nat_of_ascii c in
  Nat.eqb n 9 || Nat.eqb n 10 || Nat.eqb n 11 || Nat.eqb n 12
  || Nat.eqb n 13 || Nat.eqb n 32 || Nat.eqb n 160.

(** The complement of the class [[^\n\r]]. *)
Definition isLineBreak (c : ascii) : bool :=
  Ascii.eqb c LF || Ascii.eqb c CR.

Definition isQuote (c : ascii) : bool :=
  Ascii.eqb c squote || Ascii.eqb c dquote.

Definition isDigit (c : ascii) : bool :=
  let n := nat_of_ascii c in Nat.leb 48 n && Nat.leb n 57.

(** Canonicalisation of the [i] flag on code units below 256: a-z fold
    onto A-Z, and the letters 224-254 other than the division sign onto
    192-222.  No unit above 127 folds onto an ASCII one; the sharp s
    (223) keeps its place because its upper case is two units long, and
    the micro sign (181) and the y with diaeresis (255) fold onto units
    above 255, which no text of the model holds. *)
Definition upper (c : ascii) : ascii :=
  let n := nat_of_ascii c in
  if Nat.leb 97 n && Nat.leb n 122 then ascii_of_nat (n - 32)
  else if Nat.leb 224 n && Nat.leb n 254 && negb (Nat.eqb n 247)
       then ascii_of_nat (n - 32)
  else c.

Definition eqbCI (a b : ascii) : bool := Ascii.eqb (upper a) (upper b).

Fixpoint takeWhile (f : ascii -> bool) (s : string) : string :=
  match s with
  | EmptyString => EmptyString
  | String c r => if f c then String c (takeWhile f r) else EmptyString
  end.

Fixpoint dropWhile (f : ascii -> bool) (s : string) : string :=
  match s with
  | EmptyString => EmptyString
  | String c r => if f c then dropWhile f r else s
  end.

Fixpoint filterOut (f : ascii -> bool) (s : string) : string :=
  match s with
  | EmptyString => EmptyString
  | String c r => if f c then filterOut f r else String c (filterOut f r)
  end.

Fixpoint rev (s : string) : string :=
  match s with
  | EmptyString => EmptyString
  | String c r => rev r +:+ chr c
  end.

(** [s.trim()] *)
Definition trim (s : string) : string :=
  rev (dropWhile isWhiteSpace (rev (dropWhile isWhiteSpace s))).

(** [replace] with the global class of the two quote characters and
    the empty replacement: every quote is removed. *)
Definition stripQuotes (s : string) : string := filterOut isQuote s.

(** [replace] of every single quote by a double quote. *)
Fixpoint singleToDouble (s : string) : string :=
  match s with
  | EmptyString => EmptyString
  | String c r =>
      String (if Ascii.eqb c squote then dquote else c) (singleToDouble r)
  end.

(** [s.split(',')] *)
Fixpoint splitComma (s : string) : list string :=
  match s with
  | EmptyString => [EmptyString]
  | String c r =>
      if Ascii.eqb c ","%char then EmptyString :: splitComma r
      else match splitComma r with
           | [] => [chr c]
           | x :: xs => String c x :: xs
           end
  end.

(** A literal at the head of the subject: the rest after it. *)
Fixpoint startsWith (p s : string) : option string :=
  match p with
  | EmptyString => Some s
  | String a p' =>
      match s with
      | EmptyString => None
      | String b s' => if Ascii.eqb a b then startsWith p' s' else None
      end
  end.

(** The same under the [i] flag: the text that matched and the rest. *)
Fixpoint startsWithCI (p s : string) : option (string * string) :=
  match p with
  | EmptyString => Some (EmptyString, s)
  | String a p' =>
      match s with
      | EmptyString => None
      | String b s' =>
          if eqbCI a b then
            match startsWithCI p' s' with
            | Some (m, r) => Some (String b m, r)
            | None => None
            end
          else None
      end
  end.

(** One successful match of a regular expression in a subject:
    [subject = before ++ matched ++ after]; [group1] is the first
    capture group, when the expression has one. *)
Record Match : Type := mkMatch {
  before : string;
  matched : string;
  group1 : option string;
  after : string
}.

(** What an expression anchored at the head of the subject gives: the
    matched text, the capture and the rest. *)
Definition Anchored : Type := string -> option (string * option string * string).

Definition shift (c : ascii) (m : Match) : Match :=
  mkMatch (String c (before m)) (matched m) (group1 m) (after m).

(** [subject.match(re)] without the [g] flag: the start positions are
    tried from left to right. *)
Fixpoint search (re : Anchored) (s : string) : option Match :=
  match re s with
  | Some (m, g, r) => Some (mkMatch EmptyString m g r)
  | None =>
      match s with
      | EmptyString => None
      | String c s' => option_map (shift c) (search re s')
      end
  end.

(** A literal as an expression. *)
Definition lit (p : string) : Anchored :=
  fun s => match startsWith p s with
           | Some r => Some (p, None, r)
           | None => None
           end.

(** [[\s\S]*?] followed by the literal [p]: the text up to the first
    occurrence of [p], and the rest after that occurrence. *)
Definition lazyUpTo (p s : string) : option (string * string) :=
  match search (lit p) s with
  | Some m => Some (before m, after m)
  | None => None
  end.

(** [/\/\*\*[\s\S]*?@ai-metadata[\s\S]*?\*\//] *)
Definition metadataRegex : Anchored :=
  fun s =>
    match startsWith "/**" s with
    | None => None
    | Some r1 =>
        match lazyUpTo "@ai-metadata" r1 with
        | None => None
        | Some (a, r2) =>
            match lazyUpTo "*/" r2 with
            | None => None
            | Some (b, r3) =>
                Some ("/**" +:+ a +:+ "@ai-metadata" +:+ b +:+ "*/", None, r3)
            end
        end
    end.

(** Greedy [\s*] followed by [[^\n\r]+] on [s]: the white space taken,
    the run of line characters, and the rest.  When the white space
    runs to the end of the subject the engine gives white space back
    until a character that is not a line break can start the run: that
    is the last such character of the white space, alone. *)
Fixpoint lastLineChar (ws : string) : option (string * ascii * string) :=
  match ws with
  | EmptyString => None
  | String c r =>
      match lastLineChar r with
      | Some (a, x, b) => Some (String c a, x, b)
      | None => if isLineBreak c then None else Some (EmptyString, c, r)
      end
  end.

Definition spaceThenLine (s : string) : option (string * string * string) :=
  let ws := takeWhile isWhiteSpace s in
  let r := dropWhile isWhiteSpace s in
  match r with
  | String _ _ =>
      Some (ws, takeWhile (fun c => negb (isLineBreak c)) r,
            dropWhile (fun c => negb (isLineBreak c)) r)
  | EmptyString =>
      match lastLineChar ws with
      | Some (a, x, b) => Some (a, chr x, b)
      | None => None
      end
  end.

(** [new RegExp(FIELD + '\\s*([^\\n\\r]+)', 'i')]: the capture is the
    rest of the line.  [FIELD] holds no character that the escaping
    [replace] of the source would change the meaning of. *)
Definition fieldValueRegex (field : string) : Anchored :=
  fun s =>
    match startsWithCI field s with
    | None => None
    | Some (f, r1) =>
        match spaceThenLine r1 with
        | None => None
        | Some (ws, v, r2) => Some (f +:+ ws +:+ v, Some v, r2)
        end
    end.

(** [new RegExp('(' + FIELD + ')\\s*[^\\n\\r]+', 'i')]: the same span,
    the capture is the field name as the text has it. *)
Definition fieldLineRegex (field : string) : Anchored :=
  fun s =>
    match startsWithCI field s with
    | None => None
    | Some (f, r1) =>
        match spaceThenLine r1 with
        | None => None
        | Some (ws, v, r2) => Some (f +:+ ws +:+ v, Some f, r2)
        end
    end.

(** [FIELD\s*] then [open], one or more characters other than [close],
    then [close]; [keep] tells whether the delimiters are part of the
    capture. *)
Definition delimitedRegex (field : string) (open close : ascii) (keep : bool)
  : Anchored :=
  fun s =>
    match startsWithCI field s with
    | None => None
    | Some (f, r1) =>
        let ws := takeWhile isWhiteSpace r1 in
        match dropWhile isWhiteSpace r1 with
        | String o r2 =>
            if Ascii.eqb o open then
              let body := takeWhile (fun c => negb (Ascii.eqb c close)) r2 in
              match body, dropWhile (fun c => negb (Ascii.eqb c close)) r2 with
              | String _ _, String c r3 =>
                  Some (f +:+ ws +:+ chr o +:+ body +:+ chr c,
                        Some (if keep then chr o +:+ body +:+ chr c else body),
                        r3)
              | _, _ => None
              end
            else None
        | EmptyString => None
        end
    end.

(** [new RegExp(FIELD + '\\s*\\[([^\\]]+)\\]', 'i')] *)
Definition arrayRegex (field : string) : Anchored :=
  delimitedRegex field "["%char "]"%char false.

(** [new RegExp(FIELD + '\\s*({[^}]+})', 'i')] *)
Definition jsonRegex (field : string) : Anchored :=
  delimitedRegex field "{"%char "}"%char true.

(** [/\s*\*\//] *)
Definition closingRegex : Anchored :=
  fun s =>
    let ws := takeWhile isWhiteSpace s in
    match startsWith "*/" (dropWhile isWhiteSpace s) with
    | Some r => Some (ws +:+ "*/", None, r)
    | None => None
    end.

(** GetSubstitution of ECMA-262 for an expression with at most one
    capture group: the dollar patterns of a replacement string. *)
Definition captureCount (m : Match) : nat :=
  match group1 m with Some _ => 1 | None => 0 end.

Definition digitVal (c : ascii) : nat := nat_of_ascii c - 48.

Fixpoint getSubstitution (m : Match) (t : string) : string :=
  match t with
  | EmptyString => EmptyString
  | String c r =>
      if negb (Ascii.eqb c "$"%char) then String c (getSubstitution m r)
      else
        match r with
        | EmptyString => chr c
        | String d r1 =>
            if Ascii.eqb d "$"%char then String "$"%char (getSubstitution m r1)
            else if Ascii.eqb d "`"%char then before m +:+ getSubstitution m r1
            else if Ascii.eqb d "&"%char then matched m +:+ getSubstitution m r1
            else if Ascii.eqb d squote then after m +:+ getSubstitution m r1
            else if isDigit d then
              let one :=
                (* a single digit reference *)
                if Nat.eqb (digitVal d) 1 && Nat.eqb (captureCount m) 1
                then default EmptyString (group1 m) +:+ getSubstitution m r1
                else String c (String d (getSubstitution m r1)) in
              match r1 with
              | String d2 r2 =>
                  if isDigit d2 then
                    let index := (10 * digitVal d + digitVal d2)%nat in
                    if Nat.ltb (captureCount m) index then one
                    else if Nat.leb 1 index
                    then default EmptyString (group1 m) +:+ getSubstitution m r2
                    else String c (String d (String d2 (getSubstitution m r2)))
                  else one
              | EmptyString => one
              end
            else String c (getSubstitution m r)
        end
  end.

(** [subject.replace(re, replacement)] without the [g] flag. *)
Definition replace (re : Anchored) (replacement subject : string) : string :=
  match search re subject with
  | Some m => before m +:+ getSubstitution m replacement +:+ after m
  | None => subject
  end.

End Js.

(** ** The types of src/types.ts *)

Module Types.

(** A JSON value, as [JSON.parse] returns it and [fs.writeJson] stores
    it; a number keeps its literal. *)
#[local] Unset Elimination Schemes.
Inductive Json : Type :=
| JNull
| JBool (b : bool)
| JNumber (literal : string)
| JString (s : string)
| JArray (items : list Json)
| JObject (members : list (string * Json)).
#[local] Set Elimination Schemes.

(** [interface ApprovalStatus]: every key is optional. *)
Record ApprovalStatus : Type := mkApprovalStatus {
  devApproved : option bool;
  devApprovedBy : option string;
  devApprovedDate : option string;
  codeReviewApproved : option bool;
  codeReviewApprovedBy : option string;
  codeReviewDate : option string;
  qaApproved : option bool;
  qaApprovedBy : option string;
  qaApprovedDate : option string
}.

(** [keyof ApprovalStatus] *)
Inductive ApprovalKey : Type :=
| KdevApproved | KdevApprovedBy | KdevApprovedDate
| KcodeReviewApproved | KcodeReviewApprovedBy | KcodeReviewDate
| KqaApproved | KqaApprovedBy | KqaApprovedDate.

(** [interface AIMetadata].  The parser stores the captured text as it
    is, so the three enumerations are strings here; [approvalRules] is
    neither written nor read by the code below and is left out. *)
Record AIMetadata : Type := mkAIMetadata {
  class : option string;
  description : option string;
  lastUpdate : option string;
  lastEditor : option string;
  changelog : option string;
  stability : option string;
  editPermissions : option string;
  methodPermissions : option Json;
  dependencies : option (list string);
  tests : option (list string);
  breakingChangesRisk : option string;
  reviewRequired : option bool;
  aiContext : option string;
  approvals : option ApprovalStatus
}.

(** A JavaScript value of the kinds the rule conditions and the
    metadata updates handle: [undefined], a boolean or a string. *)
Inductive Value : Type :=
| VUndef
| VBool (b : bool)
| VStr (s : string).

Definition truthy (v : Value) : bool :=
  match v with
  | VUndef => false
  | VBool b => b
  | VStr s => negb (String.eqb s EmptyString)
  end.

(** The conversion of a template literal. *)
Definition toStr (v : Value) : string :=
  match v with
  | VUndef => "undefined"
  | VBool true => "true"
  | VBool false => "false"
  | VStr s => s
  end.

Definition strictEq (a b : Value) : bool :=
  match a, b with
  | VUndef, VUndef => true
  | VBool x, VBool y => Bool.eqb x y
  | VStr x, VStr y => String.eqb x y
  | _, _ => false
  end.

(** What [object[key]] gives on a plain object whose own members hold
    values of [A]: an own member; failing that, a member of
    [Object.prototype], which is either one the language puts there (a
    function, and for [__proto__] the prototype itself) or one the
    process has added.  [undefined] is the [None] of an option. *)
Inductive Member (A : Type) : Type :=
| Own (a : A)
| Intrinsic (name : string)
| Added (v : Value).
Arguments Own {A} a.
Arguments Intrinsic {A} name.
Arguments Added {A} v.

(** The condition of a rule.  The source keeps it as the text of a
    JavaScript expression and hands it to [new Function]; here it is
    the expression itself, over the names the evaluation context
    binds: the four helpers, the fields of [metadata], literals and the
    operators [&&], [||], [!] and [===].  [CInvalid] stands for an
    expression whose evaluation throws, such as the call of a helper
    the context does not bind; a text that [new Function] rejects is a
    condition that consists of [CInvalid] alone. *)
Inductive Condition : Type :=
| CIsReadOnly
| CIsHighRisk
| CIsDeprecated
| CHasApproval (type : string)
| CMetaStability
| CMetaEditPermissions
| CMetaBreakingChangesRisk
| CMetaReviewRequired
| CFilePath
| CLit (v : Value)
| CAnd (a b : Condition)
| COr (a b : Condition)
| CNot (a : Condition)
| CStrictEq (a b : Condition)
| CInvalid (text : string).

(** [interface AIRule] *)
Record AIRule : Type := mkAIRule {
  id : string;
  name : string;
  condition : Condition;
  action : string;
  priority : Z;
  enabled : bool
}.

Record SessionStep : Type := mkSessionStep {
  step : string;
  completed : string;
  filesModified : list string;
  stepDescription : option string;
  timeSpent : option Z
}.

Record FileHistory : Type := mkFileHistory {
  lastAIModification : string;
  modificationCount : Z;
  approvalStatus : string;
  riskLevel : string;
  lastBackup : option string
}.

Record Decision : Type := mkDecision {
  decisionId : string;
  decision : string;
  reasoning : string;
  impact : list string;
  timestamp : string;
  approvedBy : string;
  relatedFiles : list string
}.

Record ProjectContext : Type := mkProjectContext {
  projectName : string;
  architecture : string;
  techStack : list string;
  codingStandards : option string;
  mainBranch : option string
}.

Record Session : Type := mkSession {
  sessionId : string;
  task : string;
  started : string;
  completedSteps : list SessionStep;
  nextSteps : list string;
  importantDecisions : gmap string Json;
  blockers : option (list string)
}.

(** [interface ProjectMemory]: the document of the ledger file. *)
Record ProjectMemory : Type := mkProjectMemory {
  projectContext : ProjectContext;
  currentSession : Session;
  fileHistory : gmap string FileHistory;
  globalDecisions : list Decision;
  approvalStates : gmap string ApprovalStatus
}.

(** The result of [checkBeforeModification]. *)
Record CheckResult : Type := mkCheckResult {
  allowed : bool;
  reasons : list string;
  warnings : list string
}.

End Types.

(** ** The world the server runs in, and its monad *)

Module World.
Import Types.

(** What a file of the memory directory holds: a document that
    [fs.readJson] parses, or bytes that it does not. *)
Inductive Document : Type :=
| Unparseable (raw : string)
| Parsed (memory : ProjectMemory).

(** The objects of the language that a key of the ledger or of an
    update reaches, with what the process has put on them.
    [objectPrototype] holds the members added to [Object.prototype];
    [intrinsics] holds, by name, the members added to the function
    [Object.prototype[name]] ([constructor] is [Object]).  The code
    below assigns the nine keys of an approval record and no others. *)
Record Realm : Type := mkRealm {
  objectPrototype : ApprovalStatus;
  intrinsics : gmap string ApprovalStatus
}.

(** An object without own members among the nine keys. *)
Definition noMembers : ApprovalStatus :=
  mkApprovalStatus None None None None None None None None None.

(** The realm of a process that has added nothing. *)
Definition pristine : Realm := mkRealm noMembers ∅.

(** The state the tool handlers see.  [files] are the files
    [fs.readFile] can read, by the path handed to it; [memoryDir] are
    the entries of [.ai-memory], by file name; [rules] is the field of
    the rule engine; [console] collects the lines written with
    [console.log], [console.warn] and [console.error] (without the
    colours and pictograms); [date], [dateNow] and [random] are what
    [new Date().toISOString()], [Date.now()] and
    [Math.random().toString(36).substr(2, 9)] give during the call.
    [ruleIdentity] tells which object each place of [rules] holds, one
    number per place: places with the same number hold one and the
    same object.  [realm]
    is the state of the objects every object inherits from. *)
Record State : Type := mkState {
  files : gmap string string;
  memoryDir : gmap string Document;
  rules : list AIRule;
  console : list string;
  date : string;
  dateNow : string;
  random : string;
  ruleIdentity : list nat;
  realm : Realm
}.

(** What the process gets from its host: [path.relative(projectRoot, p)],
    [path.basename(projectRoot)] and [JSON.parse] ([None] when it
    throws). *)
Record Runtime : Type := mkRuntime {
  relative : string -> string;
  basename : string;
  JSON_parse : string -> option Json
}.

Inductive Outcome (A : Type) : Type :=
| Ok (a : A)
| Throw (error : string).
Arguments Ok {A} a.
Arguments Throw {A} error.

Definition M (A : Type) : Type := State -> Outcome A * State.

Definition ret {A} (a : A) : M A := fun st => (Ok a, st).

Definition bind {A B} (m : M A) (k : A -> M B) : M B :=
  fun st =>
    match m st with
    | (Ok a, st') => k a st'
    | (Throw e, st') => (Throw e, st')
    end.

Definition throw {A} (e : string) : M A := fun st => (Throw e, st).

(** A computation that needs no state: it returns or throws. *)
Definition result {A} (o : Outcome A) : M A := fun st => (o, st).

(** [try { body } catch (error) { handler }] *)
Definition tryCatch {A} (body : M A) (handler : string -> M A) : M A :=
  fun st =>
    match body st with
    | (Ok a, st') => (Ok a, st')
    | (Throw e, st') => handler e st'
    end.

Definition gets {A} (f : State -> A) : M A := fun st => (Ok (f st), st).

Definition modify (f : State -> State) : M unit := fun st => (Ok tt, f st).

Definition setFiles (fs : gmap string string) (st : State) : State :=
  mkState fs (memoryDir st) (rules st) (console st) (date st) (dateNow st) (random st)
    (ruleIdentity st) (realm st).

Definition setMemoryDir (d : gmap string Document) (st : State) : State :=
  mkState (files st) d (rules st) (console st) (date st) (dateNow st) (random st)
    (ruleIdentity st) (realm st).

Definition setRules (rs : list AIRule) (st : State) : State :=
  mkState (files st) (memoryDir st) rs (console st) (date st) (dateNow st) (random st)
    (ruleIdentity st) (realm st).

Definition setConsole (c : list string) (st : State) : State :=
  mkState (files st) (memoryDir st) (rules st) c (date st) (dateNow st) (random st)
    (ruleIdentity st) (realm st).

Definition setRuleIdentity (os : list nat) (st : State) : State :=
  mkState (files st) (memoryDir st) (rules st) (console st) (date st) (dateNow st)
    (random st) os (realm st).

Definition setRealm (r : Realm) (st : State) : State :=
  mkState (files st) (memoryDir st) (rules st) (console st) (date st) (dateNow st)
    (random st) (ruleIdentity st) r.

(** [console.log], [console.warn], [console.error] *)
Definition consoleWrite (line : string) : M unit :=
  modify (fun st => setConsole (console st ++ [line]) st).

(** [fs.readFile(path, 'utf-8')] *)
Definition readFile (path : string) : M string :=
  fun st =>
    match files st !! path with
    | Some text => (Ok text, st)
    | None => (Throw ("ENOENT: no such file or directory, open " +:+ path), st)
    end.

(** [fs.writeFile(path, text)] *)
Definition writeFile (path text : string) : M unit :=
  modify (fun st => setFiles (<[path := text]> (files st)) st).

(** [fs.pathExists] on an entry of the memory directory. *)
Definition pathExists (entry : string) : M bool :=
  gets (fun st => bool_decide (is_Some (memoryDir st !! entry))).

(** [fs.readJson] on an entry of the memory directory. *)
Definition readJson (entry : string) : M ProjectMemory :=
  fun st =>
    match memoryDir st !! entry with
    | Some (Parsed memory) => (Ok memory, st)
    | Some (Unparseable _) => (Throw ("SyntaxError: " +:+ entry), st)
    | None => (Throw ("ENOENT: no such file or directory, open " +:+ entry), st)
    end.

(** [fs.writeJson] on an entry of the memory directory; the disk takes
    the write. *)
Definition writeJson (entry : string) (memory : ProjectMemory) : M unit :=
  modify (fun st => setMemoryDir (<[entry := Parsed memory]> (memoryDir st)) st).

(** *** Members of plain objects *)

(** The names of the members [Object.prototype] has by the language. *)
Definition intrinsicNames : list string :=
  ["constructor"; "__defineGetter__"; "__defineSetter__"; "hasOwnProperty";
   "__lookupGetter__"; "__lookupSetter__"; "isPrototypeOf";
   "propertyIsEnumerable"; "toString"; "valueOf"; "__proto__"; "toLocaleString"].

Definition isIntrinsic (key : string) : bool :=
  existsb (String.eqb key) intrinsicNames.

(** The own member [key] of an object that holds approval keys only. *)
Definition ownMember (key : string) (a : ApprovalStatus) : Value :=
  let flag (o : option bool) := match o with Some b => VBool b | None => VUndef end in
  let text (o : option string) := match o with Some s => VStr s | None => VUndef end in
  if String.eqb key "devApproved" then flag (devApproved a)
  else if String.eqb key "devApprovedBy" then text (devApprovedBy a)
  else if String.eqb key "devApprovedDate" then text (devApprovedDate a)
  else if String.eqb key "codeReviewApproved" then flag (codeReviewApproved a)
  else if String.eqb key "codeReviewApprovedBy" then text (codeReviewApprovedBy a)
  else if String.eqb key "codeReviewDate" then text (codeReviewDate a)
  else if String.eqb key "qaApproved" then flag (qaApproved a)
  else if String.eqb key "qaApprovedBy" then text (qaApprovedBy a)
  else if String.eqb key "qaApprovedDate" then text (qaApprovedDate a)
  else VUndef.

(** [object[key]] where [own] is the own member of the object at the
    key, if it has one, and the prototype of the object is
    [Object.prototype]: the case of an object literal and of an object
    that [JSON.parse] returns. *)
Definition member {A : Type} (r : Realm) (own : option A) (key : string)
  : option (Member A) :=
  match own with
  | Some a => Some (Own a)
  | None =>
      if isIntrinsic key then Some (Intrinsic key)
      else match ownMember key (objectPrototype r) with
           | VUndef => None
           | v => Some (Added v)
           end
  end.

(** The truth value of a member of the ledger: objects and functions
    are true. *)
Definition holds (m : option (Member ApprovalStatus)) : bool :=
  match m with
  | Some (Own _) => true
  | Some (Intrinsic _) => true
  | Some (Added v) => truthy v
  | None => false
  end.

Definition orElse {T : Type} (x y : option T) : option T :=
  match x with Some _ => x | None => y end.

(** The nine keys as they read on an object with the own members [a]
    whose prototype chain ends in an object with the members [p]. *)
Definition overlay (a p : ApprovalStatus) : ApprovalStatus :=
  mkApprovalStatus
    (orElse (devApproved a) (devApproved p))
    (orElse (devApprovedBy a) (devApprovedBy p))
    (orElse (devApprovedDate a) (devApprovedDate p))
    (orElse (codeReviewApproved a) (codeReviewApproved p))
    (orElse (codeReviewApprovedBy a) (codeReviewApprovedBy p))
    (orElse (codeReviewDate a) (codeReviewDate p))
    (orElse (qaApproved a) (qaApproved p))
    (orElse (qaApprovedBy a) (qaApprovedBy p))
    (orElse (qaApprovedDate a) (qaApprovedDate p)).

(** The nine keys as they read on a member of the ledger: on a record
    its own members, on a function what has been added to it, and in
    both cases, as on a primitive value and on [Object.prototype]
    itself, what has been added to [Object.prototype]. *)
Definition reads (r : Realm) (m : Member ApprovalStatus) : ApprovalStatus :=
  match m with
  | Own a => overlay a (objectPrototype r)
  | Intrinsic name =>
      if String.eqb name "__proto__" then objectPrototype r
      else overlay (default noMembers (intrinsics r !! name)) (objectPrototype r)
  | Added _ => objectPrototype r
  end.

End World.

Declare Scope monad_scope.
Delimit Scope monad_scope with monad.
Notation "x <- m ;; k" := (World.bind m (fun x => k))
(at level 100, m at next level, right associativity) : monad_scope.
Notation "m ;;; k" := (World.bind m (fun _ => k))
(at level 100, right associativity) : monad_scope.

(** ** src/metadata-parser.ts *)

Module MetadataParser.
Import Js Types World.
Local Open Scope monad_scope.

Definition emptyMetadata : AIMetadata :=
  mkAIMetadata None None None None None None None None None None None None None None.

Definition emptyApprovals : ApprovalStatus :=
  mkApprovalStatus None None None None None None None None None.

(** The assignments [metadata.key = value] of the setters. *)
Definition setClass (v : string) (m : AIMetadata) : AIMetadata :=
  let '(mkAIMetadata _ b c d e f g h i j k l n o) := m in
  mkAIMetadata (Some v) b c d e f g h i j k l n o.
Definition setDescription (v : string) (m : AIMetadata) : AIMetadata :=
  let '(mkAIMetadata a _ c d e f g h i j k l n o) := m in
  mkAIMetadata a (Some v) c d e f g h i j k l n o.
Definition setLastUpdate (v : string) (m : AIMetadata) : AIMetadata :=
  let '(mkAIMetadata a b _ d e f g h i j k l n o) := m in
  mkAIMetadata a b (Some v) d e f g h i j k l n o.
Definition setLastEditor (v : string) (m : AIMetadata) : AIMetadata :=
  let '(mkAIMetadata a b c _ e f g h i j k l n o) := m in
  mkAIMetadata a b c (Some v) e f g h i j k l n o.
Definition setChangelog (v : string) (m : AIMetadata) : AIMetadata :=
  let '(mkAIMetadata a b c d _ f g h i j k l n o) := m in
  mkAIMetadata a b c d (Some v) f g h i j k l n o.
Definition setStability (v : string) (m : AIMetadata) : AIMetadata :=
  let '(mkAIMetadata a b c d e _ g h i j k l n o) := m in
  mkAIMetadata a b c d e (Some v) g h i j k l n o.
Definition setEditPermissions (v : string) (m : AIMetadata) : AIMetadata :=
  let '(mkAIMetadata a b c d e f _ h i j k l n o) := m in
  mkAIMetadata a b c d e f (Some v) h i j k l n o.
Definition setMethodPermissions (v : Json) (m : AIMetadata) : AIMetadata :=
  let '(mkAIMetadata a b c d e f g _ i j k l n o) := m in
  mkAIMetadata a b c d e f g (Some v) i j k l n o.
Definition setDependencies (v : list string) (m : AIMetadata) : AIMetadata :=
  let '(mkAIMetadata a b c d e f g h _ j k l n o) := m in
  mkAIMetadata a b c d e f g h (Some v) j k l n o.
Definition setTests (v : list string) (m : AIMetadata) : AIMetadata :=
  let '(mkAIMetadata a b c d e f g h i _ k l n o) := m in
  mkAIMetadata a b c d e f g h i (Some v) k l n o.
Definition setBreakingChangesRisk (v : string) (m : AIMetadata) : AIMetadata :=
  let '(mkAIMetadata a b c d e f g h i j _ l n o) := m in
  mkAIMetadata a b c d e f g h i j (Some v) l n o.
Definition setReviewRequired (v : bool) (m : AIMetadata) : AIMetadata :=
  let '(mkAIMetadata a b c d e f g h i j k _ n o) := m in
  mkAIMetadata a b c d e f g h i j k (Some v) n o.
Definition setAiContext (v : string) (m : AIMetadata) : AIMetadata :=
  let '(mkAIMetadata a b c d e f g h i j k l _ o) := m in
  mkAIMetadata a b c d e f g h i j k l (Some v) o.
Definition setApprovals (v : option ApprovalStatus) (m : AIMetadata) : AIMetadata :=
  let '(mkAIMetadata a b c d e f g h i j k l n _) := m in
  mkAIMetadata a b c d e f g h i j k l n v.

(** The assignments [approvals.key = value]. *)
Definition setDevApproved (v : bool) (a : ApprovalStatus) : ApprovalStatus :=
  let '(mkApprovalStatus _ b c d e f g h i) := a in
  mkApprovalStatus (Some v) b c d e f g h i.
Definition setDevApprovedBy (v : string) (a : ApprovalStatus) : ApprovalStatus :=
  let '(mkApprovalStatus x _ c d e f g h i) := a in
  mkApprovalStatus x (Some v) c d e f g h i.
Definition setDevApprovedDate (v : string) (a : ApprovalStatus) : ApprovalStatus :=
  let '(mkApprovalStatus x b _ d e f g h i) := a in
  mkApprovalStatus x b (Some v) d e f g h i.
Definition setCodeReviewApproved (v : bool) (a : ApprovalStatus) : ApprovalStatus :=
  let '(mkApprovalStatus x b c _ e f g h i) := a in
  mkApprovalStatus x b c (Some v) e f g h i.
Definition setCodeReviewApprovedBy (v : string) (a : ApprovalStatus) : ApprovalStatus :=
  let '(mkApprovalStatus x b c d _ f g h i) := a in
  mkApprovalStatus x b c d (Some v) f g h i.
Definition setCodeReviewDate (v : string) (a : ApprovalStatus) : ApprovalStatus :=
  let '(mkApprovalStatus x b c d e _ g h i) := a in
  mkApprovalStatus x b c d e (Some v) g h i.
Definition setQaApproved (v : bool) (a : ApprovalStatus) : ApprovalStatus :=
  let '(mkApprovalStatus x b c d e f _ h i) := a in
  mkApprovalStatus x b c d e f (Some v) h i.
Definition setQaApprovedBy (v : string) (a : ApprovalStatus) : ApprovalStatus :=
  let '(mkApprovalStatus x b c d e f g _ i) := a in
  mkApprovalStatus x b c d e f g (Some v) i.
Definition setQaApprovedDate (v : string) (a : ApprovalStatus) : ApprovalStatus :=
  let '(mkApprovalStatus x b c d e f g h _) := a in
  mkApprovalStatus x b c d e f g h (Some v).

(** [value === 'true'] *)
Definition isTrue (value : string) : bool := String.eqb value "true".

(** [parseField]: the setter receives the captured rest of the line,
    trimmed and without quotes. *)
Definition parseField {T} (content field : string) (setter : string -> T -> T)
  (target : T) : T :=
  match search (fieldValueRegex field) content with
  | Some m => setter (stripQuotes (trim (default EmptyString (group1 m)))) target
  | None => target
  end.

(** [parseArrayField] *)
Definition parseArrayField {T} (content field : string)
  (setter : list string -> T -> T) (target : T) : T :=
  match search (arrayRegex field) content with
  | Some m =>
      let items :=
        map (fun item => stripQuotes (trim item))
            (splitComma (default EmptyString (group1 m))) in
      setter items target
  | None => target
  end.

(** [parseJsonField]: the exception of [JSON.parse] is caught here and
    becomes a warning. *)
Definition parseJsonField {T} (rt : Runtime) (content field : string)
  (setter : Json -> T -> T) (target : T) : M T :=
  match search (jsonRegex field) content with
  | Some m =>
      tryCatch
        (let jsonStr := singleToDouble (default EmptyString (group1 m)) in
         match JSON_parse rt jsonStr with
         | Some value => ret (setter value target)
         | None => throw ("SyntaxError: " +:+ jsonStr)
         end)
        (fun error =>
           consoleWrite ("Warning: Could not parse JSON for " +:+ field);;;
           ret target)
  | None => ret target
  end.

Definition isSome {A} (o : option A) : bool :=
  match o with Some _ => true | None => false end.

(** [Object.keys(approvals).length > 0] *)
Definition hasKeys (a : ApprovalStatus) : bool :=
  let '(mkApprovalStatus a1 a2 a3 a4 a5 a6 a7 a8 a9) := a in
  isSome a1 || isSome a2 || isSome a3 || isSome a4
  || isSome a5 || isSome a6 || isSome a7 || isSome a8
  || isSome a9.

(** [parseApprovals] *)
Definition parseApprovals (content : string) : option ApprovalStatus :=
  let approvals := emptyApprovals in
  let approvals := parseField content "@dev-approved:" (fun value => setDevApproved (isTrue value)) approvals in
  let approvals := parseField content "@dev-approved-by:" setDevApprovedBy approvals in
  let approvals := parseField content "@dev-approved-date:" setDevApprovedDate approvals in
  let approvals := parseField content "@code-review-approved:" (fun value => setCodeReviewApproved (isTrue value)) approvals in
  let approvals := parseField content "@code-review-approved-by:" setCodeReviewApprovedBy approvals in
  let approvals := parseField content "@code-review-date:" setCodeReviewDate approvals in
  let approvals := parseField content "@qa-approved:" (fun value => setQaApproved (isTrue value)) approvals in
  let approvals := parseField content "@qa-approved-by:" setQaApprovedBy approvals in
  let approvals := parseField content "@qa-approved-date:" setQaApprovedDate approvals in
  if hasKeys approvals then Some approvals else None.

(** The statements of [extractMetadataFromContent] that cannot throw:
    the scalar fields and the two arrays. *)
Definition parseScalarsAndArrays (metadataBlock : string) (metadata : AIMetadata)
  : AIMetadata :=
  let metadata := parseField metadataBlock "@class:" setClass metadata in
  let metadata := parseField metadataBlock "@description:" setDescription metadata in
  let metadata := parseField metadataBlock "@last-update:" setLastUpdate metadata in
  let metadata := parseField metadataBlock "@last-editor:" setLastEditor metadata in
  let metadata := parseField metadataBlock "@changelog:" setChangelog metadata in
  let metadata := parseField metadataBlock "@stability:" setStability metadata in
  let metadata := parseField metadataBlock "@edit-permissions:" setEditPermissions metadata in
  let metadata := parseField metadataBlock "@breaking-changes-risk:" setBreakingChangesRisk metadata in
  let metadata := parseField metadataBlock "@review-required:" (fun value => setReviewRequired (isTrue value)) metadata in
  let metadata := parseField metadataBlock "@ai-context:" setAiContext metadata in
  let metadata := parseArrayField metadataBlock "@dependencies:" setDependencies metadata in
  let metadata := parseArrayField metadataBlock "@tests:" setTests metadata in
  metadata.

(** [extractMetadataFromContent]: [None] is the [null] of the source. *)
Definition extractMetadataFromContent (rt : Runtime) (content : string)
  : M (option AIMetadata) :=
  match search metadataRegex content with
  | None => ret None
  | Some m =>
      let metadataBlock := matched m in
      let metadata := parseScalarsAndArrays metadataBlock emptyMetadata in
      metadata <- parseJsonField rt metadataBlock "@method-permissions:"
                    setMethodPermissions metadata;;
      let metadata := setApprovals (parseApprovals metadataBlock) metadata in
      ret (Some metadata)
  end.

(** [parseFileMetadata] *)
Definition parseFileMetadata (rt : Runtime) (filePath : string)
  : M (option AIMetadata) :=
  tryCatch
    (content <- readFile filePath;;
     extractMetadataFromContent rt content)
    (fun error =>
       consoleWrite ("Error reading file " +:+ filePath +:+ ": " +:+ error);;;
       ret None).

(** [Partial<AIMetadata>] as the update functions use it: the own keys
    in the order of [Object.entries], with their values.  The values
    the two functions below read are strings or a boolean. *)
Definition Updates : Type := list (string * Value).

Fixpoint lookupKey (key : string) (u : Updates) : Value :=
  match u with
  | [] => VUndef
  | (k, v) :: rest => if String.eqb k key then v else lookupKey key rest
  end.

(** [updates[key] = value]: an own key keeps its place, a new one goes
    last. *)
Fixpoint assignKey (key : string) (value : Value) (u : Updates) : Updates :=
  match u with
  | [] => [(key, value)]
  | (k, v) :: rest =>
      if String.eqb k key then (k, value) :: rest
      else (k, v) :: assignKey key value rest
  end.

(** The own members of the table [fieldMap] of [updateMetadataField]. *)
Definition fieldMap (key : string) : option string :=
  if String.eqb key "lastUpdate" then Some "@last-update:"
  else if String.eqb key "lastEditor" then Some "@last-editor:"
  else if String.eqb key "editPermissions" then Some "@edit-permissions:"
  else if String.eqb key "breakingChangesRisk" then Some "@breaking-changes-risk:"
  else if String.eqb key "reviewRequired" then Some "@review-required:"
  else None.

(** [updateMetadataField] from the construction of [regex] on, for a
    [field] that is a string. *)
Definition rewriteField (metadataBlock field : string) (value : Value) : string :=
  let regex := fieldLineRegex field in
  let replacement := field +:+ " " +:+ toStr value in
  match search regex metadataBlock with
  | Some _ => replace regex replacement metadataBlock
  | None =>
      replace closingRegex
        (chr LF +:+ " * " +:+ replacement +:+ chr LF +:+ " */")
        metadataBlock
  end.

(** [updateMetadataField].  [fieldMap[key]] is a member of the table or
    one the table inherits; a value that is not a string has no method
    [replace], and the call of it throws. *)
Definition updateMetadataField (r : Realm) (metadataBlock key : string)
  (value : Value) : Outcome string :=
  let notAFunction : Outcome string :=
    Throw "TypeError: field.replace is not a function" in
  let onText (field : string) : Outcome string :=
    if String.eqb field EmptyString then Ok metadataBlock
    else Ok (rewriteField metadataBlock field value) in
  match member r (fieldMap key) key with
  | None => Ok metadataBlock
  | Some (Own field) => onText field
  | Some (Added (VStr field)) => onText field
  | Some (Added (VBool b)) => if b then notAFunction else Ok metadataBlock
  | Some (Added VUndef) => Ok metadataBlock
  | Some (Intrinsic _) => notAFunction
  end.

(** The loop of [updateMetadataInContent] over the entries of the
    updates. *)
Fixpoint updateFields (r : Realm) (updates : list (string * Value))
  (metadataBlock : string) : Outcome string :=
  match updates with
  | [] => Ok metadataBlock
  | (key, value) :: rest =>
      match updateMetadataField r metadataBlock key value with
      | Ok metadataBlock' => updateFields r rest metadataBlock'
      | Throw error => Throw error
      end
  end.

(** [generateMetadataBlock]; [now] is [new Date().toISOString()]. *)
Definition generateMetadataBlock (now : string) (metadata : Updates) : string :=
  let line (label : string) (v : Value) := " * " +:+ label +:+ " " +:+ toStr v +:+ chr LF in
  let opt (label key : string) :=
    if truthy (lookupKey key metadata) then line label (lookupKey key metadata)
    else EmptyString in
  let block := "/**" +:+ chr LF +:+ " * @ai-metadata" +:+ chr LF in
  let block := block +:+ opt "@class:" "class" in
  let block := block +:+ opt "@description:" "description" in
  let block := block +:+ line "@last-update:"
                 (if truthy (lookupKey "lastUpdate" metadata)
                  then lookupKey "lastUpdate" metadata else VStr now) in
  let block := block +:+ opt "@last-editor:" "lastEditor" in
  let block := block +:+ opt "@stability:" "stability" in
  let block := block +:+ opt "@edit-permissions:" "editPermissions" in
  let block := block +:+ opt "@breaking-changes-risk:" "breakingChangesRisk" in
  let block := block +:+
                 match lookupKey "reviewRequired" metadata with
                 | VUndef => EmptyString
                 | v => line "@review-required:" v
                 end in
  let block := block +:+ opt "@ai-context:" "aiContext" in
  block +:+ " */".

(** [updateMetadataInContent]; [now] is [new Date().toISOString()] and
    [r] the realm the call runs in. *)
Definition updateMetadataInContent (r : Realm) (now content : string)
  (updates : Updates) : Outcome string :=
  match search metadataRegex content with
  | None =>
      let newMetadata := generateMetadataBlock now updates in
      Ok (newMetadata +:+ chr LF +:+ content)
  | Some m =>
      let metadataBlock := matched m in
      let updates := assignKey "lastUpdate" (VStr now) updates in
      match updateFields r updates metadataBlock with
      | Ok metadataBlock => Ok (replace metadataRegex metadataBlock content)
      | Throw error => Throw error
      end
  end.

(** [updateFileMetadata] *)
Definition updateFileMetadata (filePath : string) (updates : Updates) : M unit :=
  tryCatch
    (content <- readFile filePath;;
     now <- gets date;;
     r <- gets realm;;
     updatedContent <- result (updateMetadataInContent r now content updates);;
     writeFile filePath updatedContent;;;
     consoleWrite ("Updated metadata in " +:+ filePath))
    (fun error =>
       consoleWrite ("Error updating metadata in " +:+ filePath +:+ ": " +:+ error)).

End MetadataParser.

(** ** src/rule-engine.ts *)

Module RuleEngine.
Import Js Types World.
Local Open Scope monad_scope.

(** The object [context] of [evaluateRule]. *)
Record Context : Type := mkContext {
  ctxMetadata : AIMetadata;
  ctxApprovals : option ApprovalStatus;
  ctxFilePath : string
}.

Definition ofBool (o : option bool) : Value :=
  match o with Some b => VBool b | None => VUndef end.

Definition ofString (o : option string) : Value :=
  match o with Some s => VStr s | None => VUndef end.

(** [approvals[key]] *)
Definition approvalsMember (key : string) (a : ApprovalStatus) : Value :=
  if String.eqb key "devApproved" then ofBool (devApproved a)
  else if String.eqb key "devApprovedBy" then ofString (devApprovedBy a)
  else if String.eqb key "devApprovedDate" then ofString (devApprovedDate a)
  else if String.eqb key "codeReviewApproved" then ofBool (codeReviewApproved a)
  else if String.eqb key "codeReviewApprovedBy" then ofString (codeReviewApprovedBy a)
  else if String.eqb key "codeReviewDate" then ofString (codeReviewDate a)
  else if String.eqb key "qaApproved" then ofBool (qaApproved a)
  else if String.eqb key "qaApprovedBy" then ofString (qaApprovedBy a)
  else if String.eqb key "qaApprovedDate" then ofString (qaApprovedDate a)
  else VUndef.

(** The helper [hasApproval] of the context. *)
Definition hasApproval (approvals : option ApprovalStatus) (type : string) : bool :=
  match approvals with
  | None => false
  | Some a => strictEq (approvalsMember (type +:+ "Approved") a) (VBool true)
  end.

Definition isHighRisk (metadata : AIMetadata) : bool :=
  strictEq (ofString (breakingChangesRisk metadata)) (VStr "high").

Definition isReadOnly (metadata : AIMetadata) : bool :=
  strictEq (ofString (editPermissions metadata)) (VStr "read-only").

Definition isDeprecated (metadata : AIMetadata) : bool :=
  strictEq (ofString (stability metadata)) (VStr "deprecated").

(** The value of the condition in the context; [None] when the
    evaluation throws.  [&&] and [||] give back one of their operands. *)
Fixpoint evalCondition (ctx : Context) (c : Condition) : option Value :=
  match c with
  | CIsReadOnly => Some (VBool (isReadOnly (ctxMetadata ctx)))
  | CIsHighRisk => Some (VBool (isHighRisk (ctxMetadata ctx)))
  | CIsDeprecated => Some (VBool (isDeprecated (ctxMetadata ctx)))
  | CHasApproval type => Some (VBool (hasApproval (ctxApprovals ctx) type))
  | CMetaStability => Some (ofString (stability (ctxMetadata ctx)))
  | CMetaEditPermissions => Some (ofString (editPermissions (ctxMetadata ctx)))
  | CMetaBreakingChangesRisk => Some (ofString (breakingChangesRisk (ctxMetadata ctx)))
  | CMetaReviewRequired => Some (ofBool (reviewRequired (ctxMetadata ctx)))
  | CFilePath => Some (VStr (ctxFilePath ctx))
  | CLit v => Some v
  | CAnd a b =>
      match evalCondition ctx a with
      | Some v => if truthy v then evalCondition ctx b else Some v
      | None => None
      end
  | COr a b =>
      match evalCondition ctx a with
      | Some v => if truthy v then Some v else evalCondition ctx b
      | None => None
      end
  | CNot a =>
      match evalCondition ctx a with
      | Some v => Some (VBool (negb (truthy v)))
      | None => None
      end
  | CStrictEq a b =>
      match evalCondition ctx a with
      | Some v =>
          match evalCondition ctx b with
          | Some w => Some (VBool (strictEq v w))
          | None => None
          end
      | None => None
      end
  | CInvalid _ => None
  end.

(** A string literal in double quotes: the backslash, the double quote
    and the two line breaks are escaped. *)
Fixpoint escaped (s : string) : string :=
  match s with
  | EmptyString => EmptyString
  | String c r =>
      (if Ascii.eqb c backslash then chr backslash +:+ chr backslash
       else if Ascii.eqb c dquote then chr backslash +:+ chr dquote
       else if Ascii.eqb c LF then chr backslash +:+ "n"
       else if Ascii.eqb c CR then chr backslash +:+ "r"
       else chr c) +:+ escaped r
  end.

Definition quoted (s : string) : string := chr dquote +:+ escaped s +:+ chr dquote.

Definition parenthesised (needed : bool) (text : string) : string :=
  if needed then "(" +:+ text +:+ ")" else text.

(** A text of the condition, written where an operand of the binding
    strength [level] is expected: 3 for [||], 4 for [&&], 8 for [===],
    14 for [!]; an operand that binds less is put in parentheses.  The
    text of [CInvalid] is the one the source holds. *)
Fixpoint textAt (level : nat) (c : Condition) : string :=
  match c with
  | CIsReadOnly => "isReadOnly()"
  | CIsHighRisk => "isHighRisk()"
  | CIsDeprecated => "isDeprecated()"
  | CHasApproval type => "hasApproval(" +:+ quoted type +:+ ")"
  | CMetaStability => "metadata.stability"
  | CMetaEditPermissions => "metadata.editPermissions"
  | CMetaBreakingChangesRisk => "metadata.breakingChangesRisk"
  | CMetaReviewRequired => "metadata.reviewRequired"
  | CFilePath => "filePath"
  | CLit (VStr s) => quoted s
  | CLit v => toStr v
  | COr a b =>
      parenthesised (Nat.ltb 3 level) (textAt 3 a +:+ " || " +:+ textAt 4 b)
  | CAnd a b =>
      parenthesised (Nat.ltb 4 level) (textAt 4 a +:+ " && " +:+ textAt 5 b)
  | CStrictEq a b =>
      parenthesised (Nat.ltb 8 level) (textAt 8 a +:+ " === " +:+ textAt 9 b)
  | CNot a => "!" +:+ textAt 14 a
  | CInvalid text => parenthesised (Nat.ltb 0 level) text
  end.

(** The text of a condition, for the diagnostics: for the conditions of
    [getDefaultRules] it is the text the source holds. *)
Definition conditionText (c : Condition) : string := textAt 0 c.

(** [evaluateCondition]: what [func(...)] returns, and [true] with a
    diagnostic when the construction or the call throws. *)
Definition evaluateCondition (c : Condition) (ctx : Context) : M Value :=
  tryCatch
    (match evalCondition ctx c with
     | Some v => ret v
     | None => throw ("Error: " +:+ conditionText c)
     end)
    (fun error =>
       consoleWrite ("Could not evaluate condition: " +:+ conditionText c);;;
       ret (VBool true)).

Record RuleResult : Type := mkRuleResult {
  passed : Value;
  message : string
}.

(** [evaluateRule] *)
Definition evaluateRule (rule : AIRule) (metadata : AIMetadata)
  (approvals : option ApprovalStatus) (filePath : string) : M RuleResult :=
  tryCatch
    (let context := mkContext metadata approvals filePath in
     passed <- evaluateCondition (condition rule) context;;
     ret (mkRuleResult passed (action rule)))
    (fun error =>
       consoleWrite ("Warning: Could not evaluate rule " +:+ id rule +:+ ": " +:+ error);;;
       ret (mkRuleResult (VBool true) EmptyString)).

(** [approvals?.key] for one of the boolean keys. *)
Definition optional (key : ApprovalStatus -> option bool)
  (approvals : option ApprovalStatus) : Value :=
  match approvals with
  | Some a => ofBool (key a)
  | None => VUndef
  end.

(** [result.allowed = false; result.reasons.push(reason)] *)
Definition block (reason : string) (result : CheckResult) : CheckResult :=
  mkCheckResult false (reasons result ++ [reason]) (warnings result).

(** [result.warnings.push(warning)] *)
Definition warn (warning : string) (result : CheckResult) : CheckResult :=
  mkCheckResult (allowed result) (reasons result) (warnings result ++ [warning]).

(** The four checks written out in [checkBeforeModification], before
    the rules are applied. *)
Definition hardCodedChecks (metadata : AIMetadata)
  (approvals : option ApprovalStatus) (result : CheckResult) : CheckResult :=
  let result :=
    if isReadOnly metadata then block "File is marked as read-only" result
    else result in
  let result :=
    if isHighRisk metadata
       && negb (truthy (optional devApproved approvals))
    then block "High-risk file requires dev approval before modification" result
    else result in
  let result :=
    if truthy (ofBool (reviewRequired metadata))
       && negb (truthy (optional codeReviewApproved approvals))
    then block "File requires code review approval before modification" result
    else result in
  let result :=
    if isDeprecated metadata
    then warn "This file is deprecated - consider if modification is necessary" result
    else result in
  result.

(** The body of the loop over the enabled rules. *)
Definition applyRule (metadata : AIMetadata) (approvals : option ApprovalStatus)
  (filePath : string) (result : CheckResult) (rule : AIRule) : M CheckResult :=
  ruleResult <- evaluateRule rule metadata approvals filePath;;
  if negb (truthy (passed ruleResult)) then
    if 8 <? priority rule then ret (block (message ruleResult) result)
    else ret (warn (message ruleResult) result)
  else ret result.

(** [for (const x of xs) { acc = body(acc, x) }] *)
Fixpoint forEach {A B} (body : B -> A -> M B) (xs : list A) (acc : B) : M B :=
  match xs with
  | [] => ret acc
  | x :: rest => acc' <- body acc x;; forEach body rest acc'
  end.

(** [checkBeforeModification] *)
Definition checkBeforeModification (filePath : string)
  (metadata : option AIMetadata) (approvals : option ApprovalStatus)
  : M CheckResult :=
  let result := mkCheckResult true [] [] in
  match metadata with
  | None => ret (warn "No @ai-metadata found in file" result)
  | Some metadata =>
      let result := hardCodedChecks metadata approvals result in
      rs <- gets rules;;
      forEach (applyRule metadata approvals filePath)
              (List.filter (fun r => enabled r) rs) result
  end.

(** [getActionsAfterModification] *)
Definition getActionsAfterModification (filePath : string)
  (metadata : option AIMetadata) : list string :=
  let actions := ["invalidate_approvals"; "update_last_modified"; "add_to_changelog"] in
  let actions :=
    match metadata with
    | Some m => if isHighRisk m then actions ++ ["require_immediate_review"] else actions
    | None => actions
    end in
  let actions :=
    match metadata with
    | Some m =>
        match tests m with
        | Some (_ :: _) => actions ++ ["run_tests"]
        | _ => actions
        end
    | None => actions
    end in
  actions.

(** [getDefaultRules] *)
Definition getDefaultRules : list AIRule :=
  [ mkAIRule "no-modify-read-only" "Prevent Read-Only Modifications"
      CIsReadOnly
      "File is marked as read-only and cannot be modified" 10 true;
    mkAIRule "high-risk-needs-approval" "High Risk Needs Approval"
      (CAnd CIsHighRisk (CNot (CHasApproval "dev")))
      "High-risk file requires developer approval" 9 true;
    mkAIRule "deprecated-warning" "Deprecated File Warning"
      CIsDeprecated
      "Consider if modifying deprecated file is necessary" 5 true;
    mkAIRule "review-required" "Review Required"
      (CAnd CMetaReviewRequired (CNot (CHasApproval "codeReview")))
      "File requires code review before modification" 8 true;
    mkAIRule "stable-code-protection" "Stable Code Protection"
      (CAnd (CStrictEq CMetaStability (CLit (VStr "stable")))
            (CNot (CHasApproval "dev")))
      "Stable code should be reviewed before modification" 6 true ].

Definition setEnabled (b : bool) (r : AIRule) : AIRule :=
  mkAIRule (id r) (name r) (condition r) (action r) (priority r) b.

(** [this.rules.find(r => r.id === ruleId)]: the object found, if
    there is one.  [os] tells which object each place of [rs] holds. *)
Fixpoint findObject (ruleId : string) (rs : list AIRule) (os : list nat)
  : option nat :=
  match rs, os with
  | r :: rs', o :: os' =>
      if String.eqb (id r) ruleId then Some o else findObject ruleId rs' os'
  | _, _ => None
  end.

(** [rule.enabled = b] on the object [o], as the list shows it: the
    assignment is seen at every place that holds the object. *)
Fixpoint assignEnabled (o : nat) (b : bool) (rs : list AIRule) (os : list nat)
  : list AIRule :=
  match rs, os with
  | r :: rs', o' :: os' =>
      (if Nat.eqb o' o then setEnabled b r else r) :: assignEnabled o b rs' os'
  | _, _ => rs
  end.

(** The objects at the places that [this.rules.filter(keep)] keeps. *)
Fixpoint keptIdentity (keep : AIRule -> bool) (rs : list AIRule) (os : list nat)
  : list nat :=
  match rs, os with
  | r :: rs', o :: os' =>
      if keep r then o :: keptIdentity keep rs' os' else keptIdentity keep rs' os'
  | _, _ => []
  end.

(** [addCustomRule]: the list takes the object handed to it, not a
    copy.  [o] tells which object the argument is and [rule] what its
    members are at the call. *)
Definition addCustomRule (o : nat) (rule : AIRule) : M unit :=
  modify (fun st =>
            setRuleIdentity (ruleIdentity st ++ [o])
              (setRules (rules st ++ [rule]) st));;;
  consoleWrite ("Added custom rule: " +:+ name rule).

(** [removeRule] *)
Definition removeRule (ruleId : string) : M unit :=
  let keep (r : AIRule) := negb (String.eqb (id r) ruleId) in
  modify (fun st =>
            setRuleIdentity (keptIdentity keep (rules st) (ruleIdentity st))
              (setRules (List.filter keep (rules st)) st));;;
  consoleWrite ("Removed rule: " +:+ ruleId).

(** [enableRule] *)
Definition enableRule (ruleId : string) : M unit :=
  rs <- gets rules;;
  os <- gets ruleIdentity;;
  match findObject ruleId rs os with
  | Some o =>
      modify (setRules (assignEnabled o true rs os));;;
      consoleWrite ("Enabled rule: " +:+ ruleId)
  | None => ret tt
  end.

(** [disableRule] *)
Definition disableRule (ruleId : string) : M unit :=
  rs <- gets rules;;
  os <- gets ruleIdentity;;
  match findObject ruleId rs os with
  | Some o =>
      modify (setRules (assignEnabled o false rs os));;;
      consoleWrite ("Disabled rule: " +:+ ruleId)
  | None => ret tt
  end.

(** [listRules] *)
Definition listRules : M (list AIRule) := gets rules.

End RuleEngine.

(** ** src/memory-manager.ts *)

Module MemoryManager.
Import Js Types World.
Local Open Scope monad_scope.

(** The entry [projectMemoryPath] of the memory directory. *)
Definition projectMemoryPath : string := "project-memory.json".

Definition setApprovalStates (s : gmap string ApprovalStatus) (m : ProjectMemory)
  : ProjectMemory :=
  mkProjectMemory (projectContext m) (currentSession m) (fileHistory m)
    (globalDecisions m) s.

(** [generateSessionId] *)
Definition generateSessionId : M string :=
  now <- gets dateNow;;
  r <- gets random;;
  ret ("session-" +:+ now +:+ "-" +:+ r).

(** [createDefaultProjectMemory] *)
Definition createDefaultProjectMemory (rt : Runtime) : M ProjectMemory :=
  sid <- generateSessionId;;
  now <- gets date;;
  ret (mkProjectMemory
         (mkProjectContext (basename rt) "unknown" []
            (Some "./docs/coding-standards.md") (Some "main"))
         (mkSession sid "No active task" now [] [] ∅ (Some []))
         ∅ [] ∅).

(** [getProjectMemory] *)
Definition getProjectMemory (rt : Runtime) : M ProjectMemory :=
  tryCatch
    (found <- pathExists projectMemoryPath;;
     if (found : bool) then readJson projectMemoryPath
     else createDefaultProjectMemory rt)
    (fun error =>
       consoleWrite ("Error reading project memory: " +:+ error);;;
       createDefaultProjectMemory rt).

(** [saveProjectMemory] *)
Definition saveProjectMemory (memory : ProjectMemory) : M unit :=
  tryCatch
    (writeJson projectMemoryPath memory;;;
     consoleWrite "Project memory saved")
    (fun error => consoleWrite ("Error saving project memory: " +:+ error)).

Definition approvalKeyText (k : ApprovalKey) : string :=
  match k with
  | KdevApproved => "devApproved"
  | KdevApprovedBy => "devApprovedBy"
  | KdevApprovedDate => "devApprovedDate"
  | KcodeReviewApproved => "codeReviewApproved"
  | KcodeReviewApprovedBy => "codeReviewApprovedBy"
  | KcodeReviewDate => "codeReviewDate"
  | KqaApproved => "qaApproved"
  | KqaApprovedBy => "qaApprovedBy"
  | KqaApprovedDate => "qaApprovedDate"
  end.

(** The [switch] of [setFileApproval]; [now] is
    [new Date().toISOString()]. *)
Definition approve (approvalType : ApprovalKey) (approvedBy now : string)
  (approvals : ApprovalStatus) : ApprovalStatus :=
  match approvalType with
  | KdevApproved =>
      MetadataParser.setDevApprovedDate now
        (MetadataParser.setDevApprovedBy approvedBy
           (MetadataParser.setDevApproved true approvals))
  | KcodeReviewApproved =>
      MetadataParser.setCodeReviewDate now
        (MetadataParser.setCodeReviewApprovedBy approvedBy
           (MetadataParser.setCodeReviewApproved true approvals))
  | KqaApproved =>
      MetadataParser.setQaApprovedDate now
        (MetadataParser.setQaApprovedBy approvedBy
           (MetadataParser.setQaApproved true approvals))
  | _ => approvals
  end.

Definition isSlotKey (approvalType : ApprovalKey) : bool :=
  match approvalType with
  | KdevApproved | KcodeReviewApproved | KqaApproved => true
  | _ => false
  end.

(** [states[key] = value] on the object [approvalStates].  When the
    object has no own member [__proto__], the assignment to that key
    goes to the setter it inherits: the prototype of the object is
    replaced, which nothing reads before the object is dropped, and no
    own member is made. *)
Definition assignOwn (key : string) (value : ApprovalStatus)
  (states : gmap string ApprovalStatus) : gmap string ApprovalStatus :=
  match states !! key with
  | Some _ => <[key := value]> states
  | None => if String.eqb key "__proto__" then states else <[key := value]> states
  end.

(** The assignments of a slot on the intrinsic object [name]:
    [Object.prototype] itself for [__proto__], else the function
    [Object.prototype[name]]. *)
Definition assignIntrinsic (name : string)
  (assignments : ApprovalStatus -> ApprovalStatus) (r : Realm) : Realm :=
  if String.eqb name "__proto__"
  then mkRealm (assignments (objectPrototype r)) (intrinsics r)
  else mkRealm (objectPrototype r)
         (<[name := assignments (default noMembers (intrinsics r !! name))]>
            (intrinsics r)).

(** The error of an assignment to a member of a primitive value; the
    modules of the server are in strict mode. *)
Definition cannotCreate (key : string) (v : Value) : string :=
  "TypeError: Cannot create property '" +:+ key +:+ "' on "
  +:+ match v with
      | VBool _ => "boolean"
      | VStr _ => "string"
      | VUndef => "undefined"
      end
  +:+ " '" +:+ toStr v +:+ "'".

(** [setFileApproval].  The test and the read of
    [memory.approvalStates[relativePath]] see inherited members too:
    for a key that names one and has no own entry, no entry is made and
    the assignments of the [switch] go to the inherited value. *)
Definition setFileApproval (rt : Runtime) (filePath : string)
  (approvalType : ApprovalKey) (approvedBy : string) : M unit :=
  memory <- getProjectMemory rt;;
  let relativePath := relative rt filePath in
  r <- gets realm;;
  let states := approvalStates memory in
  let states :=
    if holds (member r (states !! relativePath) relativePath) then states
    else assignOwn relativePath MetadataParser.emptyApprovals states in
  now <- gets date;;
  let finish (states : gmap string ApprovalStatus) : M unit :=
    saveProjectMemory (setApprovalStates states memory);;;
    consoleWrite (approvalKeyText approvalType +:+ " set for " +:+ relativePath
                  +:+ " by " +:+ approvedBy) in
  match member r (states !! relativePath) relativePath with
  | Some (Own approvals) =>
      finish (<[relativePath := approve approvalType approvedBy now approvals]> states)
  | Some (Intrinsic name) =>
      (if isSlotKey approvalType
       then modify (fun st =>
                      setRealm (assignIntrinsic name
                                  (approve approvalType approvedBy now) (realm st)) st)
       else ret tt);;;
      finish states
  | Some (Added v) =>
      (if isSlotKey approvalType
       then throw (cannotCreate (approvalKeyText approvalType) v)
       else ret tt);;;
      finish states
  | None => finish states
  end.

(** [getFileApprovalStatus]: [None] is the [null] of the source. *)
Definition getFileApprovalStatus (rt : Runtime) (filePath : string)
  : M (option (Member ApprovalStatus)) :=
  memory <- getProjectMemory rt;;
  let relativePath := relative rt filePath in
  r <- gets realm;;
  let found := member r (approvalStates memory !! relativePath) relativePath in
  ret (if holds found then found else None).

(** The object literal of [invalidateFileApprovals]. *)
Definition invalidated : ApprovalStatus :=
  mkApprovalStatus (Some false) None None (Some false) None None (Some false) None None.

(** [invalidateFileApprovals] *)
Definition invalidateFileApprovals (rt : Runtime) (filePath reason : string)
  : M unit :=
  memory <- getProjectMemory rt;;
  let relativePath := relative rt filePath in
  r <- gets realm;;
  if holds (member r (approvalStates memory !! relativePath) relativePath) then
    let memory :=
      setApprovalStates (assignOwn relativePath invalidated (approvalStates memory))
        memory in
    saveProjectMemory memory;;;
    consoleWrite ("Approvals invalidated for " +:+ relativePath +:+ ": " +:+ reason)
  else ret tt.

End MemoryManager.

(** ** src/index.ts: the tool handlers *)

Module Server.
Import Types World.
Local Open Scope monad_scope.

(** [case 'set_file_approval'] *)
Definition set_file_approval (rt : Runtime) (filePath : string)
  (approvalType : ApprovalKey) (approvedBy : string) : M unit :=
  MemoryManager.setFileApproval rt filePath approvalType approvedBy.

(** [case 'get_file_approval_status'] *)
Definition get_file_approval_status (rt : Runtime) (filePath : string)
  : M (option (Member ApprovalStatus)) :=
  MemoryManager.getFileApprovalStatus rt filePath.

(** [case 'check_before_modification'].  The rule engine does nothing
    with the value of the ledger but read the keys of an approval
    record on it: it is handed over as those keys read. *)
Definition check_before_modification (rt : Runtime) (filePath : string)
  : M CheckResult :=
  metadata <- MetadataParser.parseFileMetadata rt filePath;;
  approvals <- MemoryManager.getFileApprovalStatus rt filePath;;
  r <- gets realm;;
  RuleEngine.checkBeforeModification filePath metadata (option_map (reads r) approvals).

(** [case 'get_modification_actions'] *)
Definition get_modification_actions (rt : Runtime) (filePath : string)
  : M (list string) :=
  fileMetadata <- MetadataParser.parseFileMetadata rt filePath;;
  ret (RuleEngine.getActionsAfterModification filePath fileMetadata).

(** [case 'parse_file_metadata'] *)
Definition parse_file_metadata (rt : Runtime) (filePath : string)
  : M (option AIMetadata) :=
  MetadataParser.parseFileMetadata rt filePath.

(** [case 'update_file_metadata'] *)
Definition update_file_metadata (filePath : string)
  (updates : MetadataParser.Updates) : M unit :=
  MetadataParser.updateFileMetadata filePath updates.

(** The state in which the constructor leaves a server over the given
    files and memory directory: the rules of [getDefaultRules] are five
    objects, and nothing has been added to the intrinsic objects. *)
Definition initial (files : gmap string string) (memoryDir : gmap string Document)
  (date dateNow random : string) : State :=
  mkState files memoryDir RuleEngine.getDefaultRules [] date dateNow random
    (seq 0 (length RuleEngine.getDefaultRules)) pristine.

End Server.

(** ** Notions the properties are stated with *)

Module Props.
Import Js Types World.

(** The two states hold the same files, the same memory directory, the
    same rule list of the same objects, the same clock and random
    readings and the same realm: they differ at most in the console. *)
Definition sameStore (st st' : State) : Prop :=
  files st' = files st /\ memoryDir st' = memoryDir st /\ rules st' = rules st
  /\ date st' = date st /\ dateNow st' = dateNow st /\ random st' = random st
  /\ ruleIdentity st' = ruleIdentity st /\ realm st' = realm st.

(** The condition of the rule evaluates to a false value. *)
Definition conditionFalse (metadata : AIMetadata) (approvals : option ApprovalStatus)
  (filePath : string) (rule : AIRule) : bool :=
  match RuleEngine.evalCondition (RuleEngine.mkContext metadata approvals filePath)
          (condition rule) with
  | Some v => negb (truthy v)
  | None => false
  end.

(** An enabled rule whose condition is false: of blocking priority, or
    of advisory priority. *)
Definition blocking (metadata : AIMetadata) (approvals : option ApprovalStatus)
  (filePath : string) (rule : AIRule) : bool :=
  enabled rule && conditionFalse metadata approvals filePath rule
  && (8 <? priority rule).

Definition advisory (metadata : AIMetadata) (approvals : option ApprovalStatus)
  (filePath : string) (rule : AIRule) : bool :=
  enabled rule && conditionFalse metadata approvals filePath rule
  && (priority rule <=? 8).

(** What one turn of the loop over the enabled rules does to the
    result. *)
Definition classify (metadata : AIMetadata) (approvals : option ApprovalStatus)
  (filePath : string) (result : CheckResult) (rule : AIRule) : CheckResult :=
  if conditionFalse metadata approvals filePath rule then
    if 8 <? priority rule then RuleEngine.block (action rule) result
    else RuleEngine.warn (action rule) result
  else result.

(** The three approval slots of the ledger. *)
Inductive Slot : Type := dev | codeReview | qa.

Definition slotKey (s : Slot) : ApprovalKey :=
  match s with
  | dev => KdevApproved
  | codeReview => KcodeReviewApproved
  | qa => KqaApproved
  end.

Definition slotApproved (s : Slot) (a : ApprovalStatus) : option bool :=
  match s with
  | dev => devApproved a
  | codeReview => codeReviewApproved a
  | qa => qaApproved a
  end.

Definition slotBy (s : Slot) (a : ApprovalStatus) : option string :=
  match s with
  | dev => devApprovedBy a
  | codeReview => codeReviewApprovedBy a
  | qa => qaApprovedBy a
  end.

Definition slotDate (s : Slot) (a : ApprovalStatus) : option string :=
  match s with
  | dev => devApprovedDate a
  | codeReview => codeReviewDate a
  | qa => qaApprovedDate a
  end.

(** What a reader of the ledger sees of a path: the three approved
    flags are false; an absent entry counts as all false. *)
Definition allFlagsFalse (o : option ApprovalStatus) : Prop :=
  match o with
  | None => True
  | Some a =>
      devApproved a = Some false /\ codeReviewApproved a = Some false
      /\ qaApproved a = Some false
  end.

(** The value [createDefaultProjectMemory] returns in a state. *)
Definition defaultMemory (rt : Runtime) (st : State) : ProjectMemory :=
  mkProjectMemory
    (mkProjectContext (basename rt) "unknown" []
       (Some "./docs/coding-standards.md") (Some "main"))
    (mkSession ("session-" +:+ dateNow st +:+ "-" +:+ random st)
       "No active task" (date st) [] [] ∅ (Some []))
    ∅ [] ∅.

(** The document a reader of the ledger works with in a state: the one
    on disk when it parses, a default one otherwise. *)
Definition currentMemory (rt : Runtime) (st : State) : ProjectMemory :=
  match memoryDir st !! MemoryManager.projectMemoryPath with
  | Some (Parsed memory) => memory
  | _ => defaultMemory rt st
  end.

(** The entry of a path in that document. *)
Definition entryOf (rt : Runtime) (st : State) (filePath : string)
  : option ApprovalStatus :=
  approvalStates (currentMemory rt st) !! relative rt filePath.

(** What indexing the ledger of a state by the key of a path gives. *)
Definition foundAt (rt : Runtime) (st : State) (filePath : string)
  : option (Member ApprovalStatus) :=
  member (realm st) (entryOf rt st filePath) (relative rt filePath).

(** What [getFileApprovalStatus] returns for a path in a state. *)
Definition statusOf (rt : Runtime) (st : State) (filePath : string)
  : option (Member ApprovalStatus) :=
  if holds (foundAt rt st filePath) then foundAt rt st filePath else None.

(** The key names no member that every object inherits in the realm:
    indexing a plain object by it gives an own member or nothing. *)
Definition ordinary (r : Realm) (key : string) : bool :=
  negb (isIntrinsic key)
  && match ownMember key (objectPrototype r) with
     | VUndef => true
     | _ => false
     end.

(** The state after a write of the ledger. *)
Definition withLedger (memory : ProjectMemory) (st : State) : State :=
  setMemoryDir (<[MemoryManager.projectMemoryPath := Parsed memory]> (memoryDir st)) st.

(** A match found after [a]: [a] goes in front of what precedes it. *)
Definition prefixBefore (a : string) (m : Match) : Match :=
  mkMatch (a +:+ before m) (matched m) (group1 m) (after m).

(** The literal [p] and the text [s] differ at a position both have:
    no text that starts with [s] starts with [p]. *)
Fixpoint clash (eqc : ascii -> ascii -> bool) (p s : string) : bool :=
  match p, s with
  | String a p', String b s' => if eqc a b then clash eqc p' s' else true
  | _, _ => false
  end.

(** A test that holds of every suffix of a text but the empty one. *)
Fixpoint everySuffix (test : string -> bool) (s : string) : bool :=
  match s with
  | EmptyString => true
  | String _ s' => test s && everySuffix test s'
  end.

(** An expression that starts with the literal [field] under the [i]
    flag. *)
Definition FieldHead (re : Anchored) (field : string) : Prop :=
  forall s, startsWithCI field s = None -> re s = None.

(** The block [generateMetadataBlock] writes for the update
    [{stability: "stable"}], before and after the time stamp. *)
Definition blockHead : string :=
  "/**" +:+ chr LF +:+ " * @ai-metadata" +:+ chr LF +:+ " * @last-update: ".

Definition blockTail : string :=
  chr LF +:+ " * @stability: stable" +:+ chr LF +:+ " */".

(** The record read back from that block. *)
Definition stampedStable (now : string) : AIMetadata :=
  mkAIMetadata None None (Some now) None None (Some "stable") None None None None
    None None None None.

(** The characters of [Date.prototype.toISOString]: digits and the
    punctuation of the format, with the sign of an extended year. *)
Definition isIsoChar (c : ascii) : bool :=
  isDigit c || Ascii.eqb c "-"%char || Ascii.eqb c ":"%char
  || Ascii.eqb c "."%char || Ascii.eqb c "T"%char || Ascii.eqb c "Z"%char
  || Ascii.eqb c "+"%char.

Fixpoint allChars (f : ascii -> bool) (s : string) : bool :=
  match s with
  | EmptyString => true
  | String c r => f c && allChars f r
  end.

Definition isIsoString (s : string) : bool :=
  negb (String.eqb s EmptyString) && allChars isIsoChar s.

(** The record with other method permissions. *)
Definition withMethodPermissions (o : option Json) (m : AIMetadata) : AIMetadata :=
  mkAIMetadata (class m) (description m) (lastUpdate m) (lastEditor m) (changelog m)
    (stability m) (editPermissions m) o (dependencies m) (tests m)
    (breakingChangesRisk m) (reviewRequired m) (aiContext m) (approvals m).

(** The record [extractMetadataFromContent] builds from a block in
    which the expression for [@method-permissions:] finds nothing. *)
Definition fieldsWithoutMethodPermissions (metadataBlock : string) : AIMetadata :=
  MetadataParser.setApprovals (MetadataParser.parseApprovals metadataBlock)
    (MetadataParser.parseScalarsAndArrays metadataBlock MetadataParser.emptyMetadata).

End Props.

(** ** Sample inputs *)

Module Sample.
Import Js Types World.

(** A stand-in for [JSON.parse] that accepts the objects the metadata
    headers of the repository hold: string members only, no escapes. *)
Definition readString (s : string) : option (string * string) :=
  match s with
  | String q r =>
      if Ascii.eqb q dquote then
        match dropWhile (fun c => negb (Ascii.eqb c dquote)) r with
        | String _ rest => Some (takeWhile (fun c => negb (Ascii.eqb c dquote)) r, rest)
        | EmptyString => None
        end
      else None
  | EmptyString => None
  end.

Fixpoint members (fuel : nat) (s : string) : option (list (string * Json)) :=
  match fuel with
  | O => None
  | S fuel' =>
      match readString (dropWhile isWhiteSpace s) with
      | None => None
      | Some (key, r1) =>
          match dropWhile isWhiteSpace r1 with
          | String colon r2 =>
              if Ascii.eqb colon ":"%char then
                match readString (dropWhile isWhiteSpace r2) with
                | None => None
                | Some (value, r3) =>
                    match dropWhile isWhiteSpace r3 with
                    | String sep r4 =>
                        if Ascii.eqb sep ","%char then
                          option_map (cons (key, JString value)) (members fuel' r4)
                        else if Ascii.eqb sep "}"%char then
                          match dropWhile isWhiteSpace r4 with
                          | EmptyString => Some [(key, JString value)]
                          | String _ _ => None
                          end
                        else None
                    | EmptyString => None
                    end
                end
              else None
          | EmptyString => None
          end
      end
  end.

Definition parseFlatObject (s : string) : option Json :=
  match dropWhile isWhiteSpace s with
  | String open r =>
      if Ascii.eqb open "{"%char then
        match dropWhile isWhiteSpace r with
        | String close r' =>
            if Ascii.eqb close "}"%char then
              match dropWhile isWhiteSpace r' with
              | EmptyString => Some (JObject [])
              | String _ _ => None
              end
            else option_map JObject (members (String.length s) r)
        | EmptyString => None
        end
      else None
  | EmptyString => None
  end.

(** A server whose project root is the working directory. *)
Definition rt : Runtime := mkRuntime (fun p => p) "project" parseFlatObject.

Definition now : string := "2024-12-20T10:00:00.000Z".

Definition line (s : string) : string := s +:+ chr LF.

(** A file with full edit permissions and a high risk of breaking
    changes. *)
Definition highRiskFile : string :=
  line "/**" +:+ line " * @ai-metadata" +:+ line " * @edit-permissions: full"
  +:+ line " * @breaking-changes-risk: high" +:+ line " */"
  +:+ line "export const answer = 42;".

(** A file whose block declares an experimental stability and the day
    of its last update. *)
Definition experimentalFile : string :=
  line "/**" +:+ line " * @ai-metadata" +:+ line " * @last-update: 2024-01-01"
  +:+ line " * @stability: experimental"
  +:+ line " */" +:+ line "export const draft = true;".

(** A file whose method permissions are not JSON: the keys and values
    are bare words. *)
Definition malformedFile : string :=
  line "/**" +:+ line " * @ai-metadata" +:+ line " * @class: Auth"
  +:+ line " * @method-permissions: { login: read-only }"
  +:+ line " * @review-required: true" +:+ line " */".

(** A file without a metadata block. *)
Definition plainFile : string := line "export const plain = 1;".

Definition sources : gmap string string :=
  {[ "src/auth.ts" := highRiskFile; "src/draft.ts" := experimentalFile;
     "src/bad.ts" := malformedFile; "src/plain.ts" := plainFile ]}.

(** The server after its start on a project without a ledger. *)
Definition fresh : State :=
  Server.initial sources ∅ now "1734688800000" "k3j9x0a1z".

(** The same with a ledger file that does not parse. *)
Definition corrupt : State :=
  Server.initial sources
    {[ MemoryManager.projectMemoryPath := Unparseable "{ not json" ]}
    now "1734688800000" "k3j9x0a1z".

(** A ledger in which dev and QA approved [src/auth.ts]. *)
Definition approvedEntry : ApprovalStatus :=
  mkApprovalStatus (Some true) (Some "alice") (Some "2024-12-01T08:00:00.000Z")
    None None None
    (Some true) (Some "carol") (Some "2024-12-02T08:00:00.000Z").

Definition approvedMemory : ProjectMemory :=
  mkProjectMemory
    (mkProjectContext "project" "unknown" [] None (Some "main"))
    (mkSession "session-1" "No active task" "2024-12-01T00:00:00.000Z" [] [] ∅ None)
    ∅ [] {[ "src/auth.ts" := approvedEntry ]}.

Definition approved : State :=
  Server.initial sources
    {[ MemoryManager.projectMemoryPath := Parsed approvedMemory ]}
    now "1734688800000" "k3j9x0a1z".

End Sample.

(** ** src/memory-manager.ts: sessions and decisions *)

Module SessionManager.
Import Js Types World.
Local Open Scope monad_scope.

(** What the host gives for a JSON value: [JSON.stringify(value)] and
    the conversion [String(value)] of a template literal. *)
Record JsonText : Type := mkJsonText {
  stringify : Json -> string;
  display : Json -> string
}.

Definition setCurrentSession (s : Session) (m : ProjectMemory) : ProjectMemory :=
  mkProjectMemory (projectContext m) s (fileHistory m) (globalDecisions m)
    (approvalStates m).

Definition setGlobalDecisions (d : list Decision) (m : ProjectMemory)
  : ProjectMemory :=
  mkProjectMemory (projectContext m) (currentSession m) (fileHistory m) d
    (approvalStates m).

Definition setCompletedSteps (steps : list SessionStep) (s : Session) : Session :=
  mkSession (sessionId s) (task s) (started s) steps (nextSteps s)
    (importantDecisions s) (blockers s).

Definition setImportantDecisions (d : gmap string Json) (s : Session) : Session :=
  mkSession (sessionId s) (task s) (started s) (completedSteps s) (nextSteps s) d
    (blockers s).

(** [object[key] = value] on a record of JSON values.  When the record
    has no own member [__proto__], the assignment to that key goes to
    the setter the record inherits and makes no own member. *)
Definition assignMember (key : string) (value : Json) (o : gmap string Json)
  : gmap string Json :=
  match o !! key with
  | Some _ => <[key := value]> o
  | None => if String.eqb key "__proto__" then o else <[key := value]> o
  end.

(** [generateId] *)
Definition generateId : M string :=
  now <- gets dateNow;;
  r <- gets random;;
  ret (now +:+ "-" +:+ r).

(** [startNewSession] *)
Definition startNewSession (rt : Runtime) (task : string) : M string :=
  memory <- MemoryManager.getProjectMemory rt;;
  sessionId <- MemoryManager.generateSessionId;;
  now <- gets date;;
  let memory :=
    setCurrentSession (mkSession sessionId task now [] [] ∅ (Some [])) memory in
  MemoryManager.saveProjectMemory memory;;;
  consoleWrite ("Started new session: " +:+ sessionId);;;
  consoleWrite ("Task: " +:+ task);;;
  ret sessionId.

(** [addSessionStep] *)
Definition addSessionStep (rt : Runtime) (step : string)
  (filesModified : list string) (description : option string) : M unit :=
  memory <- MemoryManager.getProjectMemory rt;;
  now <- gets date;;
  let sessionStep := mkSessionStep step now filesModified description (Some 0) in
  let memory :=
    setCurrentSession
      (setCompletedSteps (completedSteps (currentSession memory) ++ [sessionStep])
         (currentSession memory))
      memory in
  MemoryManager.saveProjectMemory memory;;;
  consoleWrite ("Step completed: " +:+ step).

(** [addImportantDecision] *)
Definition addImportantDecision (rt : Runtime) (jt : JsonText) (key : string)
  (value : Json) (reasoning : string) : M unit :=
  memory <- MemoryManager.getProjectMemory rt;;
  let memory :=
    setCurrentSession
      (setImportantDecisions
         (assignMember key value (importantDecisions (currentSession memory)))
         (currentSession memory))
      memory in
  newId <- generateId;;
  now <- gets date;;
  let decision :=
    mkDecision newId (key +:+ ": " +:+ stringify jt value) reasoning [] now
      "system" [] in
  let memory := setGlobalDecisions (globalDecisions memory ++ [decision]) memory in
  MemoryManager.saveProjectMemory memory;;;
  consoleWrite ("Decision recorded: " +:+ key +:+ " = " +:+ display jt value).

End SessionManager.

(** ** Further notions *)

Module Notions.
Import Js Types World Props.

(** The evaluation of the condition of the rule throws. *)
Definition throws (metadata : AIMetadata) (approvals : option ApprovalStatus)
  (filePath : string) (rule : AIRule) : bool :=
  match RuleEngine.evalCondition (RuleEngine.mkContext metadata approvals filePath)
          (condition rule) with
  | Some _ => false
  | None => true
  end.

(** The diagnostic [evaluateCondition] writes for a rule. *)
Definition diagnostic (rule : AIRule) : string :=
  "Could not evaluate condition: " +:+ RuleEngine.conditionText (condition rule).

(** The rule list without the first rule that has the identifier. *)
Fixpoint removeFirst (ruleId : string) (rs : list AIRule) : list AIRule :=
  match rs with
  | [] => []
  | r :: rest =>
      if String.eqb (id r) ruleId then rest else r :: removeFirst ruleId rest
  end.

(** The rule list without the places that hold the object [o]. *)
Fixpoint withoutObject (o : nat) (rs : list AIRule) (os : list nat) : list AIRule :=
  match rs, os with
  | r :: rs', o' :: os' =>
      if Nat.eqb o' o then withoutObject o rs' os' else r :: withoutObject o rs' os'
  | _, _ => rs
  end.

(** The rule list of a state without the places that hold the object
    which is the first rule with the identifier. *)
Definition withoutFound (ruleId : string) (st : State) : list AIRule :=
  match RuleEngine.findObject ruleId (rules st) (ruleIdentity st) with
  | Some o => withoutObject o (rules st) (ruleIdentity st)
  | None => rules st
  end.

(** Every place of the rule list holds an object, and the places that
    hold one object show one rule. *)
Definition coherent (st : State) : Prop :=
  length (ruleIdentity st) = length (rules st)
  /\ forall (i j o : nat) (r r' : AIRule),
       ruleIdentity st !! i = Some o -> ruleIdentity st !! j = Some o ->
       rules st !! i = Some r -> rules st !! j = Some r' -> r = r'.

(** The first rule that has the identifier. *)
Definition firstWithId (ruleId : string) (rs : list AIRule) : option AIRule :=
  List.find (fun r => String.eqb (id r) ruleId) rs.

(** No rule of the list has the identifier. *)
Definition freshId (ruleId : string) (rs : list AIRule) : bool :=
  forallb (fun r => negb (String.eqb (id r) ruleId)) rs.

(** The three actions every modification asks for. *)
Definition baseActions : list string :=
  ["invalidate_approvals"; "update_last_modified"; "add_to_changelog"].

(** A value without quote characters and without line breaks. *)
Definition cleanChar (c : ascii) : bool := negb (isQuote c) && negb (isLineBreak c).

Definition clean (o : option string) : Prop :=
  match o with
  | Some v => allChars cleanChar v = true
  | None => True
  end.

(** At none of the keys of the updates does the table of
    [updateMetadataField] give a true value, own or inherited. *)
Definition unmapped (r : Realm) (u : MetadataParser.Updates) : bool :=
  forallb
    (fun kv =>
       match member r (MetadataParser.fieldMap (fst kv)) (fst kv) with
       | None => true
       | Some (Own field) => String.eqb field EmptyString
       | Some (Intrinsic _) => false
       | Some (Added v) => negb (truthy v)
       end) u.

(** The memory is the same but for the session and the decisions. *)
Definition sameApprovals (rt : Runtime) (st st' : State) : Prop :=
  forall filePath, entryOf rt st' filePath = entryOf rt st filePath.

End Notions.

(** ** Further sample inputs *)

Module Cases.
Import Js Types World.

(** A rule that fails on every file. *)
Definition freezeRule : AIRule :=
  mkAIRule "freeze" "Code Freeze" (CLit (VBool false))
    "Code freeze in effect" 9 true.

(** The server with the rule list emptied. *)
Definition noRules : State := setRuleIdentity [] (setRules [] Sample.approved).

(** A server whose rule list holds one rule object, added twice. *)
Definition addedTwice : State :=
  snd (RuleEngine.addCustomRule 0 freezeRule
         (snd (RuleEngine.addCustomRule 0 freezeRule
                 (setRuleIdentity [] (setRules [] Sample.fresh))))).

(** A block whose method permissions are not JSON and hold the text of
    another field, and the same block without that line. *)
Definition shadowingFile : string :=
  Sample.line "/**" +:+ Sample.line " * @ai-metadata"
  +:+ Sample.line " * @method-permissions: { login: @class: Evil }"
  +:+ Sample.line " * @class: Auth" +:+ Sample.line " */".

Definition shadowingFileWithoutField : string :=
  Sample.line "/**" +:+ Sample.line " * @ai-metadata"
  +:+ Sample.line " * @class: Auth" +:+ Sample.line " */".

(** A read-only file that carries its own approval lines. *)
Definition selfApprovedFile : string :=
  Sample.line "/**" +:+ Sample.line " * @ai-metadata"
  +:+ Sample.line " * @edit-permissions: 'read-only'"
  +:+ Sample.line " * @breaking-changes-risk: high"
  +:+ Sample.line " * @tests: [ ]"
  +:+ Sample.line " * @dev-approved: true" +:+ Sample.line " */".

End Cases.

(** * Properties *)

Import Js Types World Props.
Local Open Scope monad_scope.

(** ** The monad *)

Lemma sameStore_refl (st : State) : sameStore st st.
Proof. repeat split. Qed.

Lemma sameStore_trans (a b c : State) :
  sameStore a b -> sameStore b c -> sameStore a c.
Proof.
  unfold sameStore. intros (?&?&?&?&?&?&?&?) (?&?&?&?&?&?&?&?).
  repeat split; congruence.
Qed.

(** ** The rule engine *)

Lemma evaluateCondition_run (c : Condition) (ctx : RuleEngine.Context) (st : State) :
  exists st',
    RuleEngine.evaluateCondition c ctx st
    = (Ok (default (VBool true) (RuleEngine.evalCondition ctx c)), st')
    /\ sameStore st st'.
Proof.
  unfold RuleEngine.evaluateCondition, tryCatch.
  destruct (RuleEngine.evalCondition ctx c) as [v|]; simpl.
  - exists st. split; [reflexivity | apply sameStore_refl].
  - eexists. split; [reflexivity | repeat split].
Qed.

Lemma evaluateRule_run (rule : AIRule) (metadata : AIMetadata)
  (approvals : option ApprovalStatus) (filePath : string) (st : State) :
  exists st',
    RuleEngine.evaluateRule rule metadata approvals filePath st
    = (Ok (RuleEngine.mkRuleResult
             (default (VBool true)
                (RuleEngine.evalCondition
                   (RuleEngine.mkContext metadata approvals filePath)
                   (condition rule)))
             (action rule)), st')
    /\ sameStore st st'.
Proof.
  unfold RuleEngine.evaluateRule, tryCatch, bind.
  destruct (evaluateCondition_run (condition rule)
              (RuleEngine.mkContext metadata approvals filePath) st)
    as (st' & E & S).
  rewrite E. simpl. exists st'. split; [reflexivity | exact S].
Qed.

Lemma applyRule_run (metadata : AIMetadata) (approvals : option ApprovalStatus)
  (filePath : string) (result : CheckResult) (rule : AIRule) (st : State) :
  exists st',
    RuleEngine.applyRule metadata approvals filePath result rule st
    = (Ok (classify metadata approvals filePath result rule), st')
    /\ sameStore st st'.
Proof.
  unfold RuleEngine.applyRule, bind.
  destruct (evaluateRule_run rule metadata approvals filePath st) as (st' & E & S).
  rewrite E. exists st'. split; [|exact S].
  unfold classify, conditionFalse. simpl.
  destruct (RuleEngine.evalCondition _ _) as [v|]; simpl.
  - destruct (truthy v); simpl; [reflexivity|].
    destruct (8 <? priority rule); reflexivity.
  - reflexivity.
Qed.

Lemma forEach_applyRule_run (metadata : AIMetadata) (approvals : option ApprovalStatus)
  (filePath : string) (rs : list AIRule) :
  forall (result : CheckResult) (st : State),
  exists st',
    RuleEngine.forEach (RuleEngine.applyRule metadata approvals filePath) rs result st
    = (Ok (fold_left (classify metadata approvals filePath) rs result), st')
    /\ sameStore st st'.
Proof.
  induction rs as [|rule rs IH]; intros result st; simpl.
  - exists st. split; [reflexivity | apply sameStore_refl].
  - unfold bind.
    destruct (applyRule_run metadata approvals filePath result rule st)
      as (st1 & E & S1).
    rewrite E.
    destruct (IH (classify metadata approvals filePath result rule) st1)
      as (st2 & E2 & S2).
    exists st2. split; [exact E2 | eapply sameStore_trans; eassumption].
Qed.

(** The loop over the enabled rules, rule by rule: the reasons grow by
    the actions of the blocking rules, the warnings by those of the
    advisory ones, each in the order of the list. *)
Lemma fold_classify (metadata : AIMetadata) (approvals : option ApprovalStatus)
  (filePath : string) (rs : list AIRule) :
  forall result : CheckResult,
  let r := fold_left (classify metadata approvals filePath)
             (List.filter (fun rule => enabled rule) rs) result in
  reasons r
  = reasons result
    ++ map action (List.filter (blocking metadata approvals filePath) rs)
  /\ warnings r
     = warnings result
       ++ map action (List.filter (advisory metadata approvals filePath) rs)
  /\ allowed r
     = allowed result
       && forallb (fun rule => negb (blocking metadata approvals filePath rule)) rs.
Proof.
  induction rs as [|rule rs IH]; intros result; simpl.
  - rewrite !app_nil_r, andb_true_r. auto.
  - unfold blocking, advisory in *.
    destruct (enabled rule) eqn:En; simpl.
    + destruct (IH (classify metadata approvals filePath result rule))
        as (R & W & A).
      rewrite R, W, A. unfold classify.
      destruct (conditionFalse metadata approvals filePath rule); simpl.
      * destruct (8 <? priority rule) eqn:P; simpl.
        -- assert ((priority rule <=? 8) = false) as -> by lia.
           rewrite <- !app_assoc, andb_false_r. auto.
        -- assert ((priority rule <=? 8) = true) as -> by lia.
           simpl. rewrite <- !app_assoc. auto.
      * auto.
    + apply IH.
Qed.

Lemma forallb_negb_filter {A} (f : A -> bool) (l : list A) :
  forallb (fun x => negb (f x)) l
  = match List.filter f l with [] => true | _ :: _ => false end.
Proof.
  induction l as [|x l IH]; simpl; [reflexivity|].
  destruct (f x); simpl; [reflexivity | exact IH].
Qed.

Lemma hardCodedChecks_invariant (metadata : AIMetadata)
  (approvals : option ApprovalStatus) :
  let r := RuleEngine.hardCodedChecks metadata approvals (mkCheckResult true [] []) in
  allowed r = false <-> reasons r <> [].
Proof.
  unfold RuleEngine.hardCodedChecks.
  destruct (RuleEngine.isReadOnly metadata),
    (RuleEngine.isHighRisk metadata
     && negb (truthy (RuleEngine.optional devApproved approvals))),
    (truthy (RuleEngine.ofBool (reviewRequired metadata))
     && negb (truthy (RuleEngine.optional codeReviewApproved approvals))),
    (RuleEngine.isDeprecated metadata);
    simpl; split; intros H; try reflexivity; try discriminate; congruence.
Qed.

Lemma checkBeforeModification_run (filePath : string) (metadata : AIMetadata)
  (approvals : option ApprovalStatus) (st : State) :
  exists st',
    RuleEngine.checkBeforeModification filePath (Some metadata) approvals st
    = (Ok (fold_left (classify metadata approvals filePath)
             (List.filter (fun rule => enabled rule) (rules st))
             (RuleEngine.hardCodedChecks metadata approvals
                (mkCheckResult true [] []))), st')
    /\ sameStore st st'.
Proof.
  unfold RuleEngine.checkBeforeModification, bind, gets.
  apply forEach_applyRule_run.
Qed.

(** C3. In [checkBeforeModification] on a file with metadata, the rules
    add to the result exactly this: the action of every enabled rule
    whose condition is false goes to the reasons when its priority is
    above 8, and then the file is not allowed, and to the warnings when
    its priority is 8 or less; the order is the order of the rule list,
    after what the hard-coded checks gave. *)
Theorem failed_rules_classified_by_priority :
  forall (filePath : string) (metadata : AIMetadata)
         (approvals : option ApprovalStatus) (st : State),
  exists (r : CheckResult) (st' : State),
    RuleEngine.checkBeforeModification filePath (Some metadata) approvals st
    = (Ok r, st')
    /\ let hard := RuleEngine.hardCodedChecks metadata approvals
                     (mkCheckResult true [] []) in
       reasons r
       = reasons hard
         ++ map action (List.filter (blocking metadata approvals filePath) (rules st))
       /\ warnings r
          = warnings hard
            ++ map action (List.filter (advisory metadata approvals filePath) (rules st))
       /\ allowed r
          = allowed hard
            && forallb (fun rule => negb (blocking metadata approvals filePath rule))
                 (rules st).
Proof.
  intros filePath metadata approvals st.
  destruct (checkBeforeModification_run filePath metadata approvals st)
    as (st' & E & _).
  eexists. exists st'. split; [exact E|].
  apply fold_classify.
Qed.

(** C4. Whatever the metadata, the approvals and the rule list, the
    result of [checkBeforeModification] has [allowed = false] exactly
    when its reasons are not empty; the warnings play no part. *)
Theorem allowed_false_iff_reasons :
  forall (filePath : string) (metadata : option AIMetadata)
         (approvals : option ApprovalStatus) (st : State),
  exists (r : CheckResult) (st' : State),
    RuleEngine.checkBeforeModification filePath metadata approvals st = (Ok r, st')
    /\ (allowed r = false <-> reasons r <> [])
    /\ allowed r = bool_decide (reasons r = []).
Proof.
  intros filePath [metadata|] approvals st.
  - destruct (checkBeforeModification_run filePath metadata approvals st)
      as (st' & E & _).
    eexists. exists st'. split; [exact E|].
    destruct (fold_classify metadata approvals filePath (rules st)
                (RuleEngine.hardCodedChecks metadata approvals
                   (mkCheckResult true [] []))) as (R & _ & A).
    pose proof (hardCodedChecks_invariant metadata approvals) as H.
    simpl in H.
    set (r := fold_left _ _ _) in *.
    set (hard := RuleEngine.hardCodedChecks _ _ _) in *.
    assert (allowed r = false <-> reasons r <> []) as Hiff.
    { rewrite R, A.
      rewrite (forallb_negb_filter (blocking metadata approvals filePath) (rules st)).
      destruct (List.filter (blocking metadata approvals filePath) (rules st))
        as [|x l]; simpl.
      - rewrite app_nil_r, andb_true_r. exact H.
      - rewrite andb_false_r. split; [|reflexivity].
        intros _. destruct (reasons hard); discriminate. }
    split; [exact Hiff|].
    destruct (allowed r) eqn:Ar.
    + symmetry. apply bool_decide_eq_true.
      destruct (reasons r) eqn:Rr; [reflexivity|].
      assert (true = false) by (apply Hiff; discriminate). discriminate.
    + symmetry. apply bool_decide_eq_false. apply Hiff. reflexivity.
  - exists (RuleEngine.warn "No @ai-metadata found in file" (mkCheckResult true [] [])), st.
    split; [reflexivity|]. simpl. split; [|reflexivity].
    split; [discriminate | congruence].
Qed.

(** A rule of priority 9 whose condition is false gives a reason; the
    same rule with priority 8 gives a warning and no reason. *)
Example priority_nine_blocks :
  fst (RuleEngine.checkBeforeModification "src/auth.ts"
         (Some MetadataParser.emptyMetadata) None
         (setRules [mkAIRule "r" "R" (CLit (VBool false)) "nine" 9 true] Sample.fresh))
  = Ok (mkCheckResult false ["nine"] []).
Proof. reflexivity. Qed.

Example priority_eight_warns :
  fst (RuleEngine.checkBeforeModification "src/auth.ts"
         (Some MetadataParser.emptyMetadata) None
         (setRules [mkAIRule "r" "R" (CLit (VBool false)) "eight" 8 true] Sample.fresh))
  = Ok (mkCheckResult true [] ["eight"]).
Proof. reflexivity. Qed.

(** ** The approval ledger *)

Lemma getProjectMemory_exact (rt : Runtime) (st : State) :
  exists lines : list string,
    MemoryManager.getProjectMemory rt st
    = (Ok (currentMemory rt st), setConsole (console st ++ lines) st).
Proof.
  unfold MemoryManager.getProjectMemory, tryCatch, bind, pathExists, gets,
    readJson, currentMemory.
  destruct (memoryDir st !! MemoryManager.projectMemoryPath) as [[raw|memory]|] eqn:E.
  - rewrite bool_decide_eq_true_2 by eauto. rewrite E.
    eexists [_]. reflexivity.
  - rewrite bool_decide_eq_true_2 by eauto. rewrite E.
    exists []. rewrite app_nil_r. destruct st; reflexivity.
  - rewrite bool_decide_eq_false_2 by (intros [x Hx]; discriminate).
    exists []. rewrite app_nil_r. destruct st; reflexivity.
Qed.

Lemma getProjectMemory_run (rt : Runtime) (st : State) :
  exists st',
    MemoryManager.getProjectMemory rt st = (Ok (currentMemory rt st), st')
    /\ sameStore st st'.
Proof.
  destruct (getProjectMemory_exact rt st) as (lines & E).
  eexists. split; [exact E | repeat split].
Qed.

Lemma currentMemory_sameStore (rt : Runtime) (st st' : State) :
  sameStore st st' -> currentMemory rt st' = currentMemory rt st.
Proof.
  intros (_ & Hm & _ & Hd & Hn & Hr & _).
  unfold currentMemory, defaultMemory. rewrite Hm, Hd, Hn, Hr. reflexivity.
Qed.

Lemma entryOf_sameStore (rt : Runtime) (st st' : State) (filePath : string) :
  sameStore st st' -> entryOf rt st' filePath = entryOf rt st filePath.
Proof.
  intros S. unfold entryOf. rewrite (currentMemory_sameStore rt st st' S). reflexivity.
Qed.

Lemma foundAt_sameStore (rt : Runtime) (st st' : State) (filePath : string) :
  sameStore st st' -> foundAt rt st' filePath = foundAt rt st filePath.
Proof.
  intros S. unfold foundAt. rewrite (entryOf_sameStore rt st st' filePath S).
  destruct S as (_ & _ & _ & _ & _ & _ & _ & ->). reflexivity.
Qed.

Lemma statusOf_sameStore (rt : Runtime) (st st' : State) (filePath : string) :
  sameStore st st' -> statusOf rt st' filePath = statusOf rt st filePath.
Proof.
  intros S. unfold statusOf. rewrite (foundAt_sameStore rt st st' filePath S).
  reflexivity.
Qed.

Lemma getFileApprovalStatus_run (rt : Runtime) (filePath : string) (st : State) :
  exists st',
    MemoryManager.getFileApprovalStatus rt filePath st
    = (Ok (statusOf rt st filePath), st')
    /\ sameStore st st'.
Proof.
  unfold MemoryManager.getFileApprovalStatus, bind.
  destruct (getProjectMemory_exact rt st) as (lines & E).
  rewrite E. eexists. split; [reflexivity | repeat split].
Qed.

Lemma saveProjectMemory_run (memory : ProjectMemory) (st : State) :
  exists st',
    MemoryManager.saveProjectMemory memory st = (Ok tt, st')
    /\ sameStore (withLedger memory st) st'.
Proof.
  eexists. split; [reflexivity | repeat split].
Qed.

Lemma currentMemory_withLedger (rt : Runtime) (memory : ProjectMemory) (st : State) :
  currentMemory rt (withLedger memory st) = memory.
Proof.
  unfold currentMemory, withLedger. simpl. rewrite lookup_insert_eq. reflexivity.
Qed.

Lemma entryOf_withLedger (rt : Runtime) (memory : ProjectMemory) (st : State)
  (filePath : string) :
  entryOf rt (withLedger memory st) filePath
  = approvalStates memory !! relative rt filePath.
Proof. unfold entryOf. rewrite currentMemory_withLedger. reflexivity. Qed.

Lemma setApprovalStates_same (memory : ProjectMemory) :
  MemoryManager.setApprovalStates (approvalStates memory) memory = memory.
Proof. destruct memory; reflexivity. Qed.

(** *** Keys that name an inherited member *)

Lemma not_intrinsic_not_proto (key : string) :
  isIntrinsic key = false -> String.eqb key "__proto__" = false.
Proof.
  intros H. destruct (String.eqb_spec key "__proto__") as [->|]; [|reflexivity].
  vm_compute in H. discriminate.
Qed.

Lemma member_ordinary {A} (r : Realm) (own : option A) (key : string) :
  ordinary r key = true -> member r own key = option_map Own own.
Proof.
  unfold ordinary, member. intros H. apply andb_prop in H as [Hi Ha].
  destruct own as [a|]; [reflexivity|]. simpl.
  destruct (isIntrinsic key); [discriminate|].
  destruct (ownMember key (objectPrototype r)); [reflexivity | discriminate ..].
Qed.

Lemma ordinary_not_proto (r : Realm) (key : string) :
  ordinary r key = true -> String.eqb key "__proto__" = false.
Proof.
  unfold ordinary. intros H. apply andb_prop in H as [Hi _].
  apply not_intrinsic_not_proto. destruct (isIntrinsic key); [discriminate | reflexivity].
Qed.

Lemma assignOwn_ordinary (r : Realm) (key : string) (value : ApprovalStatus)
  (states : gmap string ApprovalStatus) :
  ordinary r key = true ->
  MemoryManager.assignOwn key value states = <[key := value]> states.
Proof.
  intros H. unfold MemoryManager.assignOwn.
  rewrite (ordinary_not_proto r key H). destruct (states !! key); reflexivity.
Qed.

Lemma foundAt_ordinary (rt : Runtime) (st : State) (filePath : string) :
  ordinary (realm st) (relative rt filePath) = true ->
  foundAt rt st filePath = option_map Own (entryOf rt st filePath).
Proof. intros H. unfold foundAt. apply member_ordinary. exact H. Qed.

Lemma statusOf_ordinary (rt : Runtime) (st : State) (filePath : string) :
  ordinary (realm st) (relative rt filePath) = true ->
  statusOf rt st filePath = option_map Own (entryOf rt st filePath).
Proof.
  intros H. unfold statusOf. rewrite (foundAt_ordinary rt st filePath H).
  destruct (entryOf rt st filePath); reflexivity.
Qed.

Lemma foundAt_own (rt : Runtime) (st : State) (filePath : string) (a : ApprovalStatus) :
  entryOf rt st filePath = Some a -> foundAt rt st filePath = Some (Own a).
Proof. intros H. unfold foundAt. rewrite H. reflexivity. Qed.

Lemma statusOf_own (rt : Runtime) (st : State) (filePath : string) (a : ApprovalStatus) :
  entryOf rt st filePath = Some a -> statusOf rt st filePath = Some (Own a).
Proof. intros H. unfold statusOf. rewrite (foundAt_own rt st filePath a H). reflexivity. Qed.

(** *** What the two writers do, case by case *)

(** [setFileApproval], by what the ledger gives at the key of the path:
    an own entry takes the approval; so does an entry made for a key at
    which nothing true is found; an intrinsic object takes the
    assignments itself, and the ledger is saved as it was read; a true
    primitive value refuses them. *)
Lemma setFileApproval_exact (rt : Runtime) (filePath : string)
  (approvalType : ApprovalKey) (approvedBy : string) (st : State) :
  let key := relative rt filePath in
  let memory := currentMemory rt st in
  let approved (a : ApprovalStatus) :=
    withLedger
      (MemoryManager.setApprovalStates
         (<[key := MemoryManager.approve approvalType approvedBy (date st) a]>
            (approvalStates memory)) memory) st in
  exists (outcome : Outcome unit) (st1 : State),
    MemoryManager.setFileApproval rt filePath approvalType approvedBy st
    = (outcome, st1)
    /\ match foundAt rt st filePath with
       | Some (Own a) => outcome = Ok tt /\ sameStore (approved a) st1
       | Some (Intrinsic name) =>
           outcome = Ok tt
           /\ sameStore
                (withLedger memory
                   (if MemoryManager.isSlotKey approvalType
                    then setRealm
                           (MemoryManager.assignIntrinsic name
                              (MemoryManager.approve approvalType approvedBy (date st))
                              (realm st)) st
                    else st))
                st1
       | Some (Added v) =>
           if truthy v then
             if MemoryManager.isSlotKey approvalType
             then outcome
                  = Throw (MemoryManager.cannotCreate
                             (MemoryManager.approvalKeyText approvalType) v)
                  /\ sameStore st st1
             else outcome = Ok tt /\ sameStore (withLedger memory st) st1
           else outcome = Ok tt /\ sameStore (approved MetadataParser.emptyApprovals) st1
       | None => outcome = Ok tt /\ sameStore (approved MetadataParser.emptyApprovals) st1
       end.
Proof.
  intros key memory approved. subst approved.
  unfold MemoryManager.setFileApproval, bind.
  destruct (getProjectMemory_exact rt st) as (lines & E). rewrite E.
  unfold gets. cbv beta iota. fold key. fold memory.
  unfold foundAt, entryOf. fold key. fold memory.
  change (realm (setConsole (console st ++ lines) st)) with (realm st).
  change (date (setConsole (console st ++ lines) st)) with (date st).
  destruct (approvalStates memory !! key) as [a|] eqn:L; unfold member.
  - unfold holds. cbv iota. rewrite L. simpl.
    eexists _, _. split; [reflexivity|]. split; [reflexivity | repeat split].
  - destruct (isIntrinsic key) eqn:I.
    + unfold holds. cbv iota. rewrite L.
      destruct (MemoryManager.isSlotKey approvalType); simpl;
        rewrite setApprovalStates_same;
        (eexists _, _; split; [reflexivity|]; split; [reflexivity | repeat split]).
    + assert (MemoryManager.assignOwn key MetadataParser.emptyApprovals
                (approvalStates memory)
              = <[key := MetadataParser.emptyApprovals]> (approvalStates memory)) as Hnew.
      { unfold MemoryManager.assignOwn.
        rewrite L, (not_intrinsic_not_proto key I). reflexivity. }
      destruct (ownMember key (objectPrototype (realm st))) as [|b|s] eqn:O.
      * unfold holds. cbv iota. rewrite Hnew, lookup_insert_eq. simpl.
        rewrite insert_insert_eq.
        eexists _, _. split; [reflexivity|]. split; [reflexivity | repeat split].
      * unfold holds. destruct b; unfold truthy; cbv iota.
        -- rewrite L.
           destruct (MemoryManager.isSlotKey approvalType); simpl.
           ++ eexists _, _. split; [reflexivity|]. split; [reflexivity | repeat split].
           ++ rewrite setApprovalStates_same.
              eexists _, _. split; [reflexivity|]. split; [reflexivity | repeat split].
        -- rewrite Hnew, lookup_insert_eq. simpl. rewrite insert_insert_eq.
           eexists _, _. split; [reflexivity|]. split; [reflexivity | repeat split].
      * unfold holds. destruct (truthy (VStr s)) eqn:T; cbv iota.
        -- rewrite L.
           destruct (MemoryManager.isSlotKey approvalType); simpl.
           ++ eexists _, _. split; [reflexivity|]. split; [reflexivity | repeat split].
           ++ rewrite setApprovalStates_same.
              eexists _, _. split; [reflexivity|]. split; [reflexivity | repeat split].
        -- rewrite Hnew, lookup_insert_eq. simpl. rewrite insert_insert_eq.
           eexists _, _. split; [reflexivity|]. split; [reflexivity | repeat split].
Qed.

(** [invalidateFileApprovals]: the test succeeds on whatever true value
    the ledger gives at the key, inherited or not. *)
Lemma invalidateFileApprovals_exact (rt : Runtime) (filePath reason : string)
  (st : State) :
  let key := relative rt filePath in
  let memory := currentMemory rt st in
  exists st1 : State,
    MemoryManager.invalidateFileApprovals rt filePath reason st = (Ok tt, st1)
    /\ sameStore
         (if holds (foundAt rt st filePath)
          then withLedger
                 (MemoryManager.setApprovalStates
                    (MemoryManager.assignOwn key MemoryManager.invalidated
                       (approvalStates memory)) memory) st
          else st)
         st1.
Proof.
  intros key memory.
  unfold MemoryManager.invalidateFileApprovals, bind.
  destruct (getProjectMemory_exact rt st) as (lines & E). rewrite E.
  unfold gets. cbv beta iota. fold key. fold memory.
  unfold foundAt, entryOf. fold key. fold memory.
  change (realm (setConsole (console st ++ lines) st)) with (realm st).
  destruct (holds (member (realm st) (approvalStates memory !! key) key)).
  - eexists. split; [reflexivity | repeat split].
  - eexists. split; [reflexivity | repeat split].
Qed.

(** *** Paths with an ordinary key *)

(** What [setFileApproval] writes for a path whose key names no
    inherited member. *)
Lemma setFileApproval_run (rt : Runtime) (filePath : string)
  (approvalType : ApprovalKey) (approvedBy : string) (st : State) :
  ordinary (realm st) (relative rt filePath) = true ->
  exists st',
    MemoryManager.setFileApproval rt filePath approvalType approvedBy st = (Ok tt, st')
    /\ sameStore
         (withLedger
            (MemoryManager.setApprovalStates
               (<[relative rt filePath :=
                    MemoryManager.approve approvalType approvedBy (date st)
                      (default MetadataParser.emptyApprovals (entryOf rt st filePath))]>
                  (approvalStates (currentMemory rt st)))
               (currentMemory rt st))
            st)
         st'.
Proof.
  intros Hord.
  destruct (setFileApproval_exact rt filePath approvalType approvedBy st)
    as (outcome & st1 & E & H).
  cbv zeta in H. rewrite (foundAt_ordinary rt st filePath Hord) in H.
  destruct (entryOf rt st filePath) as [a|]; simpl in H;
    destruct H as (-> & S); exists st1; split; assumption.
Qed.

(** What [invalidateFileApprovals] writes for such a path: nothing
    without an entry. *)
Lemma invalidateFileApprovals_run (rt : Runtime) (filePath reason : string)
  (st : State) :
  ordinary (realm st) (relative rt filePath) = true ->
  exists st',
    MemoryManager.invalidateFileApprovals rt filePath reason st = (Ok tt, st')
    /\ sameStore
         (match entryOf rt st filePath with
          | Some _ =>
              withLedger
                (MemoryManager.setApprovalStates
                   (<[relative rt filePath := MemoryManager.invalidated]>
                      (approvalStates (currentMemory rt st)))
                   (currentMemory rt st))
                st
          | None => st
          end)
         st'.
Proof.
  intros Hord.
  destruct (invalidateFileApprovals_exact rt filePath reason st) as (st1 & E & S).
  cbv zeta in S. rewrite (foundAt_ordinary rt st filePath Hord) in S.
  rewrite (assignOwn_ordinary (realm st) _ _ _ Hord) in S.
  exists st1. split; [exact E|].
  destruct (entryOf rt st filePath); exact S.
Qed.

Lemma ordinary_sameStore (rt : Runtime) (st st' : State) (key : string) :
  sameStore st st' -> ordinary (realm st') key = ordinary (realm st) key.
Proof. intros (_ & _ & _ & _ & _ & _ & _ & ->). reflexivity. Qed.

Lemma allFlagsFalse_invalidated : allFlagsFalse (Some MemoryManager.invalidated).
Proof. repeat split. Qed.

(** X21. For a path whose key names no member that objects inherit,
    [invalidateFileApprovals] returns; after it
    [getFileApprovalStatus] of the path gives either nothing or an own
    entry whose three approved flags are false; a second invalidation,
    for whatever reason, changes nothing any more; and on a path
    without an entry the first one changes nothing either. *)
Theorem invalidation_resets_the_flags_of_an_ordinary_path :
  forall (rt : Runtime) (filePath reason : string) (st : State),
    ordinary (realm st) (relative rt filePath) = true ->
    exists st1 : State,
      MemoryManager.invalidateFileApprovals rt filePath reason st = (Ok tt, st1)
      /\ (exists (o : option ApprovalStatus) (st2 : State),
            MemoryManager.getFileApprovalStatus rt filePath st1
            = (Ok (option_map Own o), st2)
            /\ allFlagsFalse o)
      /\ (forall reason' : string,
          exists st3 : State,
            MemoryManager.invalidateFileApprovals rt filePath reason' st1 = (Ok tt, st3)
            /\ sameStore st1 st3)
      /\ (fst (MemoryManager.getFileApprovalStatus rt filePath st) = Ok None ->
          sameStore st st1).
Proof.
  intros rt filePath reason st Hord.
  destruct (invalidateFileApprovals_run rt filePath reason st Hord) as (st1 & E & S).
  exists st1. split; [exact E|].
  assert (ordinary (realm st1) (relative rt filePath) = true) as Hord1.
  { destruct (entryOf rt st filePath);
      rewrite (ordinary_sameStore rt _ st1 _ S); exact Hord. }
  destruct (getFileApprovalStatus_run rt filePath st1) as (st2 & E2 & _).
  destruct (getFileApprovalStatus_run rt filePath st) as (st0 & E0 & _).
  rewrite E0. simpl.
  rewrite (statusOf_ordinary rt st1 filePath Hord1) in E2.
  rewrite (statusOf_ordinary rt st filePath Hord).
  destruct (entryOf rt st filePath) as [a|] eqn:L.
  - set (memory' := MemoryManager.setApprovalStates _ _) in S.
    assert (currentMemory rt st1 = memory') as Hcur.
    { rewrite (currentMemory_sameStore rt _ st1 S). apply currentMemory_withLedger. }
    assert (entryOf rt st1 filePath = Some MemoryManager.invalidated) as Hentry.
    { unfold entryOf. rewrite Hcur. subst memory'. simpl. apply lookup_insert_eq. }
    split; [|split].
    + exists (entryOf rt st1 filePath), st2. split; [exact E2|].
      rewrite Hentry. apply allFlagsFalse_invalidated.
    + intros reason'.
      destruct (invalidateFileApprovals_run rt filePath reason' st1 Hord1)
        as (st3 & E3 & S3).
      exists st3. split; [exact E3|].
      rewrite Hentry, Hcur in S3.
      assert (MemoryManager.setApprovalStates
                (<[relative rt filePath := MemoryManager.invalidated]>
                   (approvalStates memory')) memory' = memory') as Hfix.
      { subst memory'. unfold MemoryManager.setApprovalStates. simpl.
        rewrite insert_insert_eq. reflexivity. }
      rewrite Hfix in S3.
      assert (withLedger memory' st1 = st1) as Hsame.
      { destruct S as (F & Md & R & D & N & X & O & Rm).
        unfold withLedger, setMemoryDir in *. simpl in *.
        rewrite Md, insert_insert_eq.
        destruct st1; simpl in *. subst. reflexivity. }
      rewrite Hsame in S3. exact S3.
    + intros Hnone. discriminate.
  - assert (entryOf rt st1 filePath = None) as Hentry.
    { rewrite (entryOf_sameStore rt st st1 filePath S). exact L. }
    split; [|split].
    + exists (entryOf rt st1 filePath), st2. split; [exact E2|].
      rewrite Hentry. exact I.
    + intros reason'.
      destruct (invalidateFileApprovals_run rt filePath reason' st1 Hord1)
        as (st3 & E3 & S3).
      exists st3. split; [exact E3|]. rewrite Hentry in S3. exact S3.
    + intros _. exact S.
Qed.

Lemma invalidation_resets_the_flags_of_an_ordinary_path_witness :
  (ordinary (realm Sample.approved) (relative Sample.rt "src/plain.ts") = true
   /\ fst (MemoryManager.getFileApprovalStatus Sample.rt "src/plain.ts" Sample.approved)
      = Ok None)
  /\ exists st1 : State,
       MemoryManager.invalidateFileApprovals Sample.rt "src/plain.ts" "file modified"
         Sample.approved = (Ok tt, st1)
       /\ sameStore Sample.approved st1.
Proof.
  assert (ordinary (realm Sample.approved) (relative Sample.rt "src/plain.ts") = true)
    as Hord by reflexivity.
  split; [split; [exact Hord | vm_compute; reflexivity]|].
  destruct (invalidation_resets_the_flags_of_an_ordinary_path Sample.rt "src/plain.ts"
              "file modified" Sample.approved Hord) as (st1 & E & _ & _ & H).
  exists st1. split; [exact E|]. apply H. vm_compute. reflexivity.
Defined.

(** C5. The path [constructor] has no entry in the sample ledger, and
    yet its invalidation is no no-op: the test of
    [invalidateFileApprovals] finds the member every object inherits
    under that name, and an entry is written and saved. *)
Theorem invalidating_an_inherited_name_writes_an_entry :
  entryOf Sample.rt Sample.approved "constructor" = None
  /\ exists st1 : State,
       MemoryManager.invalidateFileApprovals Sample.rt "constructor" "file modified"
         Sample.approved = (Ok tt, st1)
       /\ entryOf Sample.rt st1 "constructor" = Some MemoryManager.invalidated
       /\ memoryDir st1 <> memoryDir Sample.approved
       /\ ~ sameStore Sample.approved st1.
Proof.
  split; [vm_compute; reflexivity|].
  destruct (invalidateFileApprovals_exact Sample.rt "constructor" "file modified"
              Sample.approved) as (st1 & E & S).
  cbv zeta in S.
  assert (holds (foundAt Sample.rt Sample.approved "constructor") = true) as Hh
    by (vm_compute; reflexivity).
  rewrite Hh in S.
  exists st1. split; [exact E|].
  assert (entryOf Sample.rt st1 "constructor" = Some MemoryManager.invalidated) as He.
  { rewrite (entryOf_sameStore Sample.rt _ st1 "constructor" S).
    rewrite entryOf_withLedger. simpl. unfold MemoryManager.assignOwn.
    replace (approvalStates (currentMemory Sample.rt Sample.approved)
             !! relative Sample.rt "constructor")
      with (@None ApprovalStatus) by (vm_compute; reflexivity).
    simpl. apply lookup_insert_eq. }
  split; [exact He|].
  assert (memoryDir st1 <> memoryDir Sample.approved) as Hm.
  { intros Heq. unfold entryOf, currentMemory in He. rewrite Heq in He.
    vm_compute in He. discriminate. }
  split; [exact Hm|].
  intros (_ & Heq & _). apply Hm. exact Heq.
Qed.

Lemma approve_slot (s : Slot) (approvedBy now : string) (a : ApprovalStatus) :
  let a' := MemoryManager.approve (slotKey s) approvedBy now a in
  slotApproved s a' = Some true /\ slotBy s a' = Some approvedBy
  /\ slotDate s a' = Some now.
Proof. destruct s, a; repeat split. Qed.

Lemma approve_other_slot (s other : Slot) (approvedBy now : string)
  (a : ApprovalStatus) :
  other <> s ->
  let a' := MemoryManager.approve (slotKey s) approvedBy now a in
  slotApproved other a' = slotApproved other a
  /\ slotBy other a' = slotBy other a
  /\ slotDate other a' = slotDate other a.
Proof. intros Hne. destruct s, other, a; try congruence; repeat split. Qed.

(** X22. For a path whose key names no member that objects inherit,
    [setFileApproval] on one of the three slots returns; afterwards the
    path has an own entry with that slot approved, with the approver
    and the current time; the two other slots of the entry are as they
    were (unset, if the path had no entry); [getFileApprovalStatus] of
    any path with another ledger key gives what it gave before; and
    neither the files, nor the rule list, nor the realm change. *)
Theorem set_approval_touches_one_slot_of_an_ordinary_path :
  forall (rt : Runtime) (filePath approvedBy : string) (slot : Slot) (st : State),
    ordinary (realm st) (relative rt filePath) = true ->
    exists (st1 : State) (a : ApprovalStatus) (st2 : State),
      MemoryManager.setFileApproval rt filePath (slotKey slot) approvedBy st
      = (Ok tt, st1)
      /\ MemoryManager.getFileApprovalStatus rt filePath st1 = (Ok (Some (Own a)), st2)
      /\ slotApproved slot a = Some true
      /\ slotBy slot a = Some approvedBy
      /\ slotDate slot a = Some (date st)
      /\ (forall (other : Slot) (prior : option ApprovalStatus),
          other <> slot ->
          fst (MemoryManager.getFileApprovalStatus rt filePath st)
          = Ok (option_map Own prior) ->
          slotApproved other a
          = slotApproved other (default MetadataParser.emptyApprovals prior)
          /\ slotBy other a = slotBy other (default MetadataParser.emptyApprovals prior)
          /\ slotDate other a
             = slotDate other (default MetadataParser.emptyApprovals prior))
      /\ (forall otherPath : string,
          relative rt otherPath <> relative rt filePath ->
          fst (MemoryManager.getFileApprovalStatus rt otherPath st1)
          = fst (MemoryManager.getFileApprovalStatus rt otherPath st))
      /\ files st1 = files st /\ rules st1 = rules st /\ realm st1 = realm st.
Proof.
  intros rt filePath approvedBy slot st Hord.
  destruct (setFileApproval_run rt filePath (slotKey slot) approvedBy st Hord)
    as (st1 & E & S).
  set (prior0 := default MetadataParser.emptyApprovals (entryOf rt st filePath)) in *.
  set (a := MemoryManager.approve (slotKey slot) approvedBy (date st) prior0) in *.
  set (memory' := MemoryManager.setApprovalStates _ _) in S.
  assert (currentMemory rt st1 = memory') as Hcur.
  { rewrite (currentMemory_sameStore rt _ st1 S). apply currentMemory_withLedger. }
  assert (realm st1 = realm st) as Hrealm.
  { destruct S as (_ & _ & _ & _ & _ & _ & _ & R). exact R. }
  destruct (getFileApprovalStatus_run rt filePath st1) as (st2 & E2 & _).
  exists st1, a, st2. split; [exact E|].
  split.
  { rewrite E2. f_equal. f_equal. apply statusOf_own.
    unfold entryOf. rewrite Hcur. subst memory'. simpl.
    apply lookup_insert_eq. }
  destruct (approve_slot slot approvedBy (date st) prior0) as (H1 & H2 & H3).
  split; [exact H1|]. split; [exact H2|]. split; [exact H3|].
  split; [|split].
  - intros other prior Hne Hprior.
    destruct (getFileApprovalStatus_run rt filePath st) as (st0 & E0 & _).
    rewrite E0 in Hprior. simpl in Hprior.
    rewrite (statusOf_ordinary rt st filePath Hord) in Hprior.
    assert (entryOf rt st filePath = prior) as Hp.
    { destruct (entryOf rt st filePath), prior; simpl in Hprior; congruence. }
    subst prior.
    apply (approve_other_slot slot other approvedBy (date st) prior0 Hne).
  - intros otherPath Hne.
    destruct (getFileApprovalStatus_run rt otherPath st1) as (st3 & E3 & _).
    destruct (getFileApprovalStatus_run rt otherPath st) as (st4 & E4 & _).
    rewrite E3, E4. simpl. f_equal.
    unfold statusOf, foundAt. rewrite Hrealm. unfold entryOf. rewrite Hcur.
    subst memory'. simpl.
    rewrite lookup_insert_ne by congruence. reflexivity.
  - destruct S as (F & _ & R & _). simpl in F, R. repeat split; assumption.
Qed.

Lemma set_approval_touches_one_slot_of_an_ordinary_path_witness :
  (ordinary (realm Sample.approved) (relative Sample.rt "src/auth.ts") = true
   /\ qa <> dev
   /\ fst (MemoryManager.getFileApprovalStatus Sample.rt "src/auth.ts" Sample.approved)
      = Ok (option_map Own (Some Sample.approvedEntry))
   /\ relative Sample.rt "src/draft.ts" <> relative Sample.rt "src/auth.ts")
  /\ exists (st1 : State) (a : ApprovalStatus),
       MemoryManager.setFileApproval Sample.rt "src/auth.ts" KdevApproved "bob"
         Sample.approved = (Ok tt, st1)
       /\ devApprovedBy a = Some "bob"
       /\ qaApprovedBy a = Some "carol"
       /\ fst (MemoryManager.getFileApprovalStatus Sample.rt "src/draft.ts" st1)
          = Ok None.
Proof.
  assert (ordinary (realm Sample.approved) (relative Sample.rt "src/auth.ts") = true)
    as Hord by reflexivity.
  assert (qa <> dev) as Hslot by discriminate.
  assert (fst (MemoryManager.getFileApprovalStatus Sample.rt "src/auth.ts"
                 Sample.approved) = Ok (option_map Own (Some Sample.approvedEntry)))
    as Hprior by (vm_compute; reflexivity).
  assert (relative Sample.rt "src/draft.ts" <> relative Sample.rt "src/auth.ts")
    as Hpath by (simpl; discriminate).
  split; [auto|].
  destruct (set_approval_touches_one_slot_of_an_ordinary_path Sample.rt "src/auth.ts"
              "bob" dev Sample.approved Hord)
    as (st1 & a & st2 & E & _ & _ & Hby & _ & Hother & Hpaths & _).
  exists st1, a. split; [exact E|]. split; [exact Hby|]. split.
  - destruct (Hother qa _ Hslot Hprior) as (_ & Hq & _). exact Hq.
  - rewrite (Hpaths "src/draft.ts" Hpath). vm_compute. reflexivity.
Defined.

(** C6. An approval for the path [__proto__] makes no ledger entry: the
    assignments of [setFileApproval] go to [Object.prototype].  The
    ledger is saved as it was read, and the entry of another path,
    which holds no code-review approval, reads as approved by the
    same approver from then on. *)
Theorem approval_for_an_inherited_name_reaches_other_paths :
  exists st1 : State,
    Server.set_file_approval Sample.rt "__proto__" KcodeReviewApproved "mallory"
      Sample.approved = (Ok tt, st1)
    /\ entryOf Sample.rt st1 "__proto__" = None
    /\ currentMemory Sample.rt st1 = currentMemory Sample.rt Sample.approved
    /\ fst (Server.get_file_approval_status Sample.rt "src/auth.ts" Sample.approved)
       = Ok (Some (Own Sample.approvedEntry))
    /\ codeReviewApproved (reads (realm Sample.approved) (Own Sample.approvedEntry))
       = None
    /\ fst (Server.get_file_approval_status Sample.rt "src/auth.ts" st1)
       = Ok (Some (Own Sample.approvedEntry))
    /\ codeReviewApproved (reads (realm st1) (Own Sample.approvedEntry)) = Some true
    /\ codeReviewApprovedBy (reads (realm st1) (Own Sample.approvedEntry))
       = Some "mallory".
Proof.
  destruct (setFileApproval_exact Sample.rt "__proto__" KcodeReviewApproved "mallory"
              Sample.approved) as (outcome & st1 & E & H).
  cbv zeta in H.
  replace (foundAt Sample.rt Sample.approved "__proto__")
    with (Some (@Intrinsic ApprovalStatus "__proto__")) in H
    by (vm_compute; reflexivity).
  destruct H as (-> & S). simpl MemoryManager.isSlotKey in S. cbv iota in S.
  exists st1. split; [exact E|].
  assert (currentMemory Sample.rt st1 = currentMemory Sample.rt Sample.approved)
    as Hcur.
  { rewrite (currentMemory_sameStore Sample.rt _ st1 S).
    apply currentMemory_withLedger. }
  assert (realm st1
          = MemoryManager.assignIntrinsic "__proto__"
              (MemoryManager.approve KcodeReviewApproved "mallory"
                 (date Sample.approved)) (realm Sample.approved)) as Hrealm.
  { destruct S as (_ & _ & _ & _ & _ & _ & _ & R). exact R. }
  split; [unfold entryOf; rewrite Hcur; vm_compute; reflexivity|].
  split; [exact Hcur|].
  split; [vm_compute; reflexivity|].
  split; [reflexivity|].
  split.
  { unfold Server.get_file_approval_status.
    destruct (getFileApprovalStatus_run Sample.rt "src/auth.ts" st1) as (st2 & E2 & _).
    rewrite E2. simpl. f_equal. apply statusOf_own.
    unfold entryOf. rewrite Hcur. vm_compute. reflexivity. }
  rewrite Hrealm. split; reflexivity.
Qed.

(** ** Reading the metadata of a file *)

Lemma parseJsonField_run {T} (rt : Runtime) (content field : string)
  (setter : Json -> T -> T) (target : T) (st : State) :
  exists (t : T) (st' : State),
    MetadataParser.parseJsonField rt content field setter target st = (Ok t, st')
    /\ sameStore st st'.
Proof.
  unfold MetadataParser.parseJsonField, tryCatch.
  destruct (search (jsonRegex field) content) as [m|].
  - destruct (JSON_parse rt _) as [value|]; simpl.
    + eexists _, st. split; [reflexivity | apply sameStore_refl].
    + eexists _, _. split; [reflexivity | repeat split].
  - exists target, st. split; [reflexivity | apply sameStore_refl].
Qed.

Lemma extractMetadataFromContent_run (rt : Runtime) (content : string) (st : State) :
  exists (r : option AIMetadata) (st' : State),
    MetadataParser.extractMetadataFromContent rt content st = (Ok r, st')
    /\ sameStore st st'.
Proof.
  unfold MetadataParser.extractMetadataFromContent.
  destruct (search metadataRegex content) as [m|].
  - unfold bind.
    destruct (parseJsonField_run rt (matched m) "@method-permissions:"
                MetadataParser.setMethodPermissions
                (MetadataParser.parseScalarsAndArrays (matched m)
                   MetadataParser.emptyMetadata) st) as (t & st' & E & S).
    rewrite E. eexists _, st'. split; [reflexivity | exact S].
  - exists None, st. split; [reflexivity | apply sameStore_refl].
Qed.

Lemma parseFileMetadata_run (rt : Runtime) (filePath : string) (st : State) :
  exists (r : option AIMetadata) (st' : State),
    MetadataParser.parseFileMetadata rt filePath st = (Ok r, st')
    /\ sameStore st st'.
Proof.
  unfold MetadataParser.parseFileMetadata, tryCatch, bind, readFile.
  destruct (files st !! filePath) as [text|].
  - destruct (extractMetadataFromContent_run rt text st) as (r & st' & E & S).
    rewrite E. exists r, st'. split; [reflexivity | exact S].
  - eexists None, _. split; [reflexivity | repeat split].
Qed.

(** A file that cannot be read, or whose text has no block, has no
    metadata. *)
Lemma parseFileMetadata_absent (rt : Runtime) (filePath : string) (st : State) :
  files st !! filePath = None
  \/ (exists text, files st !! filePath = Some text
                   /\ search metadataRegex text = None) ->
  exists st',
    MetadataParser.parseFileMetadata rt filePath st = (Ok None, st')
    /\ sameStore st st'.
Proof.
  unfold MetadataParser.parseFileMetadata, tryCatch, bind, readFile.
  intros [H|(text & H & Hno)]; rewrite H.
  - eexists. split; [reflexivity | repeat split].
  - unfold MetadataParser.extractMetadataFromContent. rewrite Hno.
    exists st. split; [reflexivity | apply sameStore_refl].
Qed.

(** The approvals the handler hands to the rule engine: the status of
    the path as its keys read. *)
Lemma check_before_modification_run (rt : Runtime) (filePath : string) (st : State) :
  let approvals := option_map (reads (realm st)) (statusOf rt st filePath) in
  exists (metadata : option AIMetadata) (st1 st2 st3 : State) (r : CheckResult),
    MetadataParser.parseFileMetadata rt filePath st = (Ok metadata, st1)
    /\ MemoryManager.getFileApprovalStatus rt filePath st1
       = (Ok (statusOf rt st filePath), st2)
    /\ RuleEngine.checkBeforeModification filePath metadata approvals st2
       = (Ok r, st3)
    /\ Server.check_before_modification rt filePath st = (Ok r, st3)
    /\ sameStore st st2 /\ sameStore st st3.
Proof.
  intros approvals.
  destruct (parseFileMetadata_run rt filePath st) as (metadata & st1 & E1 & S1).
  destruct (getFileApprovalStatus_run rt filePath st1) as (st2 & E2 & S2).
  rewrite (statusOf_sameStore rt st st1 filePath S1) in E2.
  assert (sameStore st st2) as S02 by (eapply sameStore_trans; eassumption).
  assert (exists r st3,
             RuleEngine.checkBeforeModification filePath metadata approvals st2
             = (Ok r, st3)
             /\ sameStore st2 st3) as (r & st3 & E3 & S3).
  { destruct metadata as [metadata|].
    - destruct (checkBeforeModification_run filePath metadata approvals st2)
        as (st3 & E3 & S3).
      eexists _, st3. split; [exact E3 | exact S3].
    - eexists _, st2. split; [reflexivity | apply sameStore_refl]. }
  exists metadata, st1, st2, st3, r.
  split; [exact E1|]. split; [exact E2|]. split; [exact E3|].
  split; [|split; [exact S02 | eapply sameStore_trans; eassumption]].
  unfold Server.check_before_modification, bind. rewrite E1, E2.
  unfold gets. cbv beta iota.
  assert (realm st2 = realm st) as -> by (apply S02).
  exact E3.
Qed.

(** C2 as the code has it. When the file cannot be read, or its text has
    no metadata block, [check_before_modification] returns the result
    that allows the modification, without reasons and with the single
    warning [No @ai-metadata found in file]; a failed read is not
    raised, and the store is left as it was. *)
Theorem absent_metadata_allows_with_one_warning :
  forall (rt : Runtime) (filePath : string) (st : State),
    files st !! filePath = None
    \/ (exists text, files st !! filePath = Some text
                     /\ search metadataRegex text = None) ->
    exists st' : State,
      Server.check_before_modification rt filePath st
      = (Ok (mkCheckResult true [] ["No @ai-metadata found in file"]), st')
      /\ sameStore st st'.
Proof.
  intros rt filePath st H.
  destruct (parseFileMetadata_absent rt filePath st H) as (st1 & E1 & S1).
  destruct (getFileApprovalStatus_run rt filePath st1) as (st2 & E2 & S2).
  exists st2. split.
  - unfold Server.check_before_modification, bind. rewrite E1, E2. reflexivity.
  - eapply sameStore_trans; eassumption.
Qed.

Lemma absent_metadata_allows_with_one_warning_witness :
  (files Sample.fresh !! "src/missing.ts" = None
   /\ files Sample.fresh !! "src/plain.ts" = Some Sample.plainFile
   /\ search metadataRegex Sample.plainFile = None)
  /\ fst (Server.check_before_modification Sample.rt "src/missing.ts" Sample.fresh)
     = Ok (mkCheckResult true [] ["No @ai-metadata found in file"])
  /\ fst (Server.check_before_modification Sample.rt "src/plain.ts" Sample.fresh)
     = Ok (mkCheckResult true [] ["No @ai-metadata found in file"]).
Proof.
  assert (files Sample.fresh !! "src/missing.ts" = None) as H1
    by (vm_compute; reflexivity).
  assert (files Sample.fresh !! "src/plain.ts" = Some Sample.plainFile) as H2
    by (vm_compute; reflexivity).
  assert (search metadataRegex Sample.plainFile = None) as H3
    by (vm_compute; reflexivity).
  split; [auto|]. split.
  - destruct (absent_metadata_allows_with_one_warning Sample.rt "src/missing.ts"
                Sample.fresh (or_introl H1)) as (st' & E & _).
    rewrite E. reflexivity.
  - destruct (absent_metadata_allows_with_one_warning Sample.rt "src/plain.ts"
                Sample.fresh
                (or_intror (ex_intro _ Sample.plainFile (conj H2 H3))))
      as (st' & E & _).
    rewrite E. reflexivity.
Defined.

(** C2 as the specification words it does not hold: the warning of the
    code is another text. *)
Lemma absent_metadata_warning_text_differs :
  fst (Server.check_before_modification Sample.rt "src/plain.ts" Sample.fresh)
  <> Ok (mkCheckResult true [] ["No metadata found"]).
Proof. vm_compute. discriminate. Qed.

(** C10. The three queries return and leave the files, the memory
    directory, the rule list and the realm as they were, from every
    state and for every path: [get_file_approval_status] (also for a
    path without an entry), [check_before_modification] and
    [get_modification_actions]; so does [checkBeforeModification] of
    the rule engine for every metadata and approval record handed to
    it. *)
Theorem queries_leave_store_unchanged :
  forall (rt : Runtime) (filePath : string) (st : State),
    (exists (o : option (Member ApprovalStatus)) (st' : State),
        Server.get_file_approval_status rt filePath st = (Ok o, st')
        /\ sameStore st st')
    /\ (exists (r : CheckResult) (st' : State),
           Server.check_before_modification rt filePath st = (Ok r, st')
           /\ sameStore st st')
    /\ (exists (actions : list string) (st' : State),
           Server.get_modification_actions rt filePath st = (Ok actions, st')
           /\ sameStore st st')
    /\ (forall (metadata : option AIMetadata) (approvals : option ApprovalStatus),
        exists (r : CheckResult) (st' : State),
          RuleEngine.checkBeforeModification filePath metadata approvals st
          = (Ok r, st')
          /\ sameStore st st').
Proof.
  intros rt filePath st. split; [|split; [|split]].
  - destruct (getFileApprovalStatus_run rt filePath st) as (st' & E & S).
    eexists _, st'. split; [exact E | exact S].
  - destruct (check_before_modification_run rt filePath st)
      as (metadata & st1 & st2 & st3 & r & _ & _ & _ & E & _ & S).
    exists r, st3. split; [exact E | exact S].
  - destruct (parseFileMetadata_run rt filePath st) as (metadata & st' & E & S).
    eexists _, st'. split; [|exact S].
    unfold Server.get_modification_actions, bind. rewrite E. reflexivity.
  - intros [metadata|] approvals.
    + destruct (checkBeforeModification_run filePath metadata approvals st)
        as (st' & E & S).
      eexists _, st'. split; [exact E | exact S].
    + eexists _, st. split; [reflexivity | apply sameStore_refl].
Qed.

Lemma ordinary_by_realm (r r' : Realm) (key : string) :
  objectPrototype r' = objectPrototype r -> ordinary r' key = ordinary r key.
Proof. intros H. unfold ordinary. rewrite H. reflexivity. Qed.

(** C9 as the code has it. With a ledger file that does not parse,
    [getFileApprovalStatus] returns for every path what it returns
    without a ledger file, and leaves the memory directory as it was,
    the unreadable file included: no copy of it is written.  For a path
    whose key names no member that objects inherit, what it returns is
    no entry, and a later [setFileApproval] leaves the ledger as it
    would from a state without a ledger file. *)
Theorem unreadable_ledger_reads_as_empty :
  forall (rt : Runtime) (st : State) (raw : string),
    memoryDir st !! MemoryManager.projectMemoryPath = Some (Unparseable raw) ->
    forall filePath : string,
      let without :=
        setMemoryDir (delete MemoryManager.projectMemoryPath (memoryDir st)) st in
      (exists (o : option (Member ApprovalStatus)) (st' : State),
          MemoryManager.getFileApprovalStatus rt filePath st = (Ok o, st')
          /\ fst (MemoryManager.getFileApprovalStatus rt filePath without) = Ok o
          /\ sameStore st st')
      /\ (ordinary (realm st) (relative rt filePath) = true ->
          fst (MemoryManager.getFileApprovalStatus rt filePath st) = Ok None
          /\ forall (approvalType : ApprovalKey) (approvedBy : string),
             exists st1 st2 : State,
               MemoryManager.setFileApproval rt filePath approvalType approvedBy st
               = (Ok tt, st1)
               /\ MemoryManager.setFileApproval rt filePath approvalType approvedBy
                    without
                  = (Ok tt, st2)
               /\ memoryDir st1 = memoryDir st2).
Proof.
  intros rt st raw Hraw filePath without.
  assert (currentMemory rt st = defaultMemory rt st) as Hcur
    by (unfold currentMemory; rewrite Hraw; reflexivity).
  assert (currentMemory rt without = defaultMemory rt st) as Hcur0.
  { unfold currentMemory, without. simpl. rewrite lookup_delete_eq. reflexivity. }
  destruct (getFileApprovalStatus_run rt filePath st) as (st' & E & S).
  split.
  - exists (statusOf rt st filePath), st'. split; [exact E|]. split; [|exact S].
    destruct (getFileApprovalStatus_run rt filePath without) as (st0 & E0 & _).
    rewrite E0. simpl. f_equal.
    unfold statusOf, foundAt, entryOf. rewrite Hcur, Hcur0. reflexivity.
  - intros Hord. split.
    + rewrite E. simpl. f_equal.
      rewrite (statusOf_ordinary rt st filePath Hord).
      unfold entryOf. rewrite Hcur. reflexivity.
    + intros approvalType approvedBy.
      destruct (setFileApproval_run rt filePath approvalType approvedBy st Hord)
        as (st1 & E1 & S1).
      destruct (setFileApproval_run rt filePath approvalType approvedBy without Hord)
        as (st2 & E2 & S2).
      exists st1, st2. split; [exact E1|]. split; [exact E2|].
      destruct S1 as (_ & M1 & _). destruct S2 as (_ & M2 & _).
      rewrite M1, M2. unfold entryOf. rewrite Hcur, Hcur0.
      unfold withLedger, without. simpl. rewrite insert_delete_eq. reflexivity.
Qed.

Lemma unreadable_ledger_reads_as_empty_witness :
  (memoryDir Sample.corrupt !! MemoryManager.projectMemoryPath
   = Some (Unparseable "{ not json")
   /\ ordinary (realm Sample.corrupt) (relative Sample.rt "src/auth.ts") = true)
  /\ fst (MemoryManager.getFileApprovalStatus Sample.rt "src/auth.ts" Sample.corrupt)
     = Ok None.
Proof.
  assert (memoryDir Sample.corrupt !! MemoryManager.projectMemoryPath
          = Some (Unparseable "{ not json")) as H by (vm_compute; reflexivity).
  assert (ordinary (realm Sample.corrupt) (relative Sample.rt "src/auth.ts") = true)
    as Hord by reflexivity.
  split; [split; [exact H | exact Hord]|].
  destruct (unreadable_ledger_reads_as_empty Sample.rt Sample.corrupt _ H "src/auth.ts")
    as (_ & Hget).
  exact (proj1 (Hget Hord)).
Defined.

(** With the same unreadable ledger, the path [constructor] does not
    read as absent: the status is the member every object inherits
    under that name. *)
Lemma unreadable_ledger_gives_inherited_member :
  fst (Server.get_file_approval_status Sample.rt "constructor" Sample.corrupt)
  = Ok (Some (Intrinsic "constructor")).
Proof. vm_compute. reflexivity. Qed.

(** C9 as the specification words it does not hold: after the call the
    memory directory holds no copy of the unreadable ledger under
    another name. *)
Lemma unreadable_ledger_read_writes_no_backup :
  ~ (exists backup : string,
        backup <> MemoryManager.projectMemoryPath
        /\ is_Some (memoryDir
                      (snd (Server.get_file_approval_status Sample.rt "src/auth.ts"
                              Sample.corrupt)) !! backup)).
Proof.
  intros (backup & Hne & Hsome).
  destruct (getFileApprovalStatus_run Sample.rt "src/auth.ts" Sample.corrupt)
    as (st' & E & S).
  unfold Server.get_file_approval_status in Hsome. rewrite E in Hsome.
  destruct S as (_ & M & _). simpl in Hsome. rewrite M in Hsome.
  simpl in Hsome. rewrite lookup_singleton_ne in Hsome by congruence.
  destruct Hsome as [x Hx]. discriminate.
Qed.

(** ** Text and matching *)

Lemma append_assoc (a b c : string) : (a +:+ b) +:+ c = a +:+ (b +:+ c).
Proof.
  induction a as [|x a IH]; [reflexivity|].
  change (String x ((a +:+ b) +:+ c) = String x (a +:+ (b +:+ c))).
  rewrite IH. reflexivity.
Qed.

Lemma append_nil_r (a : string) : a +:+ EmptyString = a.
Proof.
  induction a as [|x a IH]; [reflexivity|].
  change (String x (a +:+ EmptyString) = String x a). rewrite IH. reflexivity.
Qed.

Lemma prefixBefore_nil (o : option Match) :
  option_map (prefixBefore EmptyString) o = o.
Proof. destruct o as [[b m g a]|]; reflexivity. Qed.

Lemma search_head (re : Anchored) (s m r : string) (g : option string) :
  re s = Some (m, g, r) -> search re s = Some (mkMatch EmptyString m g r).
Proof. intros H. destruct s; simpl; rewrite H; reflexivity. Qed.

Lemma search_rejected (re : Anchored) (c : ascii) (s : string) :
  re (String c s) = None ->
  search re (String c s) = option_map (shift c) (search re s).
Proof. intros H. simpl. rewrite H. reflexivity. Qed.

(** Nothing matches from inside a prefix all of whose suffixes the
    expression rejects, whatever follows. *)
Lemma search_through (re : Anchored) (test : string -> bool) (a x : string) :
  (forall s y, test s = true -> re (s +:+ y) = None) ->
  everySuffix test a = true ->
  search re (a +:+ x) = option_map (prefixBefore a) (search re x).
Proof.
  intros Hre. induction a as [|c a IH]; intros Ha.
  - change (EmptyString +:+ x) with x. symmetry. apply prefixBefore_nil.
  - simpl in Ha. apply andb_prop in Ha as [Hc Ha].
    change (String c a +:+ x) with (String c (a +:+ x)).
    rewrite search_rejected by (apply (Hre (String c a) x Hc)).
    rewrite (IH Ha). destruct (search re x) as [[b m g r]|]; reflexivity.
Qed.

(** Nothing matches from inside a run of characters none of which can
    start a match. *)
Lemma search_through_chars (re : Anchored) (P : ascii -> bool) (a x : string) :
  (forall c s, P c = true -> re (String c s) = None) ->
  allChars P a = true ->
  search re (a +:+ x) = option_map (prefixBefore a) (search re x).
Proof.
  intros Hre. induction a as [|c a IH]; intros Ha.
  - change (EmptyString +:+ x) with x. symmetry. apply prefixBefore_nil.
  - simpl in Ha. apply andb_prop in Ha as [Hc Ha].
    change (String c a +:+ x) with (String c (a +:+ x)).
    rewrite search_rejected by (apply Hre; exact Hc).
    rewrite (IH Ha). destruct (search re x) as [[b m g r]|]; reflexivity.
Qed.

Lemma startsWith_clash (p s y : string) :
  clash Ascii.eqb p s = true -> startsWith p (s +:+ y) = None.
Proof.
  revert s. induction p as [|a p IH]; intros [|b s] H; simpl in H; try discriminate.
  change (String b s +:+ y) with (String b (s +:+ y)). simpl.
  destruct (Ascii.eqb a b); [apply IH; exact H | reflexivity].
Qed.

Lemma startsWithCI_clash (p s y : string) :
  clash eqbCI p s = true -> startsWithCI p (s +:+ y) = None.
Proof.
  revert s. induction p as [|a p IH]; intros [|b s] H; simpl in H; try discriminate.
  change (String b s +:+ y) with (String b (s +:+ y)). simpl.
  destruct (eqbCI a b); [rewrite (IH s H) | ]; reflexivity.
Qed.

Lemma startsWith_append (p r : string) : startsWith p (p +:+ r) = Some r.
Proof.
  induction p as [|a p IH]; [reflexivity|].
  change (String a p +:+ r) with (String a (p +:+ r)). simpl.
  rewrite Ascii.eqb_refl. exact IH.
Qed.

Lemma startsWithCI_append (p r : string) : startsWithCI p (p +:+ r) = Some (p, r).
Proof.
  induction p as [|a p IH]; [reflexivity|].
  change (String a p +:+ r) with (String a (p +:+ r)). simpl.
  unfold eqbCI at 1. rewrite Ascii.eqb_refl, IH. reflexivity.
Qed.

Lemma lit_clash (p s y : string) :
  clash Ascii.eqb p s = true -> lit p (s +:+ y) = None.
Proof. intros H. unfold lit. rewrite (startsWith_clash p s y H). reflexivity. Qed.

Lemma lit_head (a c : ascii) (p s : string) :
  Ascii.eqb a c = false -> lit (String a p) (String c s) = None.
Proof.
  intros H. unfold lit. change (startsWith (String a p) (String c s))
    with (if Ascii.eqb a c then startsWith p s else None).
  rewrite H. reflexivity.
Qed.

Lemma fieldHead_head (re : Anchored) (a c : ascii) (p s : string) :
  FieldHead re (String a p) -> eqbCI a c = false -> re (String c s) = None.
Proof.
  intros Hre H. apply Hre.
  change (startsWithCI (String a p) (String c s))
    with (if eqbCI a c
          then match startsWithCI p s with
               | Some (m, r) => Some (String c m, r)
               | None => None
               end
          else None).
  rewrite H. reflexivity.
Qed.

(** The first occurrence of a literal, after a text it does not begin
    in. *)
Lemma lazyUpTo_first (p a r : string) :
  everySuffix (clash Ascii.eqb p) a = true ->
  lazyUpTo p (a +:+ p +:+ r) = Some (a, r).
Proof.
  intros Ha. unfold lazyUpTo.
  rewrite (search_through (lit p) (clash Ascii.eqb p) a (p +:+ r) (lit_clash p) Ha).
  rewrite (search_head (lit p) (p +:+ r) p r None)
    by (unfold lit; rewrite startsWith_append; reflexivity).
  simpl. rewrite append_nil_r. reflexivity.
Qed.

Lemma fieldValueRegex_head (field : string) : FieldHead (fieldValueRegex field) field.
Proof. intros s H. unfold fieldValueRegex. rewrite H. reflexivity. Qed.

Lemma arrayRegex_head (field : string) : FieldHead (arrayRegex field) field.
Proof. intros s H. unfold arrayRegex, delimitedRegex. rewrite H. reflexivity. Qed.

Lemma jsonRegex_head (field : string) : FieldHead (jsonRegex field) field.
Proof. intros s H. unfold jsonRegex, delimitedRegex. rewrite H. reflexivity. Qed.

(** ** The characters of a time stamp *)

Lemma allChars_impl (P Q : ascii -> bool) (s : string) :
  (forall c, P c = true -> Q c = true) -> allChars P s = true -> allChars Q s = true.
Proof.
  intros HPQ. induction s as [|c s IH]; simpl; [reflexivity|].
  intros H. apply andb_prop in H as [Hc Hs].
  rewrite (HPQ c Hc), (IH Hs). reflexivity.
Qed.

Ltac by_cases_on_char c :=
  destruct c as [[] [] [] [] [] [] [] []]; vm_compute; intros; congruence.

Lemma iso_not_at (c : ascii) : isIsoChar c = true -> eqbCI "@"%char c = false.
Proof. by_cases_on_char c. Qed.

Lemma iso_not_star (c : ascii) : isIsoChar c = true -> Ascii.eqb "*"%char c = false.
Proof. by_cases_on_char c. Qed.

Lemma iso_not_space (c : ascii) : isIsoChar c = true -> isWhiteSpace c = false.
Proof. by_cases_on_char c. Qed.

Lemma iso_line_char (c : ascii) : isIsoChar c = true -> negb (isLineBreak c) = true.
Proof. by_cases_on_char c. Qed.

Lemma iso_not_quote (c : ascii) : isIsoChar c = true -> isQuote c = false.
Proof. by_cases_on_char c. Qed.

Lemma takeWhile_all (P : ascii -> bool) (a : string) (c : ascii) (r : string) :
  allChars P a = true -> P c = false ->
  takeWhile P (a +:+ String c r) = a /\ dropWhile P (a +:+ String c r) = String c r.
Proof.
  intros Ha Hc. induction a as [|x a IH].
  - change (EmptyString +:+ String c r) with (String c r). simpl. rewrite Hc. auto.
  - simpl in Ha. apply andb_prop in Ha as [Hx Ha].
    change (String x a +:+ String c r) with (String x (a +:+ String c r)).
    simpl. rewrite Hx. destruct (IH Ha) as [-> ->]. auto.
Qed.

Lemma dropWhile_none (P : ascii -> bool) (s : string) :
  allChars (fun c => negb (P c)) s = true -> dropWhile P s = s.
Proof.
  destruct s as [|c s]; simpl; [reflexivity|].
  intros H. apply andb_prop in H as [Hc _].
  destruct (P c); [discriminate | reflexivity].
Qed.

Lemma filterOut_none (P : ascii -> bool) (s : string) :
  allChars (fun c => negb (P c)) s = true -> filterOut P s = s.
Proof.
  induction s as [|c s IH]; simpl; [reflexivity|].
  intros H. apply andb_prop in H as [Hc Hs].
  destruct (P c); [discriminate|]. rewrite (IH Hs). reflexivity.
Qed.

Lemma rev_append (a b : string) : rev (a +:+ b) = rev b +:+ rev a.
Proof.
  induction a as [|x a IH].
  - change (EmptyString +:+ b) with b. simpl. rewrite append_nil_r. reflexivity.
  - change (String x a +:+ b) with (String x (a +:+ b)). simpl.
    rewrite IH, append_assoc. reflexivity.
Qed.

Lemma rev_involutive (s : string) : rev (rev s) = s.
Proof.
  induction s as [|x s IH]; [reflexivity|].
  simpl. rewrite rev_append, IH. reflexivity.
Qed.

Lemma allChars_append (P : ascii -> bool) (a b : string) :
  allChars P (a +:+ b) = allChars P a && allChars P b.
Proof.
  induction a as [|x a IH]; [reflexivity|].
  change (String x a +:+ b) with (String x (a +:+ b)). simpl.
  rewrite IH, andb_assoc. reflexivity.
Qed.

Lemma allChars_rev (P : ascii -> bool) (s : string) :
  allChars P (rev s) = allChars P s.
Proof.
  induction s as [|x s IH]; [reflexivity|].
  simpl. rewrite allChars_append, IH. simpl.
  rewrite andb_true_r, andb_comm. reflexivity.
Qed.

(** A text without white space is its own trimming. *)
Lemma trim_none (s : string) :
  allChars (fun c => negb (isWhiteSpace c)) s = true -> trim s = s.
Proof.
  intros H. unfold trim.
  rewrite (dropWhile_none isWhiteSpace s H).
  rewrite dropWhile_none by (rewrite allChars_rev; exact H).
  apply rev_involutive.
Qed.

Lemma iso_value (now : string) :
  allChars isIsoChar now = true -> stripQuotes (trim now) = now.
Proof.
  intros H.
  rewrite trim_none.
  - apply filterOut_none.
    apply (allChars_impl isIsoChar); [|exact H].
    intros c Hc. rewrite (iso_not_quote c Hc). reflexivity.
  - apply (allChars_impl isIsoChar); [|exact H].
    intros c Hc. rewrite (iso_not_space c Hc). reflexivity.
Qed.

(** The rest of the line after a field name, when it is a blank and a
    time stamp that a line break ends. *)
Lemma spaceThenLine_stamp (now r : string) :
  isIsoString now = true ->
  spaceThenLine (" " +:+ now +:+ String LF r) = Some (" ", now, String LF r).
Proof.
  unfold isIsoString. intros H. apply andb_prop in H as [Hne Hiso].
  destruct now as [|c now]; [discriminate|].
  simpl in Hiso. apply andb_prop in Hiso as [Hc Hiso].
  unfold spaceThenLine.
  change (" " +:+ String c now +:+ String LF r)
    with (String " " (String c (now +:+ String LF r))).
  simpl. rewrite (iso_not_space c Hc).
  change (String c (now +:+ String LF r)) with (String c now +:+ String LF r).
  destruct (takeWhile_all (fun x => negb (isLineBreak x)) (String c now) LF r)
    as [-> ->].
  - apply (allChars_impl isIsoChar); [apply iso_line_char|].
    simpl. rewrite Hc, Hiso. reflexivity.
  - reflexivity.
  - reflexivity.
Qed.

(** ** The block written for a stability update *)

Lemma generateMetadataBlock_stability (now : string) :
  MetadataParser.generateMetadataBlock now [("stability", VStr "stable")]
  = blockHead +:+ now +:+ blockTail.
Proof.
  unfold MetadataParser.generateMetadataBlock, blockHead, blockTail. simpl.
  rewrite ?append_nil_r, ?append_assoc. reflexivity.
Qed.

(** The block is what the expression of the parser finds first in the
    text it was put in front of. *)
Lemma metadataRegex_generated (now content : string) :
  isIsoString now = true ->
  search metadataRegex ((blockHead +:+ now +:+ blockTail) +:+ chr LF +:+ content)
  = Some (mkMatch EmptyString (blockHead +:+ now +:+ blockTail) None
            (chr LF +:+ content)).
Proof.
  unfold isIsoString. intros H. apply andb_prop in H as [_ Hiso].
  apply search_head. unfold metadataRegex.
  set (m1 := chr LF +:+ " * ").
  set (m2 := chr LF +:+ " * @last-update: ").
  set (m3 := chr LF +:+ " * @stability: stable" +:+ chr LF +:+ " ").
  assert ((blockHead +:+ now +:+ blockTail) +:+ chr LF +:+ content
          = "/**" +:+ m1 +:+ "@ai-metadata"
            +:+ (m2 +:+ now +:+ m3) +:+ "*/" +:+ chr LF +:+ content) as ->.
  { unfold blockHead, blockTail, m1, m2, m3.
    rewrite ?append_assoc. reflexivity. }
  rewrite startsWith_append.
  rewrite lazyUpTo_first by (vm_compute; reflexivity).
  assert (lazyUpTo "*/" ((m2 +:+ now +:+ m3) +:+ "*/" +:+ chr LF +:+ content)
          = Some (m2 +:+ now +:+ m3, chr LF +:+ content)) as ->.
  { unfold lazyUpTo. rewrite !append_assoc.
    rewrite (search_through (lit "*/") (clash Ascii.eqb "*/") m2 _ (lit_clash "*/"))
      by (vm_compute; reflexivity).
    rewrite (search_through_chars (lit "*/") isIsoChar now) by
      (try exact Hiso; intros c s Hc; apply lit_head; apply iso_not_star; exact Hc).
    rewrite (search_through (lit "*/") (clash Ascii.eqb "*/") m3 _ (lit_clash "*/"))
      by (vm_compute; reflexivity).
    rewrite (search_head (lit "*/") ("*/" +:+ chr LF +:+ content) "*/"
               (chr LF +:+ content) None)
      by (unfold lit; rewrite startsWith_append; reflexivity).
    simpl. rewrite append_nil_r. reflexivity. }
  f_equal. f_equal. f_equal.
  unfold blockHead, blockTail, m1, m2, m3.
  rewrite ?append_assoc. reflexivity.
Qed.

(** A field whose name occurs neither before nor after the time stamp
    does not occur in the block. *)
Lemma field_not_in_generated (re : Anchored) (field now : string) :
  FieldHead re (String "@" field) ->
  everySuffix (clash eqbCI (String "@" field)) blockHead = true ->
  allChars isIsoChar now = true ->
  search re blockTail = None ->
  search re (blockHead +:+ now +:+ blockTail) = None.
Proof.
  intros Hre Hhead Hiso Htail.
  rewrite (search_through re (clash eqbCI (String "@" field)) blockHead _)
    by (try exact Hhead; intros s y Hs; apply Hre; apply startsWithCI_clash; exact Hs).
  rewrite (search_through_chars re isIsoChar now)
    by (try exact Hiso; intros c s Hc;
        apply (fieldHead_head re "@" c field s Hre); apply iso_not_at; exact Hc).
  rewrite Htail. reflexivity.
Qed.

Lemma parseField_absent {T} (content field : string) (setter : string -> T -> T)
  (target : T) :
  search (fieldValueRegex field) content = None ->
  MetadataParser.parseField content field setter target = target.
Proof. intros H. unfold MetadataParser.parseField. rewrite H. reflexivity. Qed.

Lemma parseArrayField_absent {T} (content field : string)
  (setter : list string -> T -> T) (target : T) :
  search (arrayRegex field) content = None ->
  MetadataParser.parseArrayField content field setter target = target.
Proof. intros H. unfold MetadataParser.parseArrayField. rewrite H. reflexivity. Qed.

Lemma parseField_generated_absent {T} (field now : string)
  (setter : string -> T -> T) (target : T) :
  everySuffix (clash eqbCI (String "@" field)) blockHead = true ->
  search (fieldValueRegex (String "@" field)) blockTail = None ->
  allChars isIsoChar now = true ->
  MetadataParser.parseField (blockHead +:+ now +:+ blockTail) (String "@" field)
    setter target = target.
Proof.
  intros Hhead Htail Hiso. apply parseField_absent.
  apply (field_not_in_generated _ field now (fieldValueRegex_head _) Hhead Hiso Htail).
Qed.

Lemma parseArrayField_generated_absent {T} (field now : string)
  (setter : list string -> T -> T) (target : T) :
  everySuffix (clash eqbCI (String "@" field)) blockHead = true ->
  search (arrayRegex (String "@" field)) blockTail = None ->
  allChars isIsoChar now = true ->
  MetadataParser.parseArrayField (blockHead +:+ now +:+ blockTail) (String "@" field)
    setter target = target.
Proof.
  intros Hhead Htail Hiso. apply parseArrayField_absent.
  apply (field_not_in_generated _ field now (arrayRegex_head _) Hhead Hiso Htail).
Qed.

(** The line of the last update holds the time stamp. *)
Lemma parseField_generated_lastUpdate {T} (now : string)
  (setter : string -> T -> T) (target : T) :
  isIsoString now = true ->
  MetadataParser.parseField (blockHead +:+ now +:+ blockTail) "@last-update:"
    setter target = setter now target.
Proof.
  intros Hnow.
  assert (allChars isIsoChar now = true) as Hiso
    by (unfold isIsoString in Hnow; apply andb_prop in Hnow as [_ H]; exact H).
  unfold MetadataParser.parseField.
  set (h0 := "/**" +:+ chr LF +:+ " * @ai-metadata" +:+ chr LF +:+ " * ").
  assert (blockHead +:+ now +:+ blockTail
          = h0 +:+ "@last-update:" +:+ " " +:+ now +:+ blockTail) as ->.
  { unfold blockHead, h0. rewrite ?append_assoc. reflexivity. }
  rewrite (search_through (fieldValueRegex "@last-update:")
             (clash eqbCI "@last-update:") h0 _)
    by (try (vm_compute; reflexivity);
        intros s y Hs; apply fieldValueRegex_head; apply startsWithCI_clash; exact Hs).
  rewrite (search_head (fieldValueRegex "@last-update:") _
             ("@last-update:" +:+ " " +:+ now) blockTail (Some now)).
  - simpl. rewrite (iso_value now Hiso). reflexivity.
  - unfold fieldValueRegex. rewrite startsWithCI_append.
    change blockTail with (String LF (" * @stability: stable" +:+ chr LF +:+ " */")).
    rewrite (spaceThenLine_stamp now _ Hnow). reflexivity.
Qed.

(** The line of the stability holds [stable]. *)
Lemma parseField_generated_stability {T} (now : string)
  (setter : string -> T -> T) (target : T) :
  allChars isIsoChar now = true ->
  MetadataParser.parseField (blockHead +:+ now +:+ blockTail) "@stability:"
    setter target = setter "stable" target.
Proof.
  intros Hiso. unfold MetadataParser.parseField.
  rewrite (search_through (fieldValueRegex "@stability:")
             (clash eqbCI "@stability:") blockHead _)
    by (try (vm_compute; reflexivity);
        intros s y Hs; apply fieldValueRegex_head; apply startsWithCI_clash; exact Hs).
  rewrite (search_through_chars (fieldValueRegex "@stability:") isIsoChar now)
    by (try exact Hiso; intros c s Hc;
        apply (fieldHead_head _ "@" c "stability:" s (fieldValueRegex_head _));
        apply iso_not_at; exact Hc).
  assert (search (fieldValueRegex "@stability:") blockTail
          = Some (mkMatch (chr LF +:+ " * ") "@stability: stable" (Some "stable")
                    (chr LF +:+ " */"))) as -> by (vm_compute; reflexivity).
  reflexivity.
Qed.

Ltac field_absent :=
  first [ exact eq_refl | vm_compute; reflexivity | assumption ].

Lemma parseScalarsAndArrays_generated (now : string) :
  isIsoString now = true ->
  MetadataParser.parseScalarsAndArrays (blockHead +:+ now +:+ blockTail)
    MetadataParser.emptyMetadata
  = stampedStable now.
Proof.
  intros Hnow.
  assert (allChars isIsoChar now = true) as Hiso
    by (unfold isIsoString in Hnow; apply andb_prop in Hnow as [_ H]; exact H).
  unfold MetadataParser.parseScalarsAndArrays. cbv zeta.
  rewrite (parseField_generated_absent "class:" now) by field_absent.
  rewrite (parseField_generated_absent "description:" now) by field_absent.
  rewrite (parseField_generated_lastUpdate now) by exact Hnow.
  rewrite (parseField_generated_absent "last-editor:" now) by field_absent.
  rewrite (parseField_generated_absent "changelog:" now) by field_absent.
  rewrite (parseField_generated_stability now) by exact Hiso.
  rewrite (parseField_generated_absent "edit-permissions:" now) by field_absent.
  rewrite (parseField_generated_absent "breaking-changes-risk:" now) by field_absent.
  rewrite (parseField_generated_absent "review-required:" now) by field_absent.
  rewrite (parseField_generated_absent "ai-context:" now) by field_absent.
  rewrite (parseArrayField_generated_absent "dependencies:" now) by field_absent.
  rewrite (parseArrayField_generated_absent "tests:" now) by field_absent.
  reflexivity.
Qed.

Lemma parseApprovals_generated (now : string) :
  allChars isIsoChar now = true ->
  MetadataParser.parseApprovals (blockHead +:+ now +:+ blockTail) = None.
Proof.
  intros Hiso. unfold MetadataParser.parseApprovals. cbv zeta.
  rewrite (parseField_generated_absent "dev-approved:" now) by field_absent.
  rewrite (parseField_generated_absent "dev-approved-by:" now) by field_absent.
  rewrite (parseField_generated_absent "dev-approved-date:" now) by field_absent.
  rewrite (parseField_generated_absent "code-review-approved:" now) by field_absent.
  rewrite (parseField_generated_absent "code-review-approved-by:" now) by field_absent.
  rewrite (parseField_generated_absent "code-review-date:" now) by field_absent.
  rewrite (parseField_generated_absent "qa-approved:" now) by field_absent.
  rewrite (parseField_generated_absent "qa-approved-by:" now) by field_absent.
  rewrite (parseField_generated_absent "qa-approved-date:" now) by field_absent.
  reflexivity.
Qed.

(** C7 as the code has it. For a text without a metadata block and the
    update [{stability: "stable"}], the extraction from the updated
    text gives a record whose stability is [stable], whose last update
    is the time of the call, and in which every other field is absent,
    as it is for the text itself. *)
Theorem stability_update_round_trip_without_block :
  forall (rt : Runtime) (r : Realm) (content now : string) (st : State),
    search metadataRegex content = None ->
    isIsoString now = true ->
    MetadataParser.extractMetadataFromContent rt content st = (Ok None, st)
    /\ (exists updated : string,
           MetadataParser.updateMetadataInContent r now content
             [("stability", VStr "stable")] = Ok updated
           /\ MetadataParser.extractMetadataFromContent rt updated st
              = (Ok (Some (stampedStable now)), st))
    /\ stability (stampedStable now) = Some "stable".
Proof.
  intros rt r content now st Hno Hnow.
  assert (allChars isIsoChar now = true) as Hiso
    by (unfold isIsoString in Hnow; apply andb_prop in Hnow as [_ H]; exact H).
  split; [|split; [|reflexivity]].
  - unfold MetadataParser.extractMetadataFromContent. rewrite Hno. reflexivity.
  - unfold MetadataParser.updateMetadataInContent. rewrite Hno.
    eexists. split; [reflexivity|].
    rewrite generateMetadataBlock_stability.
    unfold MetadataParser.extractMetadataFromContent.
    rewrite (metadataRegex_generated now content Hnow).
    cbn [matched]. cbv zeta.
    rewrite (parseScalarsAndArrays_generated now Hnow).
    rewrite (parseApprovals_generated now Hiso).
    unfold MetadataParser.parseJsonField.
    rewrite (field_not_in_generated (jsonRegex "@method-permissions:")
               "method-permissions:" now (jsonRegex_head _))
      by field_absent.
    reflexivity.
Qed.

Lemma stability_update_round_trip_without_block_witness :
  (search metadataRegex Sample.plainFile = None /\ isIsoString Sample.now = true)
  /\ exists updated : string,
       MetadataParser.updateMetadataInContent (realm Sample.fresh) Sample.now
         Sample.plainFile [("stability", VStr "stable")] = Ok updated
       /\ fst (MetadataParser.extractMetadataFromContent Sample.rt updated Sample.fresh)
          = Ok (Some (stampedStable Sample.now)).
Proof.
  assert (search metadataRegex Sample.plainFile = None) as H1
    by (vm_compute; reflexivity).
  assert (isIsoString Sample.now = true) as H2 by (vm_compute; reflexivity).
  split; [auto|].
  destruct (stability_update_round_trip_without_block Sample.rt (realm Sample.fresh)
              Sample.plainFile Sample.now Sample.fresh H1 H2)
    as (_ & (updated & U & E) & _).
  exists updated. split; [exact U|]. rewrite E. reflexivity.
Defined.

(** C7 as the specification words it does not hold: in a text that has
    a block, the update leaves the stability of the block as it was,
    and it replaces the last update, which the update did not name. *)
Lemma stability_update_ignored_in_existing_block :
  exists (before after : AIMetadata) (updated : string),
    fst (MetadataParser.extractMetadataFromContent Sample.rt Sample.experimentalFile
           Sample.fresh)
    = Ok (Some before)
    /\ MetadataParser.updateMetadataInContent (realm Sample.fresh) Sample.now
         Sample.experimentalFile [("stability", VStr "stable")] = Ok updated
    /\ fst (MetadataParser.extractMetadataFromContent Sample.rt updated Sample.fresh)
       = Ok (Some after)
    /\ stability after = Some "experimental"
    /\ stability after <> Some "stable"
    /\ lastUpdate before = Some "2024-01-01"
    /\ lastUpdate after = Some Sample.now
    /\ lastUpdate after <> lastUpdate before.
Proof.
  eexists _, _, _. split; [vm_compute; reflexivity|].
  split; [vm_compute; reflexivity|].
  split; [vm_compute; reflexivity|].
  repeat split; try reflexivity; discriminate.
Qed.

(** ** Malformed method permissions *)

Lemma parseField_keeps_methodPermissions (content field : string)
  (setter : string -> AIMetadata -> AIMetadata) (m : AIMetadata) :
  (forall v x, methodPermissions (setter v x) = methodPermissions x) ->
  methodPermissions (MetadataParser.parseField content field setter m)
  = methodPermissions m.
Proof.
  intros H. unfold MetadataParser.parseField.
  destruct (search (fieldValueRegex field) content); [apply H | reflexivity].
Qed.

Lemma parseArrayField_keeps_methodPermissions (content field : string)
  (setter : list string -> AIMetadata -> AIMetadata) (m : AIMetadata) :
  (forall v x, methodPermissions (setter v x) = methodPermissions x) ->
  methodPermissions (MetadataParser.parseArrayField content field setter m)
  = methodPermissions m.
Proof.
  intros H. unfold MetadataParser.parseArrayField.
  destruct (search (arrayRegex field) content); [apply H | reflexivity].
Qed.

Lemma fieldsWithoutMethodPermissions_none (metadataBlock : string) :
  methodPermissions (fieldsWithoutMethodPermissions metadataBlock) = None.
Proof.
  unfold fieldsWithoutMethodPermissions, MetadataParser.parseScalarsAndArrays.
  cbv zeta.
  assert (forall v x, methodPermissions (MetadataParser.setApprovals v x)
                      = methodPermissions x) as -> by (intros v []; reflexivity).
  repeat (rewrite parseArrayField_keeps_methodPermissions
            by (intros v []; reflexivity)).
  repeat (rewrite parseField_keeps_methodPermissions
            by (intros v []; reflexivity)).
  reflexivity.
Qed.

(** C8 as the code has it. The extraction returns for every text,
    leaving the store as it was.  When the text has a block in which
    the expression for [@method-permissions:] finds an object that
    [JSON.parse] rejects, the extraction returns a record without
    method permissions and writes one warning to the console.  Every
    other field of that record is read from the block as it stands,
    the text of the malformed value included: the record is the one
    that the expressions of the other fields give on the block, and
    it is the record of a run in which [JSON.parse] accepts the
    object, but for the method permissions. *)
Theorem malformed_method_permissions_drop_only_that_field :
  forall (rt : Runtime) (content : string) (st : State),
    (exists (r : option AIMetadata) (st' : State),
        MetadataParser.extractMetadataFromContent rt content st = (Ok r, st')
        /\ sameStore st st')
    /\ (forall (m mp : Match),
        search metadataRegex content = Some m ->
        search (jsonRegex "@method-permissions:") (matched m) = Some mp ->
        JSON_parse rt (singleToDouble (default EmptyString (group1 mp))) = None ->
        MetadataParser.extractMetadataFromContent rt content st
        = (Ok (Some (fieldsWithoutMethodPermissions (matched m))),
           setConsole
             (console st ++ ["Warning: Could not parse JSON for @method-permissions:"])
             st)
        /\ methodPermissions (fieldsWithoutMethodPermissions (matched m)) = None)
    /\ (forall m : Match,
        search metadataRegex content = Some m ->
        search (jsonRegex "@method-permissions:") (matched m) = None ->
        MetadataParser.extractMetadataFromContent rt content st
        = (Ok (Some (fieldsWithoutMethodPermissions (matched m))), st))
    /\ (forall (accepting : Runtime) (m mp : Match) (value : Json),
        search metadataRegex content = Some m ->
        search (jsonRegex "@method-permissions:") (matched m) = Some mp ->
        JSON_parse accepting (singleToDouble (default EmptyString (group1 mp)))
        = Some value ->
        MetadataParser.extractMetadataFromContent accepting content st
        = (Ok (Some (withMethodPermissions (Some value)
                       (fieldsWithoutMethodPermissions (matched m)))), st)).
Proof.
  intros rt content st. split; [|split; [|split]].
  - apply extractMetadataFromContent_run.
  - intros m mp Hm Hmp Hparse. split; [|apply fieldsWithoutMethodPermissions_none].
    unfold MetadataParser.extractMetadataFromContent. rewrite Hm.
    unfold bind, MetadataParser.parseJsonField, tryCatch. rewrite Hmp, Hparse.
    reflexivity.
  - intros m Hm Hmp.
    unfold MetadataParser.extractMetadataFromContent. rewrite Hm.
    unfold bind, MetadataParser.parseJsonField. rewrite Hmp. reflexivity.
  - intros accepting m mp value Hm Hmp Hparse.
    unfold MetadataParser.extractMetadataFromContent. rewrite Hm.
    unfold bind, MetadataParser.parseJsonField, tryCatch. rewrite Hmp, Hparse.
    unfold fieldsWithoutMethodPermissions. simpl.
    destruct (MetadataParser.parseScalarsAndArrays _ _). reflexivity.
Qed.

Lemma malformed_method_permissions_drop_only_that_field_witness :
  (exists m mp : Match,
      search metadataRegex Sample.malformedFile = Some m
      /\ search (jsonRegex "@method-permissions:") (matched m) = Some mp
      /\ group1 mp = Some "{ login: read-only }"
      /\ JSON_parse Sample.rt (singleToDouble (default EmptyString (group1 mp))) = None)
  /\ exists metadata : AIMetadata,
       MetadataParser.extractMetadataFromContent Sample.rt Sample.malformedFile
         Sample.fresh
       = (Ok (Some metadata),
          setConsole ["Warning: Could not parse JSON for @method-permissions:"]
            Sample.fresh)
       /\ class metadata = Some "Auth"
       /\ reviewRequired metadata = Some true
       /\ methodPermissions metadata = None.
Proof.
  destruct (search metadataRegex Sample.malformedFile) as [m|] eqn:Hm;
    [|vm_compute in Hm; discriminate].
  destruct (search (jsonRegex "@method-permissions:") (matched m)) as [mp|] eqn:Hmp;
    [|vm_compute in Hm; injection Hm as <-; vm_compute in Hmp; discriminate].
  assert (group1 mp = Some "{ login: read-only }") as Hg.
  { vm_compute in Hm. injection Hm as <-. vm_compute in Hmp. injection Hmp as <-.
    reflexivity. }
  assert (JSON_parse Sample.rt (singleToDouble (default EmptyString (group1 mp)))
          = None) as Hparse by (rewrite Hg; vm_compute; reflexivity).
  split; [exists m, mp; auto|].
  destruct (malformed_method_permissions_drop_only_that_field Sample.rt
              Sample.malformedFile Sample.fresh) as (_ & Hbad & _).
  destruct (Hbad m mp Hm Hmp Hparse) as (E & Hnone).
  exists (fieldsWithoutMethodPermissions (matched m)).
  split; [exact E|].
  split; [|split; [|exact Hnone]].
  - vm_compute in Hm. injection Hm as <-. vm_compute. reflexivity.
  - vm_compute in Hm. injection Hm as <-. vm_compute. reflexivity.
Defined.

(** C8 as the specification words it does not hold: the other fields
    are not read as if the malformed value were absent.  Here the value
    holds the text [@class:], and the class read is the rest of that
    line, not the class of the line that follows; without the
    malformed line the class is the one of that line. *)
Lemma malformed_value_is_read_by_other_fields :
  exists (mp : Match) (found expected : AIMetadata),
    search (jsonRegex "@method-permissions:") Cases.shadowingFile = Some mp
    /\ group1 mp = Some "{ login: @class: Evil }"
    /\ JSON_parse Sample.rt (singleToDouble (default EmptyString (group1 mp))) = None
    /\ fst (MetadataParser.extractMetadataFromContent Sample.rt Cases.shadowingFile
              Sample.fresh) = Ok (Some found)
    /\ fst (MetadataParser.extractMetadataFromContent Sample.rt
              Cases.shadowingFileWithoutField Sample.fresh) = Ok (Some expected)
    /\ methodPermissions found = None
    /\ class expected = Some "Auth"
    /\ class found = Some "Evil }"
    /\ class found <> class expected.
Proof.
  eexists _, _, _. split; [vm_compute; reflexivity|].
  split; [reflexivity|]. split; [vm_compute; reflexivity|].
  split; [vm_compute; reflexivity|]. split; [vm_compute; reflexivity|].
  split; [reflexivity|]. split; [reflexivity|]. split; [reflexivity|].
  discriminate.
Qed.

(** ** The default rules *)

(** With the rule list of the constructor a file with metadata is never
    allowed: the hard-coded check refuses a read-only file, and the
    first rule, whose condition is [isReadOnly()], fails on every
    other. *)
Lemma default_rules_block_every_file (filePath : string) (metadata : AIMetadata)
  (approvals : option ApprovalStatus) (st : State) :
  rules st = RuleEngine.getDefaultRules ->
  exists (r : CheckResult) (st' : State),
    RuleEngine.checkBeforeModification filePath (Some metadata) approvals st
    = (Ok r, st')
    /\ allowed r = false.
Proof.
  intros Hrules.
  destruct (checkBeforeModification_run filePath metadata approvals st)
    as (st' & E & _).
  eexists _, st'. split; [exact E|].
  destruct (fold_classify metadata approvals filePath (rules st)
              (RuleEngine.hardCodedChecks metadata approvals
                 (mkCheckResult true [] []))) as (_ & _ & A).
  rewrite A, Hrules. unfold RuleEngine.getDefaultRules, forallb at 1.
  unfold blocking at 1, conditionFalse. simpl.
  unfold RuleEngine.hardCodedChecks.
  destruct (RuleEngine.isReadOnly metadata); simpl.
  - destruct (RuleEngine.isHighRisk metadata
              && negb (truthy (RuleEngine.optional devApproved approvals))),
      (truthy (RuleEngine.ofBool (reviewRequired metadata))
       && negb (truthy (RuleEngine.optional codeReviewApproved approvals))),
      (RuleEngine.isDeprecated metadata); reflexivity.
  - apply andb_false_r.
Qed.

(** A high-risk file without dev approval is refused, with the reason
    of the hard-coded check, whatever the rules. *)
Lemma high_risk_without_dev_approval_blocks (filePath : string)
  (metadata : AIMetadata) (approvals : option ApprovalStatus) (st : State) :
  breakingChangesRisk metadata = Some "high" ->
  truthy (RuleEngine.optional devApproved approvals) = false ->
  exists (r : CheckResult) (st' : State),
    RuleEngine.checkBeforeModification filePath (Some metadata) approvals st
    = (Ok r, st')
    /\ allowed r = false
    /\ In "High-risk file requires dev approval before modification" (reasons r).
Proof.
  intros Hrisk Hdev.
  destruct (checkBeforeModification_run filePath metadata approvals st)
    as (st' & E & _).
  eexists _, st'. split; [exact E|].
  destruct (fold_classify metadata approvals filePath (rules st)
              (RuleEngine.hardCodedChecks metadata approvals
                 (mkCheckResult true [] []))) as (R & _ & A).
  assert (allowed (RuleEngine.hardCodedChecks metadata approvals
                     (mkCheckResult true [] [])) = false
          /\ In "High-risk file requires dev approval before modification"
               (reasons (RuleEngine.hardCodedChecks metadata approvals
                           (mkCheckResult true [] [])))) as [Ha Hr].
  { unfold RuleEngine.hardCodedChecks, RuleEngine.isHighRisk. rewrite Hrisk.
    rewrite Hdev. simpl.
    destruct (RuleEngine.isReadOnly metadata),
      (truthy (RuleEngine.ofBool (reviewRequired metadata))
       && negb (truthy (RuleEngine.optional codeReviewApproved approvals))),
      (RuleEngine.isDeprecated metadata); simpl; auto. }
  rewrite A, R, Ha. split; [reflexivity|].
  apply in_or_app. left. exact Hr.
Qed.

(** C1 on the code. The file [src/auth.ts] has full edit permissions
    and a high risk, and no approval is recorded: the check refuses it,
    with the reason of the hard-coded check for dev approval.  After
    [set_file_approval] for the dev slot the ledger holds the approval,
    no hard-coded check fires any more, and the check still refuses
    the file: the rules [no-modify-read-only] and
    [high-risk-needs-approval] of the default list, whose conditions
    are false on it, give the two reasons. *)
Theorem high_risk_file_still_refused_after_dev_approval :
  fst (Server.check_before_modification Sample.rt "src/auth.ts" Sample.fresh)
  = Ok (mkCheckResult false
          ["High-risk file requires dev approval before modification";
           "File is marked as read-only and cannot be modified"]
          ["Consider if modifying deprecated file is necessary";
           "File requires code review before modification";
           "Stable code should be reviewed before modification"])
  /\ exists (st1 : State) (metadata : AIMetadata) (a : ApprovalStatus),
       Server.set_file_approval Sample.rt "src/auth.ts" KdevApproved "bob@example.com"
         Sample.fresh = (Ok tt, st1)
       /\ fst (Server.parse_file_metadata Sample.rt "src/auth.ts" st1)
          = Ok (Some metadata)
       /\ fst (Server.get_file_approval_status Sample.rt "src/auth.ts" st1)
          = Ok (Some (Own a))
       /\ reads (realm st1) (Own a) = a
       /\ devApproved a = Some true
       /\ RuleEngine.hardCodedChecks metadata (Some a) (mkCheckResult true [] [])
          = mkCheckResult true [] []
       /\ fst (Server.check_before_modification Sample.rt "src/auth.ts" st1)
          = Ok (mkCheckResult false
                  ["File is marked as read-only and cannot be modified";
                   "High-risk file requires developer approval"]
                  ["Consider if modifying deprecated file is necessary";
                   "File requires code review before modification";
                   "Stable code should be reviewed before modification"]).
Proof.
  split; [vm_compute; reflexivity|].
  destruct (Server.set_file_approval Sample.rt "src/auth.ts" KdevApproved
              "bob@example.com" Sample.fresh) as [o st1] eqn:E.
  vm_compute in E. injection E as <- <-.
  eexists _, _, _. split; [reflexivity|].
  split; [vm_compute; reflexivity|].
  split; [vm_compute; reflexivity|].
  split; [reflexivity|].
  split; [reflexivity|].
  split; vm_compute; reflexivity.
Qed.

(** * Further properties *)

Import Notions.

(** ** The rule engine: evaluation *)

Lemma setConsole_same (st : State) : setConsole (console st) st = st.
Proof. destruct st; reflexivity. Qed.

Lemma setConsole_twice (a b : list string) (st : State) :
  setConsole b (setConsole a st) = setConsole b st.
Proof. reflexivity. Qed.

Lemma applyRule_exact (metadata : AIMetadata) (approvals : option ApprovalStatus)
  (filePath : string) (result : CheckResult) (rule : AIRule) (st : State) :
  RuleEngine.applyRule metadata approvals filePath result rule st
  = (Ok (classify metadata approvals filePath result rule),
     if throws metadata approvals filePath rule
     then setConsole (console st ++ [diagnostic rule]) st
     else st).
Proof.
  unfold RuleEngine.applyRule, RuleEngine.evaluateRule, RuleEngine.evaluateCondition,
    bind, tryCatch, classify, conditionFalse, throws, diagnostic.
  destruct (RuleEngine.evalCondition _ _) as [v|]; simpl.
  - destruct (truthy v); simpl; [reflexivity|].
    destruct (8 <? priority rule); reflexivity.
  - reflexivity.
Qed.

Lemma forEach_applyRule_exact (metadata : AIMetadata)
  (approvals : option ApprovalStatus) (filePath : string) (rs : list AIRule) :
  forall (result : CheckResult) (st : State),
    RuleEngine.forEach (RuleEngine.applyRule metadata approvals filePath) rs result st
    = (Ok (fold_left (classify metadata approvals filePath) rs result),
       setConsole
         (console st
          ++ map diagnostic (List.filter (throws metadata approvals filePath) rs))
         st).
Proof.
  induction rs as [|rule rs IH]; intros result st; simpl.
  - rewrite app_nil_r, setConsole_same. reflexivity.
  - unfold bind. rewrite applyRule_exact, IH.
    destruct (throws metadata approvals filePath rule); simpl.
    + rewrite <- app_assoc. reflexivity.
    + reflexivity.
Qed.

Lemma filter_filter_and {A} (f g : A -> bool) (l : list A) :
  List.filter f (List.filter g l) = List.filter (fun x => g x && f x) l.
Proof.
  induction l as [|x l IH]; simpl; [reflexivity|].
  destruct (g x); simpl; [|exact IH].
  destruct (f x); rewrite IH; reflexivity.
Qed.

Lemma checkBeforeModification_exact (filePath : string) (metadata : AIMetadata)
  (approvals : option ApprovalStatus) (st : State) :
  RuleEngine.checkBeforeModification filePath (Some metadata) approvals st
  = (Ok (fold_left (classify metadata approvals filePath)
           (List.filter (fun rule => enabled rule) (rules st))
           (RuleEngine.hardCodedChecks metadata approvals (mkCheckResult true [] []))),
     setConsole
       (console st
        ++ map diagnostic
             (List.filter
                (fun rule => enabled rule && throws metadata approvals filePath rule)
                (rules st)))
       st).
Proof.
  unfold RuleEngine.checkBeforeModification, bind, gets.
  rewrite forEach_applyRule_exact, filter_filter_and. reflexivity.
Qed.

Lemma fold_classify_skips_throwing (metadata : AIMetadata)
  (approvals : option ApprovalStatus) (filePath : string) (rs : list AIRule) :
  forall result : CheckResult,
    fold_left (classify metadata approvals filePath)
      (List.filter (fun rule => enabled rule)
         (List.filter (fun rule => negb (throws metadata approvals filePath rule)) rs))
      result
    = fold_left (classify metadata approvals filePath)
        (List.filter (fun rule => enabled rule) rs) result.
Proof.
  induction rs as [|rule rs IH]; intros result; simpl; [reflexivity|].
  destruct (throws metadata approvals filePath rule) eqn:T; simpl.
  - destruct (enabled rule); simpl; [|apply IH].
    rewrite IH. f_equal. unfold classify, conditionFalse.
    unfold throws in T.
    destruct (RuleEngine.evalCondition _ _); [discriminate | reflexivity].
  - destruct (enabled rule); simpl; apply IH.
Qed.

(** X1. A rule whose condition cannot be evaluated is passed over: the
    check on a file with metadata writes one line per enabled rule of
    that kind to the console, each the diagnostic of
    [evaluateCondition] followed by a text of the condition, changes
    nothing else of the state, and returns what it returns for the rule
    list without those rules. *)
Theorem unevaluable_rules_are_skipped :
  forall (filePath : string) (metadata : AIMetadata)
         (approvals : option ApprovalStatus) (st : State),
  exists (r : CheckResult) (lines : list string),
    RuleEngine.checkBeforeModification filePath (Some metadata) approvals st
    = (Ok r, setConsole (console st ++ lines) st)
    /\ length lines
       = length (List.filter
                   (fun rule => enabled rule && throws metadata approvals filePath rule)
                   (rules st))
    /\ Forall (fun line : string =>
                 exists text : string,
                   line = "Could not evaluate condition: " +:+ text) lines
    /\ fst (RuleEngine.checkBeforeModification filePath (Some metadata) approvals
              (setRules
                 (List.filter
                    (fun rule => negb (throws metadata approvals filePath rule))
                    (rules st))
                 st))
       = Ok r.
Proof.
  intros filePath metadata approvals st.
  eexists _, _. split; [apply checkBeforeModification_exact|].
  split; [apply length_map|]. split.
  - apply Forall_map, Forall_forall. intros rule _. eexists. reflexivity.
  - rewrite checkBeforeModification_exact. simpl.
    rewrite fold_classify_skips_throwing. reflexivity.
Qed.

(** ** The rule engine: the rule list of the constructor *)

Lemma default_rules_exact (filePath : string) (metadata : AIMetadata)
  (approvals : option ApprovalStatus) (result : CheckResult) :
  let r := fold_left (classify metadata approvals filePath)
             RuleEngine.getDefaultRules result in
  reasons r
  = reasons result
    ++ (if RuleEngine.isReadOnly metadata then []
        else ["File is marked as read-only and cannot be modified"])
    ++ (if RuleEngine.isHighRisk metadata
           && negb (RuleEngine.hasApproval approvals "dev")
        then [] else ["High-risk file requires developer approval"])
  /\ warnings r
     = warnings result
       ++ (if RuleEngine.isDeprecated metadata then []
           else ["Consider if modifying deprecated file is necessary"])
       ++ (if truthy (RuleEngine.ofBool (reviewRequired metadata))
              && negb (RuleEngine.hasApproval approvals "codeReview")
           then [] else ["File requires code review before modification"])
       ++ (if strictEq (RuleEngine.ofString (stability metadata)) (VStr "stable")
              && negb (RuleEngine.hasApproval approvals "dev")
           then [] else ["Stable code should be reviewed before modification"]).
Proof.
  unfold RuleEngine.getDefaultRules, classify, conditionFalse. simpl.
  destruct (RuleEngine.isReadOnly metadata),
    (RuleEngine.isHighRisk metadata),
    (RuleEngine.hasApproval approvals "dev"),
    (RuleEngine.isDeprecated metadata),
    (RuleEngine.hasApproval approvals "codeReview"),
    (strictEq (RuleEngine.ofString (stability metadata)) (VStr "stable")),
    (reviewRequired metadata) as [[]|];
    simpl; rewrite <- ?app_assoc, ?app_nil_r; split; reflexivity.
Qed.

(** X2. With the rule list of the constructor a file with metadata is
    never allowed, whatever its metadata and approvals.  After what the
    hard-coded checks give, the reasons hold the action of the read-only
    rule unless the file is read-only, and that of the high-risk rule
    unless the file is high-risk without dev approval; the warnings
    hold the actions of the three other rules, each unless the state it
    names is the case. *)
Theorem default_rules_refuse_every_file :
  forall (filePath : string) (metadata : AIMetadata)
         (approvals : option ApprovalStatus) (st : State),
    rules st = RuleEngine.getDefaultRules ->
    exists (r : CheckResult) (st' : State),
      RuleEngine.checkBeforeModification filePath (Some metadata) approvals st
      = (Ok r, st')
      /\ allowed r = false
      /\ (let hard := RuleEngine.hardCodedChecks metadata approvals
                        (mkCheckResult true [] []) in
          reasons r
          = reasons hard
            ++ (if RuleEngine.isReadOnly metadata then []
                else ["File is marked as read-only and cannot be modified"])
            ++ (if RuleEngine.isHighRisk metadata
                   && negb (RuleEngine.hasApproval approvals "dev")
                then [] else ["High-risk file requires developer approval"])
          /\ warnings r
             = warnings hard
               ++ (if RuleEngine.isDeprecated metadata then []
                   else ["Consider if modifying deprecated file is necessary"])
               ++ (if truthy (RuleEngine.ofBool (reviewRequired metadata))
                      && negb (RuleEngine.hasApproval approvals "codeReview")
                   then [] else ["File requires code review before modification"])
               ++ (if strictEq (RuleEngine.ofString (stability metadata))
                        (VStr "stable")
                      && negb (RuleEngine.hasApproval approvals "dev")
                   then []
                   else ["Stable code should be reviewed before modification"])).
Proof.
  intros filePath metadata approvals st Hrules.
  destruct (default_rules_block_every_file filePath metadata approvals st Hrules)
    as (r & st' & E & Ha).
  exists r, st'. split; [exact E|]. split; [exact Ha|].
  rewrite checkBeforeModification_exact in E. injection E as <- _.
  rewrite Hrules.
  apply (default_rules_exact filePath metadata approvals).
Qed.

Lemma default_rules_refuse_every_file_witness :
  rules Sample.approved = RuleEngine.getDefaultRules
  /\ exists (r : CheckResult) (st' : State),
       RuleEngine.checkBeforeModification "src/auth.ts"
         (Some (MetadataParser.setEditPermissions "full"
                  (MetadataParser.setBreakingChangesRisk "high"
                     MetadataParser.emptyMetadata)))
         (Some Sample.approvedEntry) Sample.approved = (Ok r, st')
       /\ allowed r = false.
Proof.
  split; [reflexivity|].
  destruct (default_rules_refuse_every_file "src/auth.ts"
              (MetadataParser.setEditPermissions "full"
                 (MetadataParser.setBreakingChangesRisk "high"
                    MetadataParser.emptyMetadata))
              (Some Sample.approvedEntry) Sample.approved eq_refl)
    as (r & st' & E & Ha & _).
  exists r, st'. split; [exact E | exact Ha].
Defined.

(** ** The rule engine: the hard-coded checks alone *)

Lemma no_enabled_rule (g : AIRule -> bool) (rs : list AIRule) :
  forallb (fun r => negb (enabled r)) rs = true ->
  List.filter (fun r => enabled r) rs = []
  /\ List.filter (fun r => enabled r && g r) rs = [].
Proof.
  induction rs as [|r rs IH]; simpl; [auto|].
  intros H. apply andb_prop in H as [Hr Hrs].
  destruct (enabled r); [discriminate|]. simpl. apply IH. exact Hrs.
Qed.

Lemma hardCodedChecks_allowed (metadata : AIMetadata)
  (approvals : option ApprovalStatus) :
  allowed (RuleEngine.hardCodedChecks metadata approvals (mkCheckResult true [] []))
  = negb (RuleEngine.isReadOnly metadata)
    && negb (RuleEngine.isHighRisk metadata
             && negb (truthy (RuleEngine.optional devApproved approvals)))
    && negb (truthy (RuleEngine.ofBool (reviewRequired metadata))
             && negb (truthy (RuleEngine.optional codeReviewApproved approvals))).
Proof.
  unfold RuleEngine.hardCodedChecks.
  destruct (RuleEngine.isReadOnly metadata),
    (RuleEngine.isHighRisk metadata
     && negb (truthy (RuleEngine.optional devApproved approvals))),
    (truthy (RuleEngine.ofBool (reviewRequired metadata))
     && negb (truthy (RuleEngine.optional codeReviewApproved approvals))),
    (RuleEngine.isDeprecated metadata); reflexivity.
Qed.

(** X3. When no rule of the list is enabled, the check on a file with
    metadata leaves the state as it is, console included, and its
    result is that of the hard-coded checks: the file is allowed exactly
    when it is not read-only, is not high-risk without dev approval, and
    does not require a review without code-review approval. *)
Theorem without_rules_the_hard_coded_checks_decide :
  forall (filePath : string) (metadata : AIMetadata)
         (approvals : option ApprovalStatus) (st : State),
    forallb (fun r => negb (enabled r)) (rules st) = true ->
    exists r : CheckResult,
      RuleEngine.checkBeforeModification filePath (Some metadata) approvals st
      = (Ok r, st)
      /\ r = RuleEngine.hardCodedChecks metadata approvals (mkCheckResult true [] [])
      /\ allowed r
         = negb (RuleEngine.isReadOnly metadata)
           && negb (RuleEngine.isHighRisk metadata
                    && negb (truthy (RuleEngine.optional devApproved approvals)))
           && negb (truthy (RuleEngine.ofBool (reviewRequired metadata))
                    && negb (truthy (RuleEngine.optional codeReviewApproved
                                       approvals))).
Proof.
  intros filePath metadata approvals st H.
  destruct (no_enabled_rule (throws metadata approvals filePath) (rules st) H)
    as [H1 H2].
  eexists. split; [|split; [reflexivity | apply hardCodedChecks_allowed]].
  rewrite checkBeforeModification_exact, H1, H2. simpl.
  rewrite app_nil_r, setConsole_same. reflexivity.
Qed.

Lemma without_rules_the_hard_coded_checks_decide_witness :
  forallb (fun r => negb (enabled r)) (rules Cases.noRules) = true
  /\ RuleEngine.checkBeforeModification "src/auth.ts"
       (Some (MetadataParser.setEditPermissions "full"
                (MetadataParser.setBreakingChangesRisk "high"
                   MetadataParser.emptyMetadata)))
       (Some Sample.approvedEntry) Cases.noRules
     = (Ok (mkCheckResult true [] []), Cases.noRules).
Proof.
  split; [reflexivity|].
  destruct (without_rules_the_hard_coded_checks_decide "src/auth.ts"
              (MetadataParser.setEditPermissions "full"
                 (MetadataParser.setBreakingChangesRisk "high"
                    MetadataParser.emptyMetadata))
              (Some Sample.approvedEntry) Cases.noRules eq_refl)
    as (r & E & Hr & _).
  rewrite E, Hr. reflexivity.
Defined.

(** X4. A read-only file is refused whatever the approvals and the
    rules, and the first reason given is that of the hard-coded check. *)
Theorem read_only_file_is_always_refused :
  forall (filePath : string) (metadata : AIMetadata)
         (approvals : option ApprovalStatus) (st : State),
    editPermissions metadata = Some "read-only" ->
    exists (r : CheckResult) (st' : State) (others : list string),
      RuleEngine.checkBeforeModification filePath (Some metadata) approvals st
      = (Ok r, st')
      /\ allowed r = false
      /\ reasons r = "File is marked as read-only" :: others.
Proof.
  intros filePath metadata approvals st H.
  assert (RuleEngine.isReadOnly metadata = true) as Hro
    by (unfold RuleEngine.isReadOnly; rewrite H; reflexivity).
  destruct (fold_classify metadata approvals filePath (rules st)
              (RuleEngine.hardCodedChecks metadata approvals
                 (mkCheckResult true [] []))) as (R & _ & A).
  rewrite hardCodedChecks_allowed, Hro in A. simpl in A.
  assert (exists others,
             reasons (RuleEngine.hardCodedChecks metadata approvals
                        (mkCheckResult true [] []))
             = "File is marked as read-only" :: others) as (others & Hh).
  { unfold RuleEngine.hardCodedChecks. rewrite Hro.
    destruct (RuleEngine.isHighRisk metadata
              && negb (truthy (RuleEngine.optional devApproved approvals))),
      (truthy (RuleEngine.ofBool (reviewRequired metadata))
       && negb (truthy (RuleEngine.optional codeReviewApproved approvals))),
      (RuleEngine.isDeprecated metadata); simpl; eexists; reflexivity. }
  rewrite Hh in R.
  eexists _, _, _. split; [apply checkBeforeModification_exact|].
  split; [exact A | exact R].
Qed.

Lemma read_only_file_is_always_refused_witness :
  editPermissions (MetadataParser.setEditPermissions "read-only"
                     MetadataParser.emptyMetadata) = Some "read-only"
  /\ exists (r : CheckResult) (st' : State),
       RuleEngine.checkBeforeModification "src/auth.ts"
         (Some (MetadataParser.setEditPermissions "read-only"
                  MetadataParser.emptyMetadata))
         (Some Sample.approvedEntry) Cases.noRules = (Ok r, st')
       /\ allowed r = false.
Proof.
  split; [reflexivity|].
  destruct (read_only_file_is_always_refused "src/auth.ts"
              (MetadataParser.setEditPermissions "read-only"
                 MetadataParser.emptyMetadata)
              (Some Sample.approvedEntry) Cases.noRules eq_refl)
    as (r & st' & others & E & Ha & _).
  exists r, st'. split; [exact E | exact Ha].
Defined.

(** ** The rule engine: approvals written in the file *)

Lemma evalCondition_ignores_file_approvals (x : option ApprovalStatus)
  (metadata : AIMetadata) (approvals : option ApprovalStatus) (filePath : string)
  (c : Condition) :
  RuleEngine.evalCondition
    (RuleEngine.mkContext (MetadataParser.setApprovals x metadata) approvals filePath) c
  = RuleEngine.evalCondition (RuleEngine.mkContext metadata approvals filePath) c.
Proof.
  induction c; simpl;
    try (destruct metadata; reflexivity);
    try (rewrite ?IHc, ?IHc1, ?IHc2; reflexivity).
Qed.

Lemma hardCodedChecks_ignores_file_approvals (x : option ApprovalStatus)
  (metadata : AIMetadata) (approvals : option ApprovalStatus) (result : CheckResult) :
  RuleEngine.hardCodedChecks (MetadataParser.setApprovals x metadata) approvals result
  = RuleEngine.hardCodedChecks metadata approvals result.
Proof. destruct metadata; reflexivity. Qed.

(** X5. Approval lines in the metadata block of the file play no part
    in the check with the rule list of the constructor: whatever
    approvals record the metadata carries, the result is that for the
    metadata without it; only the record of the ledger counts. *)
Theorem approvals_in_the_file_do_not_count :
  forall (filePath : string) (metadata : AIMetadata)
         (inFile approvals : option ApprovalStatus) (st : State),
    rules st = RuleEngine.getDefaultRules ->
    RuleEngine.checkBeforeModification filePath
      (Some (MetadataParser.setApprovals inFile metadata)) approvals st
    = RuleEngine.checkBeforeModification filePath (Some metadata) approvals st.
Proof.
  intros filePath metadata inFile approvals st _.
  rewrite !checkBeforeModification_exact.
  rewrite hardCodedChecks_ignores_file_approvals.
  assert (forall rule,
             throws (MetadataParser.setApprovals inFile metadata) approvals filePath rule
             = throws metadata approvals filePath rule) as Ht.
  { intros rule. unfold throws.
    rewrite evalCondition_ignores_file_approvals. reflexivity. }
  assert (forall result rule,
             classify (MetadataParser.setApprovals inFile metadata) approvals
               filePath result rule
             = classify metadata approvals filePath result rule) as Hc.
  { intros result rule. unfold classify, conditionFalse.
    rewrite evalCondition_ignores_file_approvals. reflexivity. }
  f_equal.
  - f_equal. generalize (RuleEngine.hardCodedChecks metadata approvals
                            (mkCheckResult true [] [])).
    induction (List.filter (fun rule => enabled rule) (rules st)) as [|rule l IH];
      intros result; simpl; [reflexivity|].
    rewrite Hc. apply IH.
  - f_equal. f_equal. f_equal.
    induction (rules st) as [|rule l IH]; simpl; [reflexivity|].
    rewrite Ht, IH. reflexivity.
Qed.

Lemma approvals_in_the_file_do_not_count_witness :
  rules Sample.fresh = RuleEngine.getDefaultRules
  /\ fst (RuleEngine.checkBeforeModification "src/auth.ts"
            (Some (MetadataParser.setApprovals
                     (Some (MetadataParser.setDevApproved true
                              MetadataParser.emptyApprovals))
                     (MetadataParser.setBreakingChangesRisk "high"
                        MetadataParser.emptyMetadata)))
            None Sample.fresh)
     = fst (RuleEngine.checkBeforeModification "src/auth.ts"
              (Some (MetadataParser.setBreakingChangesRisk "high"
                       MetadataParser.emptyMetadata))
              None Sample.fresh).
Proof.
  split; [reflexivity|].
  rewrite (approvals_in_the_file_do_not_count "src/auth.ts"
             (MetadataParser.setBreakingChangesRisk "high" MetadataParser.emptyMetadata)
             (Some (MetadataParser.setDevApproved true MetadataParser.emptyApprovals))
             None Sample.fresh eq_refl).
  reflexivity.
Defined.

(** ** The rule engine: administration of the rule list *)

Lemma findObject_none (ruleId : string) (rs : list AIRule) (os : list nat) :
  firstWithId ruleId rs = None -> RuleEngine.findObject ruleId rs os = None.
Proof.
  unfold firstWithId. revert os. induction rs as [|r rs IH]; intros [|o os]; simpl;
    try reflexivity.
  destruct (String.eqb (id r) ruleId); [discriminate | apply IH].
Qed.

Lemma assignEnabled_ids (o : nat) (b : bool) (rs : list AIRule) (os : list nat) :
  map id (RuleEngine.assignEnabled o b rs os) = map id rs.
Proof.
  revert os. induction rs as [|r rs IH]; intros [|o' os]; simpl; try reflexivity.
  rewrite IH. destruct (Nat.eqb o' o); reflexivity.
Qed.

Lemma assignEnabled_length (o : nat) (b : bool) (rs : list AIRule) (os : list nat) :
  length (RuleEngine.assignEnabled o b rs os) = length rs.
Proof.
  revert os. induction rs as [|r rs IH]; intros [|o' os]; simpl; try reflexivity.
  rewrite IH. reflexivity.
Qed.

Lemma keptIdentity_length (keep : AIRule -> bool) (rs : list AIRule) (os : list nat) :
  length os = length rs ->
  length (RuleEngine.keptIdentity keep rs os) = length (List.filter keep rs).
Proof.
  revert os. induction rs as [|r rs IH]; intros [|o os] H; simpl in *;
    try reflexivity; try discriminate.
  injection H as H. destruct (keep r); simpl; rewrite (IH os H); reflexivity.
Qed.

(** Every place of the rule list holds an object: the constructor
    leaves the list so, and the four operations on the list keep it
    so. *)
Lemma every_place_holds_an_object :
  (forall (files : gmap string string) (memoryDir : gmap string Document)
          (date dateNow random : string),
      let st := Server.initial files memoryDir date dateNow random in
      length (ruleIdentity st) = length (rules st))
  /\ (forall st : State,
      length (ruleIdentity st) = length (rules st) ->
      (forall (o : nat) (rule : AIRule),
          let st1 := snd (RuleEngine.addCustomRule o rule st) in
          length (ruleIdentity st1) = length (rules st1))
      /\ (forall ruleId : string,
          let st1 := snd (RuleEngine.removeRule ruleId st) in
          length (ruleIdentity st1) = length (rules st1))
      /\ (forall ruleId : string,
          let st1 := snd (RuleEngine.enableRule ruleId st) in
          length (ruleIdentity st1) = length (rules st1))
      /\ (forall ruleId : string,
          let st1 := snd (RuleEngine.disableRule ruleId st) in
          length (ruleIdentity st1) = length (rules st1))).
Proof.
  split; [intros; reflexivity|].
  intros st H. repeat split.
  - intros o rule. simpl. rewrite !length_app, H. reflexivity.
  - intros ruleId. simpl. apply keptIdentity_length, H.
  - intros ruleId. unfold RuleEngine.enableRule, bind, gets. simpl.
    destruct (RuleEngine.findObject ruleId (rules st) (ruleIdentity st)); simpl;
      [rewrite assignEnabled_length|]; exact H.
  - intros ruleId. unfold RuleEngine.disableRule, bind, gets. simpl.
    destruct (RuleEngine.findObject ruleId (rules st) (ruleIdentity st)); simpl;
      [rewrite assignEnabled_length|]; exact H.
Qed.

Lemma findObject_by_ids (ruleId : string) (rs rs' : list AIRule) (os : list nat) :
  map id rs' = map id rs ->
  RuleEngine.findObject ruleId rs' os = RuleEngine.findObject ruleId rs os.
Proof.
  revert rs' os. induction rs as [|r rs IH]; intros [|r' rs'] os; simpl;
    try discriminate; try reflexivity.
  intros [= Hid Hrest]. destruct os as [|o os]; [reflexivity|].
  rewrite Hid. destruct (String.eqb (id r) ruleId); [reflexivity|].
  apply IH. exact Hrest.
Qed.

(** A disabled object counts, in a check, as if its places were not in
    the list. *)
Lemma disabled_object_is_removed (o : nat) (rs : list AIRule) (os : list nat) :
  List.filter (fun r => enabled r) (RuleEngine.assignEnabled o false rs os)
  = List.filter (fun r => enabled r) (withoutObject o rs os).
Proof.
  revert os. induction rs as [|r rs IH]; intros [|o' os]; simpl; try reflexivity.
  destruct (Nat.eqb o' o); simpl; rewrite IH; reflexivity.
Qed.

(** When every place holds an object of its own, the object found is at
    the first place with the identifier and nowhere else. *)
Lemma withoutObject_distinct (ruleId : string) (rs : list AIRule) (os : list nat)
  (o : nat) :
  length os = length rs -> NoDup os ->
  RuleEngine.findObject ruleId rs os = Some o ->
  withoutObject o rs os = removeFirst ruleId rs.
Proof.
  revert os. induction rs as [|r rs IH]; intros [|o' os]; simpl; try discriminate.
  intros [= Hlen] Hnd. apply NoDup_cons in Hnd as [Hnotin Hnd].
  destruct (String.eqb (id r) ruleId).
  - intros [= <-]. rewrite Nat.eqb_refl.
    clear IH Hnd. revert os Hlen Hnotin.
    induction rs as [|x rs IH]; intros [|p os]; simpl; try discriminate;
      try reflexivity.
    intros [= Hlen] Hnotin.
    destruct (Nat.eqb_spec p o') as [->|Hne].
    + exfalso. apply Hnotin, elem_of_cons. left. reflexivity.
    + f_equal. apply IH; [exact Hlen|].
      intros Hin. apply Hnotin, elem_of_cons. right. exact Hin.
  - intros Hfound.
    destruct (Nat.eqb_spec o' o) as [->|Hne].
    + exfalso. apply Hnotin. clear -Hfound.
      revert os Hfound. induction rs as [|x rs IH]; intros [|p os]; simpl;
        try discriminate.
      destruct (String.eqb (id x) ruleId).
      * intros [= ->]. apply elem_of_cons. left. reflexivity.
      * intros H. apply elem_of_cons. right. apply (IH os H).
    + f_equal. apply IH; assumption.
Qed.

Lemma removeFirst_absent (ruleId : string) (rs : list AIRule) :
  firstWithId ruleId rs = None -> removeFirst ruleId rs = rs.
Proof.
  unfold firstWithId. induction rs as [|x rs IH]; simpl; [reflexivity|].
  destruct (String.eqb (id x) ruleId); [discriminate|].
  intros H. rewrite (IH H). reflexivity.
Qed.

Lemma check_result_by_enabled_rules (filePath : string) (metadata : AIMetadata)
  (approvals : option ApprovalStatus) (st st' : State) :
  List.filter (fun r => enabled r) (rules st')
  = List.filter (fun r => enabled r) (rules st) ->
  fst (RuleEngine.checkBeforeModification filePath (Some metadata) approvals st')
  = fst (RuleEngine.checkBeforeModification filePath (Some metadata) approvals st).
Proof.
  intros H. rewrite !checkBeforeModification_exact. simpl. rewrite H. reflexivity.
Qed.

(** X6. [disableRule] assigns to the object that is the first rule with
    the identifier.  The list shows the assignment wherever it holds
    that object: when a rule was added twice, both places are
    disabled.  For every later check the rule list counts as the list
    without those places; when every place holds an object of its own,
    that is the list without the first rule of the identifier.  The
    identifiers, their order and the objects stay as they were, and
    for an identifier that no rule has the state is left untouched,
    console included. *)
Theorem disabling_a_rule_takes_its_object_out_of_the_check :
  forall (ruleId : string) (st : State),
  exists st1 : State,
    RuleEngine.disableRule ruleId st = (Ok tt, st1)
    /\ map id (rules st1) = map id (rules st)
    /\ ruleIdentity st1 = ruleIdentity st
    /\ files st1 = files st /\ memoryDir st1 = memoryDir st
    /\ (forall (filePath : string) (metadata : AIMetadata)
               (approvals : option ApprovalStatus),
        fst (RuleEngine.checkBeforeModification filePath (Some metadata) approvals st1)
        = fst (RuleEngine.checkBeforeModification filePath (Some metadata) approvals
                 (setRules (withoutFound ruleId st) st)))
    /\ (firstWithId ruleId (rules st) = None -> st1 = st)
    /\ (length (ruleIdentity st) = length (rules st) ->
        NoDup (ruleIdentity st) ->
        withoutFound ruleId st = removeFirst ruleId (rules st)).
Proof.
  intros ruleId st. unfold RuleEngine.disableRule, bind, gets, withoutFound.
  destruct (RuleEngine.findObject ruleId (rules st) (ruleIdentity st)) as [o|] eqn:E.
  - eexists. split; [reflexivity|]. simpl.
    split; [apply assignEnabled_ids|].
    split; [reflexivity|]. split; [reflexivity|]. split; [reflexivity|].
    split; [|split].
    + intros filePath metadata approvals.
      apply check_result_by_enabled_rules. simpl.
      apply disabled_object_is_removed.
    + intros Hnone. rewrite (findObject_none ruleId _ _ Hnone) in E. discriminate.
    + intros Hlen Hnd. apply (withoutObject_distinct ruleId _ _ o Hlen Hnd E).
  - exists st. split; [reflexivity|]. split; [reflexivity|].
    split; [reflexivity|]. split; [reflexivity|]. split; [reflexivity|].
    split; [|split; [reflexivity|]].
    + intros filePath metadata approvals.
      apply check_result_by_enabled_rules. reflexivity.
    + intros Hlen Hnd. symmetry. apply removeFirst_absent.
      unfold firstWithId.
      revert Hlen E. generalize (ruleIdentity st).
      induction (rules st) as [|r rs IH]; intros [|o os]; simpl; try discriminate;
        try reflexivity.
      intros [= Hlen]. destruct (String.eqb (id r) ruleId); [discriminate|].
      apply IH. exact Hlen.
Qed.

Lemma disabling_a_rule_takes_its_object_out_of_the_check_witness :
  (firstWithId "no-such-rule" (rules Sample.fresh) = None
   /\ length (ruleIdentity Sample.fresh) = length (rules Sample.fresh)
   /\ NoDup (ruleIdentity Sample.fresh))
  /\ RuleEngine.disableRule "no-such-rule" Sample.fresh = (Ok tt, Sample.fresh)
  /\ withoutFound "review-required" Sample.fresh
     = removeFirst "review-required" (rules Sample.fresh)
  /\ (exists st1 : State,
         RuleEngine.disableRule "freeze" Cases.addedTwice = (Ok tt, st1)
         /\ ruleIdentity Cases.addedTwice = [0; 0]%nat
         /\ map enabled (rules Cases.addedTwice) = [true; true]
         /\ map enabled (rules st1) = [false; false]
         /\ withoutFound "freeze" Cases.addedTwice = []).
Proof.
  assert (NoDup (ruleIdentity Sample.fresh)) as Hnd by exact (NoDup_seq 0 5).
  split; [split; [reflexivity | split; [reflexivity | exact Hnd]]|].
  split; [|split].
  - destruct (disabling_a_rule_takes_its_object_out_of_the_check "no-such-rule"
                Sample.fresh) as (st1 & E & _ & _ & _ & _ & _ & H & _).
    rewrite E. rewrite (H eq_refl). reflexivity.
  - destruct (disabling_a_rule_takes_its_object_out_of_the_check "review-required"
                Sample.fresh) as (st1 & _ & _ & _ & _ & _ & _ & _ & H).
    apply (H eq_refl Hnd).
  - eexists. split; [reflexivity|]. repeat split.
Defined.

Lemma filter_all {A} (f : A -> bool) (l : list A) :
  forallb f l = true -> List.filter f l = l.
Proof.
  induction l as [|x l IH]; simpl; [reflexivity|].
  intros H. apply andb_prop in H as [Hx Hl]. rewrite Hx, (IH Hl). reflexivity.
Qed.

(** X7. [addCustomRule] takes any rule, also one whose identifier is in
    use, and also an object the list holds already.  Removing the
    identifier of the added rule afterwards removes every rule that has
    it: the list is the earlier one without the rules of that
    identifier, and it is the earlier one itself exactly when the
    identifier was not in use.  Files and ledger stay as they were. *)
Theorem adding_then_removing_a_rule :
  forall (o : nat) (rule : AIRule) (st : State),
  exists st1 st2 : State,
    RuleEngine.addCustomRule o rule st = (Ok tt, st1)
    /\ rules st1 = rules st ++ [rule]
    /\ ruleIdentity st1 = ruleIdentity st ++ [o]
    /\ RuleEngine.removeRule (id rule) st1 = (Ok tt, st2)
    /\ rules st2
       = List.filter (fun r => negb (String.eqb (id r) (id rule))) (rules st)
    /\ (freshId (id rule) (rules st) = true -> rules st2 = rules st)
    /\ files st2 = files st /\ memoryDir st2 = memoryDir st.
Proof.
  intros o rule st.
  exists (snd (RuleEngine.addCustomRule o rule st)),
    (snd (RuleEngine.removeRule (id rule) (snd (RuleEngine.addCustomRule o rule st)))).
  assert (rules
            (snd (RuleEngine.removeRule (id rule)
                    (snd (RuleEngine.addCustomRule o rule st))))
          = List.filter (fun r => negb (String.eqb (id r) (id rule))) (rules st))
    as H.
  { simpl. rewrite List.filter_app. simpl. rewrite String.eqb_refl. simpl.
    apply app_nil_r. }
  split; [reflexivity|]. split; [reflexivity|]. split; [reflexivity|].
  split; [reflexivity|].
  split; [exact H|]. split; [|split; reflexivity].
  intros Hfresh. rewrite H. apply filter_all. exact Hfresh.
Qed.

Lemma adding_then_removing_a_rule_witness :
  freshId (id Cases.freezeRule) (rules Sample.fresh) = true
  /\ exists st1 st2 : State,
       RuleEngine.addCustomRule 5 Cases.freezeRule Sample.fresh = (Ok tt, st1)
       /\ RuleEngine.removeRule "freeze" st1 = (Ok tt, st2)
       /\ rules st2 = RuleEngine.getDefaultRules.
Proof.
  split; [reflexivity|].
  destruct (adding_then_removing_a_rule 5 Cases.freezeRule Sample.fresh)
    as (st1 & st2 & E1 & _ & _ & E2 & _ & H & _).
  exists st1, st2. split; [exact E1|]. split; [exact E2|].
  rewrite (H eq_refl). reflexivity.
Defined.

Lemma assignEnabled_again (o : nat) (a b : bool) (rs : list AIRule) (os : list nat) :
  RuleEngine.assignEnabled o b (RuleEngine.assignEnabled o a rs os) os
  = RuleEngine.assignEnabled o b rs os.
Proof.
  revert os. induction rs as [|r rs IH]; intros [|o' os]; simpl; try reflexivity.
  rewrite IH. destruct (Nat.eqb o' o); reflexivity.
Qed.

Lemma assignEnabled_enabled (o : nat) (rs : list AIRule) (os : list nat) :
  (forall (i : nat) (r : AIRule),
      os !! i = Some o -> rs !! i = Some r -> enabled r = true) ->
  RuleEngine.assignEnabled o true rs os = rs.
Proof.
  revert os. induction rs as [|r rs IH]; intros [|o' os] H; simpl; try reflexivity.
  f_equal.
  - destruct (Nat.eqb_spec o' o) as [->|]; [|reflexivity].
    pose proof (H 0%nat r eq_refl eq_refl) as Hen.
    destruct r as [i n c a p e]. simpl in Hen. subst e. reflexivity.
  - apply IH. intros i x Ho Hx. apply (H (S i) x Ho Hx).
Qed.

Lemma findObject_place (ruleId : string) (rs : list AIRule) (os : list nat)
  (r : AIRule) :
  length os = length rs ->
  firstWithId ruleId rs = Some r ->
  exists (i o : nat),
    RuleEngine.findObject ruleId rs os = Some o
    /\ os !! i = Some o /\ rs !! i = Some r.
Proof.
  unfold firstWithId. revert os.
  induction rs as [|x rs IH]; intros [|o' os]; simpl; try discriminate.
  intros [= Hlen]. destruct (String.eqb (id x) ruleId).
  - intros [= <-]. exists 0%nat, o'. repeat split.
  - intros H. destruct (IH os Hlen H) as (i & o & F & Ho & Hr).
    exists (S i), o. repeat split; assumption.
Qed.

(** X8. [enableRule] after [disableRule] with the same identifier
    leaves the object found enabled and every other rule as it was; in
    a list whose places with one object show one rule, the rule list
    is the earlier one when the first rule of the identifier was
    enabled before.  Neither call changes the identifiers, their
    order, the objects, the files or the ledger. *)
Theorem disabling_then_enabling_a_rule :
  forall (ruleId : string) (st : State),
    coherent st ->
    exists st1 st2 : State,
      RuleEngine.disableRule ruleId st = (Ok tt, st1)
      /\ RuleEngine.enableRule ruleId st1 = (Ok tt, st2)
      /\ rules st2
         = match RuleEngine.findObject ruleId (rules st) (ruleIdentity st) with
           | Some o => RuleEngine.assignEnabled o true (rules st) (ruleIdentity st)
           | None => rules st
           end
      /\ map id (rules st2) = map id (rules st)
      /\ ruleIdentity st2 = ruleIdentity st
      /\ files st2 = files st /\ memoryDir st2 = memoryDir st
      /\ (forall r : AIRule,
          firstWithId ruleId (rules st) = Some r -> enabled r = true ->
          rules st2 = rules st).
Proof.
  intros ruleId st [Hlen Hsame].
  assert (exists st1 st2,
             RuleEngine.disableRule ruleId st = (Ok tt, st1)
             /\ RuleEngine.enableRule ruleId st1 = (Ok tt, st2)
             /\ rules st2
                = match RuleEngine.findObject ruleId (rules st) (ruleIdentity st) with
                  | Some o =>
                      RuleEngine.assignEnabled o true (rules st) (ruleIdentity st)
                  | None => rules st
                  end
             /\ ruleIdentity st2 = ruleIdentity st
             /\ files st2 = files st /\ memoryDir st2 = memoryDir st)
    as (st1 & st2 & E1 & E2 & R & O & F & M).
  { unfold RuleEngine.disableRule, RuleEngine.enableRule, bind, gets.
    destruct (RuleEngine.findObject ruleId (rules st) (ruleIdentity st))
      as [o|] eqn:E.
    - eexists _, _. split; [reflexivity|]. simpl.
      rewrite (findObject_by_ids ruleId (rules st) _ (ruleIdentity st)
                 (assignEnabled_ids o false _ _)), E.
      split; [reflexivity|]. simpl. rewrite assignEnabled_again. auto.
    - exists st, st. split; [reflexivity|]. rewrite E. auto. }
  exists st1, st2. split; [exact E1|]. split; [exact E2|]. split; [exact R|].
  split; [|split; [exact O | split; [exact F | split; [exact M|]]]].
  - rewrite R.
    destruct (RuleEngine.findObject ruleId (rules st) (ruleIdentity st));
      [apply assignEnabled_ids | reflexivity].
  - intros r Hr Hen. rewrite R.
    destruct (findObject_place ruleId _ _ r Hlen Hr) as (i & o & Ef & Ho & Hi).
    rewrite Ef. apply assignEnabled_enabled.
    intros j x Hj Hx. rewrite (Hsame j i o x r Hj Ho Hx Hi). exact Hen.
Qed.

Lemma coherent_addedTwice : coherent Cases.addedTwice.
Proof.
  split; [reflexivity|].
  intros [|[|i]] [|[|j]] o r r' Hi Hj Ri Rj; simpl in *;
    first [congruence | destruct i; discriminate | destruct j; discriminate].
Qed.

Lemma disabling_then_enabling_a_rule_witness :
  (coherent Cases.addedTwice
   /\ exists r : AIRule,
        firstWithId "freeze" (rules Cases.addedTwice) = Some r /\ enabled r = true)
  /\ exists st1 st2 : State,
       RuleEngine.disableRule "freeze" Cases.addedTwice = (Ok tt, st1)
       /\ map enabled (rules st1) = [false; false]
       /\ RuleEngine.enableRule "freeze" st1 = (Ok tt, st2)
       /\ rules st2 = rules Cases.addedTwice.
Proof.
  split; [split; [exact coherent_addedTwice | eexists; split; reflexivity]|].
  destruct (disabling_then_enabling_a_rule "freeze" Cases.addedTwice
              coherent_addedTwice)
    as (st1 & st2 & E1 & E2 & _ & _ & _ & _ & _ & H).
  exists st1, st2. split; [exact E1|].
  split; [injection E1 as <-; reflexivity|].
  split; [exact E2|].
  apply (H _ eq_refl eq_refl).
Defined.

(** ** The actions after a modification *)

Lemma isHighRisk_iff (m : AIMetadata) :
  RuleEngine.isHighRisk m = true <-> breakingChangesRisk m = Some "high".
Proof.
  unfold RuleEngine.isHighRisk. destruct (breakingChangesRisk m) as [s|]; simpl.
  - rewrite String.eqb_eq. split; congruence.
  - split; discriminate.
Qed.

(** [run_tests] is asked for exactly when the metadata lists a test. *)
Lemma run_tests_asked (filePath : string) (metadata : option AIMetadata) :
  In "run_tests" (RuleEngine.getActionsAfterModification filePath metadata)
  <-> exists m t ts, metadata = Some m /\ tests m = Some (t :: ts).
Proof.
  unfold RuleEngine.getActionsAfterModification.
  destruct metadata as [m|].
  - destruct (RuleEngine.isHighRisk m);
      destruct (tests m) as [[|t ts]|] eqn:T; simpl; split;
      try (intros (x & y & z & [= <-] & Hx); rewrite T in Hx; discriminate);
      try (intros _; exists m, t, ts; split; [reflexivity | exact T]);
      try (intros _; tauto);
      try (intros H; repeat (destruct H as [H|H]; try discriminate); destruct H).
  - split; [|intros (x & y & z & Hx & _); discriminate].
    intros H; repeat (destruct H as [H|H]; try discriminate); destruct H.
Qed.

(** X9. [getActionsAfterModification] always starts with the three
    actions [invalidate_approvals], [update_last_modified] and
    [add_to_changelog], and gives exactly these when there is no
    metadata.  It adds [require_immediate_review] exactly for metadata
    whose risk is [high], and [run_tests] exactly for metadata that
    lists at least one test. *)
Theorem actions_after_modification :
  forall (filePath : string) (metadata : option AIMetadata),
    RuleEngine.getActionsAfterModification filePath None = baseActions
    /\ (exists more : list string,
           RuleEngine.getActionsAfterModification filePath metadata
           = baseActions ++ more)
    /\ (In "require_immediate_review"
          (RuleEngine.getActionsAfterModification filePath metadata)
        <-> exists m, metadata = Some m /\ breakingChangesRisk m = Some "high")
    /\ (In "run_tests" (RuleEngine.getActionsAfterModification filePath metadata)
        <-> exists m t ts, metadata = Some m /\ tests m = Some (t :: ts)).
Proof.
  intros filePath metadata. split; [reflexivity|].
  unfold RuleEngine.getActionsAfterModification, baseActions.
  destruct metadata as [m|].
  - pose proof (isHighRisk_iff m) as Hh.
    destruct (RuleEngine.isHighRisk m) eqn:R;
      destruct (tests m) as [[|t ts]|] eqn:T; simpl;
      (split; [eexists; reflexivity|]); split; split;
      try (intros (x & [= <-] & Hx); rewrite T in Hx; discriminate);
      try (intros (x & y & z & [= <-] & Hx); rewrite T in Hx; discriminate);
      try (intros _; exists m; split; [reflexivity | apply Hh; reflexivity]);
      try (intros _; exists m, t, ts; split; [reflexivity | exact T]);
      try (intros _; tauto);
      try (intros (x & [= <-] & Hx); apply Hh in Hx; discriminate);
      try (intros H; repeat (destruct H as [H|H]; try discriminate); destruct H).
  - split; [exists []; reflexivity|]. split; split;
      try (intros (x & Hx & _); discriminate);
      try (intros (x & y & z & Hx & _); discriminate);
      intros H; repeat (destruct H as [H|H]; try discriminate); destruct H.
Qed.

Lemma splitComma_not_nil (s : string) : splitComma s <> [].
Proof.
  induction s as [|c s IH]; simpl; [discriminate|].
  destruct (Ascii.eqb c ","%char); [discriminate|].
  destruct (splitComma s); [congruence | discriminate].
Qed.

Lemma parseField_keeps {T} (get : AIMetadata -> T) (content field : string)
  (setter : string -> AIMetadata -> AIMetadata) (m : AIMetadata) :
  (forall v x, get (setter v x) = get x) ->
  get (MetadataParser.parseField content field setter m) = get m.
Proof.
  intros H. unfold MetadataParser.parseField.
  destruct (search (fieldValueRegex field) content); [apply H | reflexivity].
Qed.

Lemma parseArrayField_keeps {T} (get : AIMetadata -> T) (content field : string)
  (setter : list string -> AIMetadata -> AIMetadata) (m : AIMetadata) :
  (forall v x, get (setter v x) = get x) ->
  get (MetadataParser.parseArrayField content field setter m) = get m.
Proof.
  intros H. unfold MetadataParser.parseArrayField.
  destruct (search (arrayRegex field) content); [apply H | reflexivity].
Qed.

(** What the extraction returns for a text with a block: the record of
    the scalar and array fields, with the approvals and, when the
    object parses, the method permissions. *)
Lemma extractMetadataFromContent_shape (rt : Runtime) (content : string)
  (st st' : State) (metadata : AIMetadata) :
  MetadataParser.extractMetadataFromContent rt content st = (Ok (Some metadata), st') ->
  exists m : Match,
    search metadataRegex content = Some m
    /\ (metadata = fieldsWithoutMethodPermissions (matched m)
        \/ exists v, metadata
                     = MetadataParser.setApprovals
                         (MetadataParser.parseApprovals (matched m))
                         (MetadataParser.setMethodPermissions v
                            (MetadataParser.parseScalarsAndArrays (matched m)
                               MetadataParser.emptyMetadata))).
Proof.
  unfold MetadataParser.extractMetadataFromContent.
  destruct (search metadataRegex content) as [m|]; [|discriminate].
  intros H. exists m. split; [reflexivity|].
  unfold bind, MetadataParser.parseJsonField, tryCatch in H.
  destruct (search (jsonRegex "@method-permissions:") (matched m)) as [mp|].
  - destruct (JSON_parse rt _) as [v|]; simpl in H; injection H as <- _.
    + right. exists v. reflexivity.
    + left. reflexivity.
  - injection H as <- _. left. reflexivity.
Qed.

Lemma extracted_lists (metadataBlock : string) :
  let base := MetadataParser.parseScalarsAndArrays metadataBlock
                MetadataParser.emptyMetadata in
  tests base <> Some [] /\ dependencies base <> Some [].
Proof.
  unfold MetadataParser.parseScalarsAndArrays. cbv zeta. split.
  - unfold MetadataParser.parseArrayField at 1.
    destruct (search (arrayRegex "@tests:") metadataBlock) as [mt|].
    + destruct (MetadataParser.parseArrayField _ _ _ _). simpl.
      intros [= H]. apply map_eq_nil in H. exact (splitComma_not_nil _ H).
    + rewrite (parseArrayField_keeps tests) by (intros v []; reflexivity).
      repeat (rewrite (parseField_keeps tests) by (intros v []; reflexivity)).
      discriminate.
  - rewrite (parseArrayField_keeps dependencies) by (intros v []; reflexivity).
    unfold MetadataParser.parseArrayField at 1.
    destruct (search (arrayRegex "@dependencies:") metadataBlock) as [mt|].
    + destruct (MetadataParser.parseField _ _ _ _). simpl.
      intros [= H]. apply map_eq_nil in H. exact (splitComma_not_nil _ H).
    + repeat (rewrite (parseField_keeps dependencies) by (intros v []; reflexivity)).
      discriminate.
Qed.

(** X10. A list field the extraction reads is never empty: a bracket
    pair with nothing but blanks between gives the list of one empty
    item.  So for the metadata extracted from any text, [run_tests] is
    among the actions after a modification exactly when the block has a
    [@tests:] list at all. *)
Theorem extracted_test_list_asks_for_tests :
  forall (rt : Runtime) (content filePath : string) (st st' : State)
         (metadata : AIMetadata),
    MetadataParser.extractMetadataFromContent rt content st
    = (Ok (Some metadata), st') ->
    tests metadata <> Some []
    /\ dependencies metadata <> Some []
    /\ (In "run_tests"
          (RuleEngine.getActionsAfterModification filePath (Some metadata))
        <-> is_Some (tests metadata)).
Proof.
  intros rt content filePath st st' metadata H.
  destruct (extractMetadataFromContent_shape rt content st st' metadata H)
    as (m & _ & Hshape).
  destruct (extracted_lists (matched m)) as [Ht Hd].
  assert (tests metadata
          = tests (MetadataParser.parseScalarsAndArrays (matched m)
                     MetadataParser.emptyMetadata)
          /\ dependencies metadata
             = dependencies (MetadataParser.parseScalarsAndArrays (matched m)
                               MetadataParser.emptyMetadata)) as [Et Ed].
  { destruct Hshape as [->|(v & ->)]; unfold fieldsWithoutMethodPermissions;
      destruct (MetadataParser.parseScalarsAndArrays _ _); split; reflexivity. }
  rewrite Et, Ed. split; [exact Ht|]. split; [exact Hd|].
  pose proof (run_tests_asked filePath (Some metadata)) as Hrun.
  rewrite Hrun. split.
  - intros (x & t & ts & [= <-] & Hx). rewrite <- Et, Hx. eauto.
  - intros [l Hl]. destruct l as [|t ts]; [contradiction|].
    exists metadata, t, ts. split; [reflexivity|]. rewrite Et. exact Hl.
Qed.

Lemma extracted_test_list_asks_for_tests_witness :
  exists (metadata : AIMetadata) (st' : State),
    MetadataParser.extractMetadataFromContent Sample.rt Cases.selfApprovedFile
      Sample.fresh = (Ok (Some metadata), st')
    /\ tests metadata = Some [EmptyString]
    /\ In "run_tests"
         (RuleEngine.getActionsAfterModification "src/auth.ts" (Some metadata)).
Proof.
  destruct (MetadataParser.extractMetadataFromContent Sample.rt Cases.selfApprovedFile
              Sample.fresh) as [[[metadata|]|e] st'] eqn:E;
    try (vm_compute in E; discriminate).
  exists metadata, st'. split; [reflexivity|].
  destruct (extracted_test_list_asks_for_tests Sample.rt Cases.selfApprovedFile
              "src/auth.ts" Sample.fresh st' metadata E) as (_ & _ & Hrun).
  assert (tests metadata = Some [EmptyString]) as Ht
    by (vm_compute in E; injection E as <- _; reflexivity).
  split; [exact Ht|]. apply Hrun. rewrite Ht. eauto.
Defined.

(** ** The ledger: what the operations write *)

Lemma sameStore_sym (a b : State) : sameStore a b -> sameStore b a.
Proof. unfold sameStore. intros (?&?&?&?&?&?&?&?). repeat split; congruence. Qed.

(** The ledger after [setFileApproval] for a path with an ordinary key,
    for any key of the approval record. *)
Lemma setFileApproval_effect (rt : Runtime) (filePath : string)
  (approvalType : ApprovalKey) (approvedBy : string) (st : State) :
  ordinary (realm st) (relative rt filePath) = true ->
  exists st1 : State,
    MemoryManager.setFileApproval rt filePath approvalType approvedBy st = (Ok tt, st1)
    /\ currentMemory rt st1
       = MemoryManager.setApprovalStates
           (<[relative rt filePath :=
                MemoryManager.approve approvalType approvedBy (date st)
                  (default MetadataParser.emptyApprovals (entryOf rt st filePath))]>
              (approvalStates (currentMemory rt st)))
           (currentMemory rt st)
    /\ files st1 = files st /\ rules st1 = rules st /\ date st1 = date st
    /\ realm st1 = realm st.
Proof.
  intros Hord.
  destruct (setFileApproval_run rt filePath approvalType approvedBy st Hord)
    as (st1 & E & S).
  exists st1. split; [exact E|]. split.
  - rewrite (currentMemory_sameStore rt _ st1 S). apply currentMemory_withLedger.
  - destruct S as (F & _ & R & D & _ & _ & _ & Rm). simpl in *. auto.
Qed.

(** What [setFileApproval] leaves alone, whatever the key of the path
    gives in the ledger and whether the call returns or throws: the
    ledger document changes in its approval states at most, and no
    entry is taken out of them. *)
Lemma setFileApproval_frame (rt : Runtime) (filePath : string)
  (approvalType : ApprovalKey) (approvedBy : string) (st : State) :
  exists (outcome : Outcome unit) (st1 : State)
         (states : gmap string ApprovalStatus),
    MemoryManager.setFileApproval rt filePath approvalType approvedBy st
    = (outcome, st1)
    /\ currentMemory rt st1
       = MemoryManager.setApprovalStates states (currentMemory rt st)
    /\ (forall path : string,
        is_Some (approvalStates (currentMemory rt st) !! path) ->
        is_Some (states !! path))
    /\ files st1 = files st /\ rules st1 = rules st
    /\ ruleIdentity st1 = ruleIdentity st /\ date st1 = date st.
Proof.
  destruct (setFileApproval_exact rt filePath approvalType approvedBy st)
    as (outcome & st1 & E & H).
  cbv zeta in H.
  assert (forall a : ApprovalStatus,
             forall path : string,
               is_Some (approvalStates (currentMemory rt st) !! path) ->
               is_Some ((<[relative rt filePath := a]>
                           (approvalStates (currentMemory rt st))) !! path))
    as Hkept.
  { intros a path Hp.
    destruct (decide (relative rt filePath = path)) as [<-|Hne].
    - rewrite lookup_insert_eq. eauto.
    - rewrite lookup_insert_ne by exact Hne. exact Hp. }
  assert (forall S0 : State,
             sameStore S0 st1 ->
             files S0 = files st -> rules S0 = rules st ->
             ruleIdentity S0 = ruleIdentity st -> date S0 = date st ->
             files st1 = files st /\ rules st1 = rules st
             /\ ruleIdentity st1 = ruleIdentity st /\ date st1 = date st) as Hrest.
  { intros S0 (F & _ & R & D & _ & _ & O & _) HF HR HO HD.
    repeat split; congruence. }
  assert (forall a : ApprovalStatus,
             sameStore
               (withLedger
                  (MemoryManager.setApprovalStates
                     (<[relative rt filePath := a]>
                        (approvalStates (currentMemory rt st)))
                     (currentMemory rt st)) st) st1 ->
             exists states : gmap string ApprovalStatus,
               currentMemory rt st1
               = MemoryManager.setApprovalStates states (currentMemory rt st)
               /\ (forall path : string,
                   is_Some (approvalStates (currentMemory rt st) !! path) ->
                   is_Some (states !! path))
               /\ files st1 = files st /\ rules st1 = rules st
               /\ ruleIdentity st1 = ruleIdentity st /\ date st1 = date st)
    as Hwritten.
  { intros a S. eexists. split.
    - rewrite (currentMemory_sameStore rt _ st1 S). apply currentMemory_withLedger.
    - split; [apply (Hkept a)|]. apply (Hrest _ S); reflexivity. }
  assert (forall S0 : State,
             sameStore S0 st1 ->
             currentMemory rt S0 = currentMemory rt st ->
             files S0 = files st -> rules S0 = rules st ->
             ruleIdentity S0 = ruleIdentity st -> date S0 = date st ->
             exists states : gmap string ApprovalStatus,
               currentMemory rt st1
               = MemoryManager.setApprovalStates states (currentMemory rt st)
               /\ (forall path : string,
                   is_Some (approvalStates (currentMemory rt st) !! path) ->
                   is_Some (states !! path))
               /\ files st1 = files st /\ rules st1 = rules st
               /\ ruleIdentity st1 = ruleIdentity st /\ date st1 = date st)
    as Hkeeps.
  { intros S0 S HC HF HR HO HD.
    exists (approvalStates (currentMemory rt st)). split.
    - rewrite (currentMemory_sameStore rt _ st1 S), HC.
      symmetry. apply setApprovalStates_same.
    - split; [auto|]. apply (Hrest _ S); assumption. }
  exists outcome, st1.
  destruct (foundAt rt st filePath) as [[a|name|v]|].
  - destruct H as (_ & S). destruct (Hwritten _ S) as (states & Hs).
    exists states. split; [exact E | exact Hs].
  - destruct H as (_ & S).
    destruct (Hkeeps _ S) as (states & Hs); try reflexivity.
    + apply currentMemory_withLedger
        with (st := if MemoryManager.isSlotKey approvalType then _ else st).
    + destruct (MemoryManager.isSlotKey approvalType); reflexivity.
    + destruct (MemoryManager.isSlotKey approvalType); reflexivity.
    + destruct (MemoryManager.isSlotKey approvalType); reflexivity.
    + destruct (MemoryManager.isSlotKey approvalType); reflexivity.
    + exists states. split; [exact E | exact Hs].
  - destruct (truthy v).
    + destruct (MemoryManager.isSlotKey approvalType); destruct H as (_ & S).
      * destruct (Hkeeps _ S) as (states & Hs); try reflexivity.
        exists states. split; [exact E | exact Hs].
      * destruct (Hkeeps _ S) as (states & Hs); try reflexivity.
        -- apply currentMemory_withLedger.
        -- exists states. split; [exact E | exact Hs].
    + destruct H as (_ & S). destruct (Hwritten _ S) as (states & Hs).
      exists states. split; [exact E | exact Hs].
  - destruct H as (_ & S). destruct (Hwritten _ S) as (states & Hs).
    exists states. split; [exact E | exact Hs].
Qed.

(** The same for [invalidateFileApprovals]. *)
Lemma invalidateFileApprovals_frame (rt : Runtime) (filePath reason : string)
  (st : State) :
  exists (st1 : State) (states : gmap string ApprovalStatus),
    MemoryManager.invalidateFileApprovals rt filePath reason st = (Ok tt, st1)
    /\ currentMemory rt st1
       = MemoryManager.setApprovalStates states (currentMemory rt st)
    /\ (forall path : string,
        is_Some (approvalStates (currentMemory rt st) !! path) ->
        is_Some (states !! path))
    /\ files st1 = files st /\ rules st1 = rules st
    /\ ruleIdentity st1 = ruleIdentity st /\ realm st1 = realm st.
Proof.
  destruct (invalidateFileApprovals_exact rt filePath reason st) as (st1 & E & S).
  cbv zeta in S. exists st1.
  destruct (holds (foundAt rt st filePath)).
  - exists (MemoryManager.assignOwn (relative rt filePath) MemoryManager.invalidated
              (approvalStates (currentMemory rt st))).
    split; [exact E|]. split.
    { rewrite (currentMemory_sameStore rt _ st1 S). apply currentMemory_withLedger. }
    split.
    { intros path Hp. unfold MemoryManager.assignOwn.
      destruct (approvalStates (currentMemory rt st) !! relative rt filePath) eqn:L.
      - destruct (decide (relative rt filePath = path)) as [<-|Hne].
        + rewrite lookup_insert_eq. eauto.
        + rewrite lookup_insert_ne by exact Hne. exact Hp.
      - destruct (String.eqb (relative rt filePath) "__proto__"); [exact Hp|].
        destruct (decide (relative rt filePath = path)) as [<-|Hne].
        + rewrite lookup_insert_eq. eauto.
        + rewrite lookup_insert_ne by exact Hne. exact Hp. }
    destruct S as (F & _ & R & _ & _ & _ & O & Rm). simpl in *. auto.
  - exists (approvalStates (currentMemory rt st)).
    split; [exact E|]. split.
    { rewrite (currentMemory_sameStore rt _ st1 S).
      symmetry. apply setApprovalStates_same. }
    split; [auto|].
    destruct S as (F & _ & R & _ & _ & _ & O & Rm). auto.
Qed.

(** X11. [invalidateFileApprovals] does more than reset the flags: an
    entry of the path is replaced by the record of the three false
    flags alone, so the names of the approvers and the dates of the
    approvals are gone; a path without an entry whose key names no
    inherited member gets none, and the state stays as it was. *)
Theorem invalidation_erases_approvers_and_dates :
  forall (rt : Runtime) (filePath reason : string) (st : State),
  exists st1 : State,
    MemoryManager.invalidateFileApprovals rt filePath reason st = (Ok tt, st1)
    /\ (forall prior : ApprovalStatus,
        entryOf rt st filePath = Some prior ->
        fst (MemoryManager.getFileApprovalStatus rt filePath st)
        = Ok (Some (Own prior))
        /\ fst (MemoryManager.getFileApprovalStatus rt filePath st1)
           = Ok (Some (Own MemoryManager.invalidated))
        /\ forall s : Slot,
             slotApproved s MemoryManager.invalidated = Some false
             /\ slotBy s MemoryManager.invalidated = None
             /\ slotDate s MemoryManager.invalidated = None)
    /\ (entryOf rt st filePath = None ->
        ordinary (realm st) (relative rt filePath) = true ->
        fst (MemoryManager.getFileApprovalStatus rt filePath st) = Ok None
        /\ fst (MemoryManager.getFileApprovalStatus rt filePath st1) = Ok None
        /\ sameStore st st1).
Proof.
  intros rt filePath reason st.
  destruct (invalidateFileApprovals_exact rt filePath reason st) as (st1 & E & S).
  cbv zeta in S.
  destruct (getFileApprovalStatus_run rt filePath st) as (st0 & E0 & _).
  destruct (getFileApprovalStatus_run rt filePath st1) as (st2 & E2 & _).
  exists st1. split; [exact E|]. rewrite E0, E2. simpl. split.
  - intros prior Hp.
    rewrite (foundAt_own rt st filePath prior Hp) in S. simpl in S.
    split; [rewrite (statusOf_own rt st filePath prior Hp); reflexivity|].
    split; [|intros []; repeat split].
    f_equal. apply statusOf_own.
    rewrite (entryOf_sameStore rt _ st1 filePath S), entryOf_withLedger. simpl.
    unfold MemoryManager.assignOwn. unfold entryOf in Hp. rewrite Hp.
    apply lookup_insert_eq.
  - intros Hnone Hord.
    rewrite (foundAt_ordinary rt st filePath Hord), Hnone in S. simpl in S.
    rewrite (statusOf_ordinary rt st filePath Hord), Hnone.
    split; [reflexivity|]. split; [|exact S].
    f_equal.
    rewrite (statusOf_sameStore rt st st1 filePath S).
    rewrite (statusOf_ordinary rt st filePath Hord), Hnone. reflexivity.
Qed.

Lemma invalidation_erases_approvers_and_dates_witness :
  (entryOf Sample.rt Sample.approved "src/auth.ts" = Some Sample.approvedEntry
   /\ entryOf Sample.rt Sample.approved "src/plain.ts" = None
   /\ ordinary (realm Sample.approved) (relative Sample.rt "src/plain.ts") = true)
  /\ (exists st1 : State,
         MemoryManager.invalidateFileApprovals Sample.rt "src/auth.ts" "file modified"
           Sample.approved = (Ok tt, st1)
         /\ devApprovedBy Sample.approvedEntry = Some "alice"
         /\ fst (MemoryManager.getFileApprovalStatus Sample.rt "src/auth.ts" st1)
            = Ok (Some (Own MemoryManager.invalidated))
         /\ devApprovedBy MemoryManager.invalidated = None)
  /\ (exists st1 : State,
         MemoryManager.invalidateFileApprovals Sample.rt "src/plain.ts" "file modified"
           Sample.approved = (Ok tt, st1)
         /\ sameStore Sample.approved st1).
Proof.
  assert (entryOf Sample.rt Sample.approved "src/auth.ts" = Some Sample.approvedEntry)
    as H1 by (vm_compute; reflexivity).
  assert (entryOf Sample.rt Sample.approved "src/plain.ts" = None) as H2
    by (vm_compute; reflexivity).
  assert (ordinary (realm Sample.approved) (relative Sample.rt "src/plain.ts") = true)
    as H3 by reflexivity.
  split; [auto|]. split.
  - destruct (invalidation_erases_approvers_and_dates Sample.rt "src/auth.ts"
                "file modified" Sample.approved) as (st1 & E & Hown & _).
    destruct (Hown _ H1) as (_ & Hafter & Hgone).
    exists st1. split; [exact E|]. split; [reflexivity|].
    split; [exact Hafter|]. destruct (Hgone dev) as (_ & Hby & _). exact Hby.
  - destruct (invalidation_erases_approvers_and_dates Sample.rt "src/plain.ts"
                "file modified" Sample.approved) as (st1 & E & _ & Hnone).
    destruct (Hnone H2 H3) as (_ & _ & S).
    exists st1. split; [exact E | exact S].
Defined.

(** X12. Approvals add up.  For a path whose key names no inherited
    member: after [setFileApproval] for one slot and then for another
    slot of the same path, the entry has both slots approved, each with
    its approver; for the same slot twice, the second approver is the
    one recorded. *)
Theorem approvals_add_up :
  forall (rt : Runtime) (filePath by1 by2 : string) (s1 s2 : Slot) (st : State),
    ordinary (realm st) (relative rt filePath) = true ->
    exists (st1 st2 : State) (a : ApprovalStatus),
      MemoryManager.setFileApproval rt filePath (slotKey s1) by1 st = (Ok tt, st1)
      /\ MemoryManager.setFileApproval rt filePath (slotKey s2) by2 st1 = (Ok tt, st2)
      /\ fst (MemoryManager.getFileApprovalStatus rt filePath st2) = Ok (Some (Own a))
      /\ slotApproved s2 a = Some true
      /\ slotBy s2 a = Some by2
      /\ (s1 <> s2 -> slotApproved s1 a = Some true /\ slotBy s1 a = Some by1).
Proof.
  intros rt filePath by1 by2 s1 s2 st Hord.
  destruct (setFileApproval_effect rt filePath (slotKey s1) by1 st Hord)
    as (st1 & E1 & C1 & _ & _ & D1 & R1).
  assert (ordinary (realm st1) (relative rt filePath) = true) as Hord1
    by (rewrite R1; exact Hord).
  destruct (setFileApproval_effect rt filePath (slotKey s2) by2 st1 Hord1)
    as (st2 & E2 & C2 & _).
  destruct (getFileApprovalStatus_run rt filePath st2) as (st3 & E3 & _).
  set (a1 := MemoryManager.approve (slotKey s1) by1 (date st)
               (default MetadataParser.emptyApprovals (entryOf rt st filePath))) in *.
  assert (entryOf rt st1 filePath = Some a1) as H1.
  { unfold entryOf. rewrite C1. simpl. apply lookup_insert_eq. }
  rewrite H1 in C2. simpl in C2.
  set (a2 := MemoryManager.approve (slotKey s2) by2 (date st1) a1) in *.
  assert (entryOf rt st2 filePath = Some a2) as H2.
  { unfold entryOf. rewrite C2. simpl. apply lookup_insert_eq. }
  exists st1, st2, a2. split; [exact E1|]. split; [exact E2|].
  rewrite E3, (statusOf_own rt st2 filePath a2 H2). split; [reflexivity|].
  destruct (approve_slot s2 by2 (date st1) a1) as (Ha & Hb & _).
  split; [exact Ha|]. split; [exact Hb|].
  intros Hne.
  destruct (approve_other_slot s2 s1 by2 (date st1) a1 Hne) as (Ha' & Hb' & _).
  destruct (approve_slot s1 by1 (date st)
              (default MetadataParser.emptyApprovals (entryOf rt st filePath)))
    as (Ha1 & Hb1 & _).
  fold a1 in Ha1, Hb1. fold a2 in Ha', Hb'.
  split; congruence.
Qed.

Lemma approvals_add_up_witness :
  (ordinary (realm Sample.fresh) (relative Sample.rt "src/draft.ts") = true
   /\ dev <> codeReview)
  /\ exists (st1 st2 : State) (a : ApprovalStatus),
       MemoryManager.setFileApproval Sample.rt "src/draft.ts" KdevApproved "bob"
         Sample.fresh = (Ok tt, st1)
       /\ MemoryManager.setFileApproval Sample.rt "src/draft.ts" KcodeReviewApproved
            "eve" st1 = (Ok tt, st2)
       /\ fst (MemoryManager.getFileApprovalStatus Sample.rt "src/draft.ts" st2)
          = Ok (Some (Own a))
       /\ devApprovedBy a = Some "bob" /\ codeReviewApprovedBy a = Some "eve".
Proof.
  assert (ordinary (realm Sample.fresh) (relative Sample.rt "src/draft.ts") = true)
    as Hord by reflexivity.
  assert (dev <> codeReview) as Hne by discriminate.
  split; [auto|].
  destruct (approvals_add_up Sample.rt "src/draft.ts" "bob" "eve" dev codeReview
              Sample.fresh Hord) as (st1 & st2 & a & E1 & E2 & E3 & _ & Hb & H).
  exists st1, st2, a. split; [exact E1|]. split; [exact E2|]. split; [exact E3|].
  destruct (H Hne) as (_ & Hb1). split; [exact Hb1 | exact Hb].
Defined.

(** X13. [setFileApproval] accepts every key of an approval record.
    For a key that is not one of the three flags it approves nothing:
    on a path whose key names no inherited member, an entry of the path
    is written back as it was, and a path without an entry gets an
    empty one, so that it no longer reads as absent. *)
Theorem other_keys_approve_nothing :
  forall (rt : Runtime) (filePath approvedBy : string) (key : ApprovalKey)
         (st : State),
    (forall s : Slot, key <> slotKey s) ->
    ordinary (realm st) (relative rt filePath) = true ->
    exists (st1 : State) (prior : option ApprovalStatus),
      MemoryManager.setFileApproval rt filePath key approvedBy st = (Ok tt, st1)
      /\ fst (MemoryManager.getFileApprovalStatus rt filePath st)
         = Ok (option_map Own prior)
      /\ fst (MemoryManager.getFileApprovalStatus rt filePath st1)
         = Ok (Some (Own (default MetadataParser.emptyApprovals prior))).
Proof.
  intros rt filePath approvedBy key st Hkey Hord.
  destruct (setFileApproval_effect rt filePath key approvedBy st Hord)
    as (st1 & E & C & _).
  destruct (getFileApprovalStatus_run rt filePath st) as (st0 & E0 & _).
  destruct (getFileApprovalStatus_run rt filePath st1) as (st2 & E2 & _).
  exists st1, (entryOf rt st filePath). split; [exact E|].
  rewrite E0, E2. simpl.
  split; [rewrite (statusOf_ordinary rt st filePath Hord); reflexivity|].
  f_equal. apply statusOf_own.
  unfold entryOf at 1. rewrite C. simpl. rewrite lookup_insert_eq. f_equal.
  destruct key; try reflexivity.
  - exfalso. apply (Hkey dev). reflexivity.
  - exfalso. apply (Hkey codeReview). reflexivity.
  - exfalso. apply (Hkey qa). reflexivity.
Qed.

Lemma other_keys_approve_nothing_witness :
  ((forall s : Slot, KdevApprovedBy <> slotKey s)
   /\ ordinary (realm Sample.fresh) (relative Sample.rt "src/draft.ts") = true)
  /\ exists st1 : State,
       MemoryManager.setFileApproval Sample.rt "src/draft.ts" KdevApprovedBy "bob"
         Sample.fresh = (Ok tt, st1)
       /\ fst (MemoryManager.getFileApprovalStatus Sample.rt "src/draft.ts"
                 Sample.fresh) = Ok None
       /\ fst (MemoryManager.getFileApprovalStatus Sample.rt "src/draft.ts" st1)
          = Ok (Some (Own MetadataParser.emptyApprovals)).
Proof.
  assert (forall s : Slot, KdevApprovedBy <> slotKey s) as Hkey
    by (intros []; discriminate).
  assert (ordinary (realm Sample.fresh) (relative Sample.rt "src/draft.ts") = true)
    as Hord by reflexivity.
  split; [auto|].
  destruct (other_keys_approve_nothing Sample.rt "src/draft.ts" "bob" KdevApprovedBy
              Sample.fresh Hkey Hord) as (st1 & prior & E & Hp & Ha).
  exists st1. split; [exact E|].
  assert (prior = None) as ->.
  { assert (fst (MemoryManager.getFileApprovalStatus Sample.rt "src/draft.ts"
                   Sample.fresh) = Ok None) as H by (vm_compute; reflexivity).
    rewrite H in Hp. destruct prior; [discriminate | reflexivity]. }
  split; [exact Hp | exact Ha].
Defined.

(** ** Sessions and decisions *)

Lemma generateSessionId_run (st : State) :
  MemoryManager.generateSessionId st
  = (Ok ("session-" +:+ dateNow st +:+ "-" +:+ random st), st).
Proof. reflexivity. Qed.

Lemma startNewSession_effect (rt : Runtime) (task : string) (st : State) :
  exists st1 : State,
    SessionManager.startNewSession rt task st
    = (Ok ("session-" +:+ dateNow st +:+ "-" +:+ random st), st1)
    /\ currentMemory rt st1
       = SessionManager.setCurrentSession
           (mkSession ("session-" +:+ dateNow st +:+ "-" +:+ random st) task (date st)
              [] [] ∅ (Some []))
           (currentMemory rt st)
    /\ files st1 = files st /\ rules st1 = rules st /\ date st1 = date st.
Proof.
  unfold SessionManager.startNewSession, bind.
  destruct (getProjectMemory_run rt st) as (st0 & E & S). rewrite E.
  rewrite generateSessionId_run. unfold gets. simpl.
  destruct S as (F & Md & R & D & N & X & _). rewrite N, X, D.
  eexists. split; [reflexivity|]. simpl.
  split; [|rewrite F, R, D; auto].
  unfold currentMemory at 1. simpl. rewrite lookup_insert_eq. reflexivity.
Qed.

Lemma addSessionStep_effect (rt : Runtime) (step : string)
  (filesModified : list string) (description : option string) (st : State) :
  exists st1 : State,
    SessionManager.addSessionStep rt step filesModified description st = (Ok tt, st1)
    /\ currentMemory rt st1
       = SessionManager.setCurrentSession
           (SessionManager.setCompletedSteps
              (completedSteps (currentSession (currentMemory rt st))
               ++ [mkSessionStep step (date st) filesModified description (Some 0)])
              (currentSession (currentMemory rt st)))
           (currentMemory rt st)
    /\ files st1 = files st /\ rules st1 = rules st /\ date st1 = date st.
Proof.
  unfold SessionManager.addSessionStep, bind.
  destruct (getProjectMemory_run rt st) as (st0 & E & S). rewrite E.
  unfold gets. simpl.
  destruct S as (F & Md & R & D & N & X & _). rewrite D.
  eexists. split; [reflexivity|]. simpl.
  split; [|rewrite F, R, D; auto].
  unfold currentMemory at 1. simpl. rewrite lookup_insert_eq. reflexivity.
Qed.

Lemma addImportantDecision_effect (rt : Runtime) (jt : SessionManager.JsonText)
  (key : string) (value : Json) (reasoning : string) (st : State) :
  exists st1 : State,
    SessionManager.addImportantDecision rt jt key value reasoning st = (Ok tt, st1)
    /\ currentMemory rt st1
       = SessionManager.setGlobalDecisions
           (globalDecisions (currentMemory rt st)
            ++ [mkDecision (dateNow st +:+ "-" +:+ random st)
                  (key +:+ ": " +:+ SessionManager.stringify jt value) reasoning []
                  (date st) "system" []])
           (SessionManager.setCurrentSession
              (SessionManager.setImportantDecisions
                 (SessionManager.assignMember key value
                    (importantDecisions (currentSession (currentMemory rt st))))
                 (currentSession (currentMemory rt st)))
              (currentMemory rt st))
    /\ files st1 = files st /\ rules st1 = rules st /\ date st1 = date st.
Proof.
  unfold SessionManager.addImportantDecision, SessionManager.generateId, bind.
  destruct (getProjectMemory_run rt st) as (st0 & E & S). rewrite E.
  unfold gets. simpl.
  destruct S as (F & Md & R & D & N & X & _). rewrite D, N, X.
  eexists. split; [reflexivity|]. simpl.
  split; [|rewrite F, R, D; auto].
  unfold currentMemory at 1. simpl. rewrite lookup_insert_eq. reflexivity.
Qed.

Lemma entryOf_by_memory (rt : Runtime) (st st' : State) :
  approvalStates (currentMemory rt st') = approvalStates (currentMemory rt st) ->
  sameApprovals rt st st'.
Proof. intros H filePath. unfold entryOf. rewrite H. reflexivity. Qed.

(** X14. The session operations and the approval operations keep out
    of each other's way.  [startNewSession], [addSessionStep] and
    [addImportantDecision] leave the approval entry of every path as it
    reads; [setFileApproval] and [invalidateFileApprovals] leave the
    session, the decisions, the file history and the project context
    as they read, whether [setFileApproval] returns or throws; it
    returns for every path whose key names no inherited member.  None
    of the five changes a file or the rule list. *)
Theorem sessions_and_approvals_do_not_interfere :
  forall (rt : Runtime) (jt : SessionManager.JsonText) (st : State),
    (forall task : string,
     exists (sid : string) (st1 : State),
       SessionManager.startNewSession rt task st = (Ok sid, st1)
       /\ sameApprovals rt st st1 /\ files st1 = files st /\ rules st1 = rules st)
    /\ (forall (step : string) (filesModified : list string)
               (description : option string),
        exists st1 : State,
          SessionManager.addSessionStep rt step filesModified description st
          = (Ok tt, st1)
          /\ sameApprovals rt st st1 /\ files st1 = files st /\ rules st1 = rules st)
    /\ (forall (key : string) (value : Json) (reasoning : string),
        exists st1 : State,
          SessionManager.addImportantDecision rt jt key value reasoning st
          = (Ok tt, st1)
          /\ sameApprovals rt st st1 /\ files st1 = files st /\ rules st1 = rules st)
    /\ (forall (filePath approvedBy : string) (key : ApprovalKey),
        exists (outcome : Outcome unit) (st1 : State),
          MemoryManager.setFileApproval rt filePath key approvedBy st = (outcome, st1)
          /\ (ordinary (realm st) (relative rt filePath) = true -> outcome = Ok tt)
          /\ currentSession (currentMemory rt st1) = currentSession (currentMemory rt st)
          /\ globalDecisions (currentMemory rt st1)
             = globalDecisions (currentMemory rt st)
          /\ fileHistory (currentMemory rt st1) = fileHistory (currentMemory rt st)
          /\ projectContext (currentMemory rt st1)
             = projectContext (currentMemory rt st)
          /\ files st1 = files st /\ rules st1 = rules st)
    /\ (forall filePath reason : string,
        exists st1 : State,
          MemoryManager.invalidateFileApprovals rt filePath reason st = (Ok tt, st1)
          /\ currentSession (currentMemory rt st1) = currentSession (currentMemory rt st)
          /\ globalDecisions (currentMemory rt st1)
             = globalDecisions (currentMemory rt st)
          /\ fileHistory (currentMemory rt st1) = fileHistory (currentMemory rt st)
          /\ projectContext (currentMemory rt st1)
             = projectContext (currentMemory rt st)
          /\ files st1 = files st /\ rules st1 = rules st).
Proof.
  intros rt jt st. split; [|split; [|split; [|split]]].
  - intros task.
    destruct (startNewSession_effect rt task st) as (st1 & E & C & F & R & _).
    eexists _, st1. split; [exact E|]. split; [|auto].
    apply entryOf_by_memory. rewrite C. reflexivity.
  - intros step filesModified description.
    destruct (addSessionStep_effect rt step filesModified description st)
      as (st1 & E & C & F & R & _).
    exists st1. split; [exact E|]. split; [|auto].
    apply entryOf_by_memory. rewrite C. reflexivity.
  - intros key value reasoning.
    destruct (addImportantDecision_effect rt jt key value reasoning st)
      as (st1 & E & C & F & R & _).
    exists st1. split; [exact E|]. split; [|auto].
    apply entryOf_by_memory. rewrite C. reflexivity.
  - intros filePath approvedBy key.
    destruct (setFileApproval_frame rt filePath key approvedBy st)
      as (outcome & st1 & states & E & C & _ & F & R & _).
    exists outcome, st1. split; [exact E|]. split.
    + intros Hord.
      destruct (setFileApproval_run rt filePath key approvedBy st Hord)
        as (st' & E' & _).
      congruence.
    + rewrite C. simpl. auto 10.
  - intros filePath reason.
    destruct (invalidateFileApprovals_frame rt filePath reason st)
      as (st1 & states & E & C & _ & F & R & _).
    exists st1. split; [exact E|]. rewrite C. simpl. auto 10.
Qed.

Lemma sessions_and_approvals_do_not_interfere_witness :
  ordinary (realm Sample.approved) (relative Sample.rt "src/auth.ts") = true
  /\ exists st1 : State,
       MemoryManager.setFileApproval Sample.rt "src/auth.ts" KqaApproved "carol"
         Sample.approved = (Ok tt, st1)
       /\ currentSession (currentMemory Sample.rt st1)
          = currentSession (currentMemory Sample.rt Sample.approved).
Proof.
  split; [reflexivity|].
  destruct (sessions_and_approvals_do_not_interfere Sample.rt
              (SessionManager.mkJsonText (fun _ => "null") (fun _ => "null"))
              Sample.approved) as (_ & _ & _ & Hset & _).
  destruct (Hset "src/auth.ts" "carol" KqaApproved)
    as (outcome & st1 & E & Hok & Hs & _).
  rewrite (Hok eq_refl) in E. exists st1. split; [exact E | exact Hs].
Defined.

(** X15. A session is one list of steps: after [startNewSession] the
    ledger holds a session with the returned identifier, the task and
    no step, whatever steps the session before had, and
    [addSessionStep] then puts its step, with the files and the time of
    the call, last in that list. *)
Theorem steps_follow_the_session_start :
  forall (rt : Runtime) (task step : string) (filesModified : list string)
         (description : option string) (st : State),
  exists (sid : string) (st1 st2 st3 : State) (memory : ProjectMemory),
    SessionManager.startNewSession rt task st = (Ok sid, st1)
    /\ completedSteps (currentSession (currentMemory rt st1)) = []
    /\ SessionManager.addSessionStep rt step filesModified description st1
       = (Ok tt, st2)
    /\ MemoryManager.getProjectMemory rt st2 = (Ok memory, st3)
    /\ sessionId (currentSession memory) = sid
    /\ Types.task (currentSession memory) = task
    /\ completedSteps (currentSession memory)
       = [mkSessionStep step (date st1) filesModified description (Some 0)]
    /\ approvalStates memory = approvalStates (currentMemory rt st).
Proof.
  intros rt task step filesModified description st.
  destruct (startNewSession_effect rt task st) as (st1 & E1 & C1 & _ & _ & D1).
  destruct (addSessionStep_effect rt step filesModified description st1)
    as (st2 & E2 & C2 & _).
  destruct (getProjectMemory_run rt st2) as (st3 & E3 & _).
  eexists _, st1, st2, st3, _. split; [exact E1|].
  split; [rewrite C1; reflexivity|]. split; [exact E2|]. split; [exact E3|].
  rewrite C2, C1, D1. simpl. auto.
Qed.

Lemma statusOf_own_inv (rt : Runtime) (st : State) (path : string)
  (a : ApprovalStatus) :
  statusOf rt st path = Some (Own a) -> entryOf rt st path = Some a.
Proof.
  unfold statusOf, foundAt, member.
  destruct (entryOf rt st path) as [x|].
  - simpl. intros [= ->]. reflexivity.
  - destruct (isIntrinsic (relative rt path)); simpl; [discriminate|].
    destruct (ownMember _ _) as [|b|s]; simpl; try discriminate.
    + destruct b; discriminate.
    + destruct (negb _); discriminate.
Qed.

(** X16. An entry of the ledger is never taken away: once a path has
    one, it still has one after [setFileApproval], whether that call
    returns or throws, and after [invalidateFileApprovals], for
    whatever path and key they are called.  [setFileApproval] returns
    for every path whose key names no inherited member. *)
Theorem ledger_entries_are_never_removed :
  forall (rt : Runtime) (path : string) (a : ApprovalStatus) (st : State),
    fst (MemoryManager.getFileApprovalStatus rt path st) = Ok (Some (Own a)) ->
    (forall (filePath approvedBy : string) (key : ApprovalKey),
     exists (outcome : Outcome unit) (st1 : State) (a' : ApprovalStatus),
       MemoryManager.setFileApproval rt filePath key approvedBy st = (outcome, st1)
       /\ (ordinary (realm st) (relative rt filePath) = true -> outcome = Ok tt)
       /\ fst (MemoryManager.getFileApprovalStatus rt path st1) = Ok (Some (Own a')))
    /\ (forall filePath reason : string,
        exists (st1 : State) (a' : ApprovalStatus),
          MemoryManager.invalidateFileApprovals rt filePath reason st = (Ok tt, st1)
          /\ fst (MemoryManager.getFileApprovalStatus rt path st1)
             = Ok (Some (Own a'))).
Proof.
  intros rt path a st Ha.
  destruct (getFileApprovalStatus_run rt path st) as (st0 & E0 & _).
  rewrite E0 in Ha. simpl in Ha. injection Ha as Ha.
  apply statusOf_own_inv in Ha.
  split.
  - intros filePath approvedBy key.
    destruct (setFileApproval_frame rt filePath key approvedBy st)
      as (outcome & st1 & states & E & C & Hkept & _).
    destruct (getFileApprovalStatus_run rt path st1) as (st2 & E2 & _).
    assert (is_Some (entryOf rt st1 path)) as [a' Ha'].
    { unfold entryOf at 1. rewrite C. simpl. apply Hkept.
      unfold entryOf in Ha. rewrite Ha. eauto. }
    exists outcome, st1, a'. split; [exact E|]. split.
    + intros Hord.
      destruct (setFileApproval_run rt filePath key approvedBy st Hord)
        as (st' & E' & _).
      congruence.
    + rewrite E2, (statusOf_own rt st1 path a' Ha'). reflexivity.
  - intros filePath reason.
    destruct (invalidateFileApprovals_frame rt filePath reason st)
      as (st1 & states & E & C & Hkept & _).
    destruct (getFileApprovalStatus_run rt path st1) as (st2 & E2 & _).
    assert (is_Some (entryOf rt st1 path)) as [a' Ha'].
    { unfold entryOf at 1. rewrite C. simpl. apply Hkept.
      unfold entryOf in Ha. rewrite Ha. eauto. }
    exists st1, a'. split; [exact E|].
    rewrite E2, (statusOf_own rt st1 path a' Ha'). reflexivity.
Qed.

Lemma ledger_entries_are_never_removed_witness :
  fst (MemoryManager.getFileApprovalStatus Sample.rt "src/auth.ts" Sample.approved)
  = Ok (Some (Own Sample.approvedEntry))
  /\ exists (st1 : State) (a' : ApprovalStatus),
       MemoryManager.invalidateFileApprovals Sample.rt "src/auth.ts" "file modified"
         Sample.approved = (Ok tt, st1)
       /\ fst (MemoryManager.getFileApprovalStatus Sample.rt "src/auth.ts" st1)
          = Ok (Some (Own a')).
Proof.
  assert (fst (MemoryManager.getFileApprovalStatus Sample.rt "src/auth.ts"
                 Sample.approved) = Ok (Some (Own Sample.approvedEntry))) as H
    by (vm_compute; reflexivity).
  split; [exact H|].
  destruct (ledger_entries_are_never_removed Sample.rt "src/auth.ts"
              Sample.approvedEntry Sample.approved H) as (_ & Hinv).
  exact (Hinv "src/auth.ts" "file modified").
Defined.

(** ** Updating the metadata of a file *)



(** An occurrence of a literal is found. *)
Lemma search_lit_found (p a r : string) :
  exists m : Match, search (lit p) (a +:+ p +:+ r) = Some m.
Proof.
  induction a as [|c a IH].
  - change (EmptyString +:+ p +:+ r) with (p +:+ r).
    rewrite (search_head (lit p) (p +:+ r) p r None)
      by (unfold lit; rewrite startsWith_append; reflexivity).
    eauto.
  - change (String c a +:+ p +:+ r) with (String c (a +:+ p +:+ r)).
    simpl. destruct (lit p (String c (a +:+ p +:+ r))) as [[[x g] y]|]; [eauto|].
    destruct IH as (m & ->). simpl. eauto.
Qed.

Lemma lazyUpTo_found (p a r : string) :
  exists x y, lazyUpTo p (a +:+ p +:+ r) = Some (x, y).
Proof.
  unfold lazyUpTo. destruct (search_lit_found p a r) as (m & ->). eauto.
Qed.

(** The block of [generateMetadataBlock]: the opening, the marker, and
    a closing somewhere after it. *)
Lemma generateMetadataBlock_shape (now : string) (updates : MetadataParser.Updates) :
  exists body : string,
    MetadataParser.generateMetadataBlock now updates
    = "/**" +:+ (chr LF +:+ " * ") +:+ "@ai-metadata" +:+ body +:+ "*/".
Proof.
  unfold MetadataParser.generateMetadataBlock. cbv zeta.
  match goal with
  | |- exists body, (((((((((?b0 +:+ ?o1) +:+ ?o2) +:+ ?o3) +:+ ?o4) +:+ ?o5)
                         +:+ ?o6) +:+ ?o7) +:+ ?o8) +:+ ?o9) +:+ _ = _ =>
      exists (chr LF +:+ o1 +:+ o2 +:+ o3 +:+ o4 +:+ o5 +:+ o6 +:+ o7 +:+ o8
              +:+ o9 +:+ " ")
  end.
  rewrite !append_assoc. reflexivity.
Qed.

(** X18. For a text without a metadata block, whatever the updates and
    the time stamp, [updateMetadataInContent] gives a text that has a
    block at its very start and the text itself after it; the
    extraction from the updated text therefore returns a record. *)
Theorem update_gives_a_text_without_block_a_block :
  forall (rt : Runtime) (r : Realm) (now content : string)
         (updates : MetadataParser.Updates) (st : State),
    search metadataRegex content = None ->
    exists (updated : string) (m : Match) (metadata : AIMetadata) (st' : State),
      MetadataParser.updateMetadataInContent r now content updates = Ok updated
      /\ search metadataRegex updated = Some m
      /\ before m = EmptyString
      /\ updated
         = MetadataParser.generateMetadataBlock now updates +:+ chr LF +:+ content
      /\ MetadataParser.extractMetadataFromContent rt updated st
         = (Ok (Some metadata), st').
Proof.
  intros rt r now content updates st Hno.
  set (updated := MetadataParser.generateMetadataBlock now updates
                  +:+ chr LF +:+ content).
  assert (MetadataParser.updateMetadataInContent r now content updates = Ok updated)
    as Hupd by (unfold MetadataParser.updateMetadataInContent; rewrite Hno; reflexivity).
  destruct (generateMetadataBlock_shape now updates) as (body & Hshape).
  assert (exists x g y, metadataRegex updated = Some (x, g, y))
    as (x & g & y & Hre).
  { subst updated. rewrite Hshape. unfold metadataRegex.
    rewrite !append_assoc. rewrite startsWith_append.
    rewrite <- (append_assoc (chr LF) " * ").
    rewrite lazyUpTo_first by (vm_compute; reflexivity).
    destruct (lazyUpTo_found "*/" body (chr LF +:+ content)) as (u & v & ->).
    eauto. }
  pose proof (search_head _ _ _ _ _ Hre) as Hs.
  destruct (extractMetadataFromContent_run rt updated st) as (o & st' & E & _).
  assert (exists metadata, o = Some metadata) as (metadata & ->).
  { unfold MetadataParser.extractMetadataFromContent in E. rewrite Hs in E.
    unfold bind in E.
    destruct (MetadataParser.parseJsonField _ _ _ _ _ _) as [[t|e] s1];
      [|discriminate].
    injection E as <- _. eauto. }
  exists updated. eexists _, metadata, st'. split; [exact Hupd|].
  split; [exact Hs|]. split; [reflexivity|].
  split; [reflexivity | exact E].
Qed.

Lemma update_gives_a_text_without_block_a_block_witness :
  search metadataRegex Sample.plainFile = None
  /\ exists (updated : string) (metadata : AIMetadata) (st' : State),
       MetadataParser.updateMetadataInContent (realm Sample.fresh) "$& */ now"
         Sample.plainFile
         [("editPermissions", VStr "read-only"); ("constructor", VBool false)]
       = Ok updated
       /\ MetadataParser.extractMetadataFromContent Sample.rt updated Sample.fresh
          = (Ok (Some metadata), st').
Proof.
  assert (search metadataRegex Sample.plainFile = None) as H
    by (vm_compute; reflexivity).
  split; [exact H|].
  destruct (update_gives_a_text_without_block_a_block Sample.rt (realm Sample.fresh)
              "$& */ now" Sample.plainFile
              [("editPermissions", VStr "read-only"); ("constructor", VBool false)]
              Sample.fresh H) as (updated & m & metadata & st' & U & _ & _ & _ & E).
  exists updated, metadata, st'. split; [exact U | exact E].
Defined.

Lemma unmapped_not_lastUpdate (r : Realm) (u : MetadataParser.Updates) (v : Value) :
  unmapped r u = true ->
  MetadataParser.assignKey "lastUpdate" v u = u ++ [("lastUpdate", v)].
Proof.
  induction u as [|[k x] u IH]; simpl; [reflexivity|].
  intros H. apply andb_prop in H as [Hk Hu].
  destruct (String.eqb k "lastUpdate") eqn:K.
  - apply String.eqb_eq in K. subst k. vm_compute in Hk. discriminate.
  - rewrite (IH Hu). reflexivity.
Qed.

Lemma unmapped_fields (r : Realm) (u rest : MetadataParser.Updates)
  (metadataBlock : string) :
  unmapped r u = true ->
  MetadataParser.updateFields r (u ++ rest) metadataBlock
  = MetadataParser.updateFields r rest metadataBlock.
Proof.
  induction u as [|[k x] u IH]; simpl; [reflexivity|].
  intros H. apply andb_prop in H as [Hk Hu].
  unfold MetadataParser.updateMetadataField at 1.
  destruct (member r (MetadataParser.fieldMap k) k) as [[field|name|[|b|t]]|];
    simpl in Hk; try discriminate.
  - rewrite Hk. apply IH. exact Hu.
  - apply IH. exact Hu.
  - destruct b; [discriminate|]. apply IH. exact Hu.
  - destruct (String.eqb t EmptyString); [|discriminate]. apply IH. exact Hu.
  - apply IH. exact Hu.
Qed.

(** X19. In a text that has a block, [updateMetadataInContent] writes
    only for the keys at which its table gives a true value: last
    update, last editor, edit permissions, risk and review, and the
    names of inherited members.  Updates none of whose keys is among
    them, such as the class, the description or the stability, change
    the text exactly as no update at all does: the last update is
    stamped and nothing else. *)
Theorem keys_outside_the_table_are_ignored :
  forall (r : Realm) (now content : string) (updates : MetadataParser.Updates)
         (m : Match),
    search metadataRegex content = Some m ->
    unmapped r updates = true ->
    MetadataParser.updateMetadataInContent r now content updates
    = MetadataParser.updateMetadataInContent r now content [].
Proof.
  intros r now content updates m Hm Hu.
  unfold MetadataParser.updateMetadataInContent. rewrite Hm.
  rewrite (unmapped_not_lastUpdate r updates (VStr now) Hu).
  rewrite (unmapped_fields r updates _ (matched m) Hu). reflexivity.
Qed.

Lemma keys_outside_the_table_are_ignored_witness :
  ((exists m, search metadataRegex Sample.experimentalFile = Some m)
   /\ unmapped (realm Sample.fresh)
        [("stability", VStr "stable"); ("class", VStr "Draft")] = true)
  /\ unmapped (realm Sample.fresh) [("constructor", VStr "x")] = false
  /\ MetadataParser.updateMetadataInContent (realm Sample.fresh) Sample.now
       Sample.experimentalFile
       [("stability", VStr "stable"); ("class", VStr "Draft")]
     = MetadataParser.updateMetadataInContent (realm Sample.fresh) Sample.now
         Sample.experimentalFile [].
Proof.
  destruct (search metadataRegex Sample.experimentalFile) as [m|] eqn:Hm;
    [|vm_compute in Hm; discriminate].
  split; [split; [eauto | reflexivity]|]. split; [reflexivity|].
  apply (keys_outside_the_table_are_ignored (realm Sample.fresh) Sample.now
           Sample.experimentalFile
           [("stability", VStr "stable"); ("class", VStr "Draft")] m Hm eq_refl).
Defined.

(** ** The values the extraction reads *)

Lemma allChars_takeWhile (P : ascii -> bool) (s : string) :
  allChars P (takeWhile P s) = true.
Proof.
  induction s as [|c s IH]; simpl; [reflexivity|].
  destruct (P c) eqn:Hc; simpl; [rewrite Hc, IH|]; reflexivity.
Qed.

Lemma allChars_dropWhile (P f : ascii -> bool) (s : string) :
  allChars P s = true -> allChars P (dropWhile f s) = true.
Proof.
  induction s as [|c s IH]; simpl; [reflexivity|].
  intros H. destruct (f c); [|exact H].
  apply andb_prop in H as [_ Hs]. apply IH. exact Hs.
Qed.

Lemma allChars_trim (P : ascii -> bool) (s : string) :
  allChars P s = true -> allChars P (trim s) = true.
Proof.
  intros H. unfold trim.
  rewrite allChars_rev. apply allChars_dropWhile.
  rewrite allChars_rev. apply allChars_dropWhile. exact H.
Qed.

Lemma stripQuotes_clean (s : string) :
  allChars (fun c => negb (isLineBreak c)) s = true ->
  allChars cleanChar (stripQuotes s) = true.
Proof.
  unfold stripQuotes. induction s as [|c s IH]; simpl; [reflexivity|].
  intros H. apply andb_prop in H as [Hc Hs].
  destruct (isQuote c) eqn:Q; simpl.
  - apply IH. exact Hs.
  - unfold cleanChar at 1. rewrite Q, Hc. simpl. apply IH. exact Hs.
Qed.

Lemma lastLineChar_line (ws a b : string) (x : ascii) :
  lastLineChar ws = Some (a, x, b) -> isLineBreak x = false.
Proof.
  revert a b. induction ws as [|c ws IH]; simpl; [discriminate|].
  intros a b. destruct (lastLineChar ws) as [[[a' x'] b']|].
  - intros [= _ <- _]. apply (IH a' b'). reflexivity.
  - destruct (isLineBreak c) eqn:L; [discriminate|].
    intros [= _ <- _]. exact L.
Qed.

Lemma spaceThenLine_line (s ws v r : string) :
  spaceThenLine s = Some (ws, v, r) ->
  allChars (fun c => negb (isLineBreak c)) v = true.
Proof.
  unfold spaceThenLine. destruct (dropWhile isWhiteSpace s) as [|c t].
  - destruct (lastLineChar _) as [[[a x] b]|] eqn:L; [|discriminate].
    intros [= _ <- _]. simpl. rewrite (lastLineChar_line _ _ _ _ L). reflexivity.
  - intros [= _ <- _].
    exact (allChars_takeWhile (fun c => negb (isLineBreak c)) (String c t)).
Qed.

(** What a search finds is what the expression gives at some place. *)
Lemma search_found (re : Anchored) (s : string) (m : Match) :
  search re s = Some m ->
  exists t, re t = Some (matched m, group1 m, after m).
Proof.
  revert m. induction s as [|c s IH]; intros m; simpl.
  - destruct (re EmptyString) as [[[x g] y]|] eqn:R; [|discriminate].
    intros [= <-]. eauto.
  - destruct (re (String c s)) as [[[x g] y]|] eqn:R.
    + intros [= <-]. eauto.
    + destruct (search re s) as [m'|]; [|discriminate].
      simpl. intros [= <-]. destruct (IH m' eq_refl) as (t & Ht).
      exists t. destruct m'; exact Ht.
Qed.

Lemma parseField_value (content field : string) (m : Match) :
  search (fieldValueRegex field) content = Some m ->
  allChars cleanChar (stripQuotes (trim (default EmptyString (group1 m)))) = true.
Proof.
  intros H. destruct (search_found _ _ _ H) as (t & Ht).
  unfold fieldValueRegex in Ht.
  destruct (startsWithCI field t) as [[f r1]|]; [|discriminate].
  destruct (spaceThenLine r1) as [[[ws v] r2]|] eqn:S; [|discriminate].
  injection Ht as _ Hg _. rewrite <- Hg. simpl.
  apply stripQuotes_clean.
  apply allChars_trim. apply (spaceThenLine_line _ _ _ _ S).
Qed.

Ltac scalar_is_clean get :=
  unfold MetadataParser.parseScalarsAndArrays; cbv zeta;
  repeat (rewrite (parseArrayField_keeps get) by (intros ? []; reflexivity));
  repeat (rewrite (parseField_keeps get) by (intros ? []; reflexivity));
  unfold MetadataParser.parseField at 1;
  match goal with
  | |- context [search (fieldValueRegex ?f) ?c] =>
      let M := fresh "M" in
      destruct (search (fieldValueRegex f) c) as [?m|] eqn:M;
      [ match goal with
        | |- clean (get (?setter ?v ?inner)) =>
            generalize inner; intros []; simpl;
            apply (parseField_value c f _ M)
        end
      | repeat (rewrite (parseField_keeps get) by (intros ? []; reflexivity));
        exact I ]
  end.

Lemma scalars_are_clean (metadataBlock : string) :
  let base := MetadataParser.parseScalarsAndArrays metadataBlock
                MetadataParser.emptyMetadata in
  clean (class base) /\ clean (description base) /\ clean (lastUpdate base)
  /\ clean (lastEditor base) /\ clean (changelog base) /\ clean (stability base)
  /\ clean (editPermissions base) /\ clean (breakingChangesRisk base)
  /\ clean (aiContext base).
Proof.
  cbv zeta. repeat split.
  - scalar_is_clean class.
  - scalar_is_clean description.
  - scalar_is_clean lastUpdate.
  - scalar_is_clean lastEditor.
  - scalar_is_clean changelog.
  - scalar_is_clean stability.
  - scalar_is_clean editPermissions.
  - scalar_is_clean breakingChangesRisk.
  - scalar_is_clean aiContext.
Qed.

(** X20. Whatever the text, the scalar fields of the record the
    extraction returns hold neither a quote character nor a line break:
    a value is the rest of one line, and every quote is taken out of
    it, so that ['read-only'] in quotes counts as [read-only]. *)
Theorem extracted_values_are_single_line_and_unquoted :
  forall (rt : Runtime) (content : string) (st st' : State) (metadata : AIMetadata),
    MetadataParser.extractMetadataFromContent rt content st
    = (Ok (Some metadata), st') ->
    clean (class metadata) /\ clean (description metadata)
    /\ clean (lastUpdate metadata) /\ clean (lastEditor metadata)
    /\ clean (changelog metadata) /\ clean (stability metadata)
    /\ clean (editPermissions metadata) /\ clean (breakingChangesRisk metadata)
    /\ clean (aiContext metadata).
Proof.
  intros rt content st st' metadata H.
  destruct (extractMetadataFromContent_shape rt content st st' metadata H)
    as (m & _ & Hshape).
  pose proof (scalars_are_clean (matched m)) as Hc. cbv zeta in Hc.
  destruct Hshape as [->|(v & ->)]; unfold fieldsWithoutMethodPermissions;
    destruct (MetadataParser.parseScalarsAndArrays _ _); exact Hc.
Qed.

Lemma extracted_values_are_single_line_and_unquoted_witness :
  exists (metadata : AIMetadata) (st' : State),
    MetadataParser.extractMetadataFromContent Sample.rt Cases.selfApprovedFile
      Sample.fresh = (Ok (Some metadata), st')
    /\ editPermissions metadata = Some "read-only"
    /\ clean (editPermissions metadata).
Proof.
  destruct (MetadataParser.extractMetadataFromContent Sample.rt Cases.selfApprovedFile
              Sample.fresh) as [[[metadata|]|e] st'] eqn:E;
    try (vm_compute in E; discriminate).
  exists metadata, st'. split; [reflexivity|].
  destruct (extracted_values_are_single_line_and_unquoted Sample.rt
              Cases.selfApprovedFile Sample.fresh st' metadata E)
    as (_ & _ & _ & _ & _ & _ & Hc & _).
  split; [|exact Hc].
  vm_compute in E. injection E as <- _. reflexivity.
Defined.
